(** * The GLX backend of compton (src/backend/gl/glx.c)

    A shallow embedding of the GLX backend: the FBConfig comparator and
    the depth-indexed FBConfig table, the per-window pixmap/texture
    binding and its release, the backend teardown, the buffer-age query
    and the compose path.

    Conventions.
    - A C [int] is a [Z]; every arithmetic operation of the source that
      can leave the 32-bit range is written with its wrap-around
      ([sub32], [neg32]).
    - Handles (XIDs, GL names, GLX objects, pointers to driver objects)
      are [Z]; the null handle is [0].
    - The X server and the GL driver are a record of answers,
      [Display]: the functions of the backend are deterministic in it.
    - Calls that create, bind, draw or release something (GL, GLX, xcb,
      free) are recorded, in program order, in a list of [call]s.  The
      queries on FBConfigs are answered by [Display] and not recorded;
      logging is left out.
    - [gd->fbconfigs] is an array of [OPENGL_MAX_DEPTH + 1] pointers; it
      is a finite map from index to pointee, a null slot being an absent
      key.  An access outside the array has no defined behaviour: the
      accessors return [None] there, and so does every function that
      performs such an access. *)

From stdpp Require Import base option list gmap strings.
From Stdlib Require Import ZArith Lia Bool Ascii.

Local Open Scope Z_scope.

(** ** C integers *)

Definition wrap32 (x : Z) : Z := (x + 2 ^ 31) mod 2 ^ 32 - 2 ^ 31.

(** [a - b] on [int]. *)
Definition sub32 (a b : Z) : Z := wrap32 (a - b).

(** [-a] on [int]. *)
Definition neg32 (a : Z) : Z := wrap32 (- a).

(** [(int)u] for an [unsigned int] [u]. *)
Definition int_of_uint (u : Z) : Z := wrap32 u.

(** The value an [unsigned int] object holds. *)
Definition uint32 (u : Z) : Z := u mod 2 ^ 32.

(** ** Constants of the GL and GLX headers *)

Definition Success : Z := 0.
Definition GLX_BAD_ATTRIBUTE : Z := 2.

Definition GLX_TEXTURE_FORMAT_EXT : Z := 0x20D5.
Definition GLX_TEXTURE_TARGET_EXT : Z := 0x20D6.
Definition GLX_TEXTURE_FORMAT_RGB_EXT : Z := 0x20D9.
Definition GLX_TEXTURE_FORMAT_RGBA_EXT : Z := 0x20DA.
Definition GLX_TEXTURE_2D_BIT_EXT : Z := 0x2.
Definition GLX_TEXTURE_RECTANGLE_BIT_EXT : Z := 0x4.
Definition GLX_TEXTURE_2D_EXT : Z := 0x20DC.
Definition GLX_TEXTURE_RECTANGLE_EXT : Z := 0x20DD.
Definition GLX_FRONT_LEFT_EXT : Z := 0x20DE.
Definition GLX_BACK_BUFFER_AGE_EXT : Z := 0x20F4.

Definition GL_TEXTURE_2D : Z := 0x0DE1.
Definition GL_TEXTURE_RECTANGLE : Z := 0x84F5.
Definition GL_TEXTURE_MAG_FILTER : Z := 0x2800.
Definition GL_TEXTURE_MIN_FILTER : Z := 0x2801.
Definition GL_TEXTURE_WRAP_S : Z := 0x2802.
Definition GL_TEXTURE_WRAP_T : Z := 0x2803.
Definition GL_NEAREST : Z := 0x2600.
Definition GL_CLAMP_TO_EDGE : Z := 0x812F.

Definition XCB_NONE : Z := 0.

(** Modelled from the spec: [OPENGL_MAX_DEPTH] is defined in common.h,
    which is not part of the sources at hand.  The spec sizes the table
    [[0, maxDepth]] and works its scenario with [maxDepth = 32]; the
    source reads [gd->fbconfigs[32]], so the bound is at least 32. *)
Definition OPENGL_MAX_DEPTH : Z := 32.

(** The FBConfig attributes the backend queries. *)
Inductive glx_attr : Type :=
| GLX_BUFFER_SIZE
| GLX_DOUBLEBUFFER
| GLX_RED_SIZE
| GLX_ALPHA_SIZE
| GLX_DEPTH_SIZE
| GLX_STENCIL_SIZE
| GLX_SAMPLES
| GLX_BIND_TO_TEXTURE_RGB_EXT
| GLX_BIND_TO_TEXTURE_RGBA_EXT
| GLX_BIND_TO_MIPMAP_TEXTURE_EXT
| GLX_BIND_TO_TEXTURE_TARGETS_EXT
| GLX_Y_INVERTED_EXT.

(** ** The X server and the GL driver *)

Definition GLXFBConfig := Z.

Record Display : Type := {
  (** what [glXGetFBConfigAttrib] stores for a config and an attribute;
      [None] when the call does not return [Success] *)
  fbattrib : GLXFBConfig -> glx_attr -> option Z;
  (** the array [glXGetFBConfigs] returns *)
  screen_fbconfigs : list GLXFBConfig;
  (** [glXGetVisualFromFBConfig(..)->depth]; [None] for a null result *)
  fbvisual_depth : GLXFBConfig -> option Z;
  (** the id [xcb_generate_id] hands out *)
  generated_id : Z;
  (** the handle [glXCreatePixmap] returns for a config and a pixmap *)
  created_glxpixmap : GLXFBConfig -> Z -> Z;
  (** the name [glGenTextures] stores *)
  generated_texture : Z;
  (** what [glXQueryDrawable] stores for [GLX_BACK_BUFFER_AGE_EXT] *)
  back_buffer_age : Z -> Z;
}.

(** [glXGetFBConfigAttrib(dpy, cfg, attr, &v)]: the status returned and
    the content of [v] after the call, [old] being its content before. *)
Definition glXGetFBConfigAttrib (dpy : Display) (cfg : GLXFBConfig)
    (attr : glx_attr) (old : Z) : Z * Z :=
  match fbattrib dpy cfg attr with
  | Some v => (Success, v)
  | None => (GLX_BAD_ATTRIBUTE, old)
  end.

(** ** Data of the backend *)

(** Wrapper of a GLX FBConfig. *)
Record glx_fbconfig_t : Type := {
  cfg : GLXFBConfig;
  texture_fmt : Z;
  texture_tgts : Z;
  fbc_y_inverted : bool;
}.

(** [gl_texture_t] of gl_common.h, with the fields this file uses. *)
Record gl_texture_t : Type := {
  texture : Z;
  target : Z;
  width : Z;
  height : Z;
  y_inverted : bool;
}.

Record _glx_win_data : Type := {
  wd_texture : gl_texture_t;
  glpixmap : Z;
  pixmap : Z;
}.

(** [struct _glx_data].  The shaders are owned by gl_common: only their
    handles are kept here; [blur_shader] is the array of [MAX_BLUR_PASS]
    of them.  The two entry points resolved at initialisation are the
    calls [C_glXBindTexImage] and [C_glXReleaseTexImage] below. *)
Record _glx_data : Type := {
  glx_event : Z;
  glx_error : Z;
  ctx : Z;
  cap_non_power_of_two_texture : bool;
  win_shader : Z;
  blur_shader : list Z;
  fbconfigs : gmap Z glx_fbconfig_t;
}.

(** [win], with the fields this file uses; [win_data] is the binding the
    compositor keeps for the window, if any. *)
Record win : Type := {
  id : Z;
  g_depth : N;
  widthb : Z;
  heightb : Z;
  win_data : option _glx_win_data;
}.

Inductive swap_method : Type :=
| SWAPM_UNDEFINED
| SWAPM_COPY
| SWAPM_EXCHANGE
| SWAPM_BUFFER_AGE.

(** [session_t], with the fields this file uses; [list] is the linked
    list of windows. *)
Record session_t : Type := {
  dpy : Display;
  depth : Z;
  root : Z;
  overlay : Z;
  root_width : Z;
  root_height : Z;
  has_name_pixmap : bool;
  glx_swap_method : swap_method;
  list_ : list win;
}.

(** ** Comparing two FBConfigs *)

Definition glx_cmp_fbconfig_cmpattr (ps : session_t)
    (pfbc_a pfbc_b : glx_fbconfig_t) (attr : glx_attr) : Z :=
  let attr_a := 0 in
  let attr_b := 0 in
  let '(_, attr_a) := glXGetFBConfigAttrib (dpy ps) (cfg pfbc_a) attr attr_a in
  let '(_, attr_b) := glXGetFBConfigAttrib (dpy ps) (cfg pfbc_b) attr attr_b in
  sub32 attr_a attr_b.

(** The two macros of [glx_cmp_fbconfig]; [k] is the code that follows
    the macro. *)
Definition P_CMPATTR_LT (ps : session_t) (pfbc_a pfbc_b : glx_fbconfig_t)
    (attr : glx_attr) (k : Z) : Z :=
  let result := glx_cmp_fbconfig_cmpattr ps pfbc_a pfbc_b attr in
  if negb (result =? 0) then neg32 result else k.

Definition P_CMPATTR_GT (ps : session_t) (pfbc_a pfbc_b : glx_fbconfig_t)
    (attr : glx_attr) (k : Z) : Z :=
  let result := glx_cmp_fbconfig_cmpattr ps pfbc_a pfbc_b attr in
  if negb (result =? 0) then result else k.

(** Compare two GLX FBConfigs to find the preferred one.  [tmpattr] is
    declared without an initialiser and its address is taken: until a
    query stores into it, it holds an unspecified [int], here [indet]. *)
Definition glx_cmp_fbconfig (indet : Z) (ps : session_t)
    (pfbc_a pfbc_b : option glx_fbconfig_t) : Z :=
  match pfbc_a with
  | None => -1
  | Some a =>
    match pfbc_b with
    | None => 1
    | Some b =>
      let tmpattr := indet in
      (* Avoid 10-bit colors *)
      let '(_, tmpattr) :=
        glXGetFBConfigAttrib (dpy ps) (cfg a) GLX_RED_SIZE tmpattr in
      if negb (tmpattr =? 8) then -1
      else
        let '(_, tmpattr) :=
          glXGetFBConfigAttrib (dpy ps) (cfg b) GLX_RED_SIZE tmpattr in
        if negb (tmpattr =? 8) then 1
        else
          P_CMPATTR_LT ps a b GLX_BIND_TO_TEXTURE_RGBA_EXT
          (P_CMPATTR_LT ps a b GLX_DOUBLEBUFFER
          (P_CMPATTR_LT ps a b GLX_STENCIL_SIZE
          (P_CMPATTR_LT ps a b GLX_DEPTH_SIZE
          (P_CMPATTR_GT ps a b GLX_BIND_TO_MIPMAP_TEXTURE_EXT
          0))))
    end
  end.

(** ** The depth-indexed table of FBConfigs *)

Definition in_fbconfigs (i : Z) : bool :=
  (0 <=? i) && (i <=? OPENGL_MAX_DEPTH).

(** Reading [gd->fbconfigs[i]]: [Some None] is a null slot, [None] an
    access outside the array. *)
Definition fbconfigs_get (gd : _glx_data) (i : Z)
    : option (option glx_fbconfig_t) :=
  if in_fbconfigs i then Some (fbconfigs gd !! i) else None.

Definition set_fbconfigs (gd : _glx_data) (t : gmap Z glx_fbconfig_t)
    : _glx_data :=
  {| glx_event := glx_event gd; glx_error := glx_error gd; ctx := ctx gd;
     cap_non_power_of_two_texture := cap_non_power_of_two_texture gd;
     win_shader := win_shader gd; blur_shader := blur_shader gd;
     fbconfigs := t |}.

(** [if (!gd->fbconfigs[i]) gd->fbconfigs[i] = cmalloc(glx_fbconfig_t);
    *gd->fbconfigs[i] = c]: the slot is allocated when null, and its
    pointee overwritten. *)
Definition fbconfigs_store (gd : _glx_data) (i : Z) (c : glx_fbconfig_t)
    : option _glx_data :=
  if in_fbconfigs i then Some (set_fbconfigs gd (<[i := c]> (fbconfigs gd)))
  else None.

(** Update the FBConfig of given depth. *)
Definition glx_update_fbconfig_bydepth (indet : Z) (ps : session_t)
    (gd : _glx_data) (depth : Z) (pfbcfg : glx_fbconfig_t)
    : option _glx_data :=
  (* Make sure the depth is sane *)
  if (depth <? 0) || (depth >? OPENGL_MAX_DEPTH) then Some gd
  else
    (* Compare new FBConfig with current one *)
    cur ← fbconfigs_get gd depth;
    if glx_cmp_fbconfig indet ps cur (Some pfbcfg) <? 0
    then fbconfigs_store gd depth pfbcfg
    else Some gd.

(** The locals of one iteration of the loop of [glx_update_fbconfig]
    when it reaches line 261, past every [continue]. *)
Record fbprobe : Type := {
  pr_fbinfo : glx_fbconfig_t;
  pr_depth : Z;
  pr_depth_alpha : Z;
  pr_visualdepth : Z;
  pr_rgb : bool;
  pr_rgba : bool;
}.

Definition set_texture_fmt (c : glx_fbconfig_t) (fmt : Z) : glx_fbconfig_t :=
  {| cfg := cfg c; texture_fmt := fmt; texture_tgts := texture_tgts c;
     fbc_y_inverted := fbc_y_inverted c |}.

(** Lines 205-259: the queries on one candidate.  [None] is a
    [continue].  [GLX_SAMPLES] is defined by the GLX headers, so the
    multisample test is compiled in. *)
Definition glx_update_fbconfig_probe (ps : session_t) (pcur : GLXFBConfig)
    : option fbprobe :=
  let depth := 0 in
  let depth_alpha := 0 in
  let val := 0 in
  (* Skip over multi-sampled visuals *)
  let '(st, val) := glXGetFBConfigAttrib (dpy ps) pcur GLX_SAMPLES val in
  if (st =? Success) && (val >? 1) then None
  else
    let '(st_d, depth) :=
      glXGetFBConfigAttrib (dpy ps) pcur GLX_BUFFER_SIZE depth in
    let '(st_a, depth_alpha) :=
      if negb (st_d =? Success) then (st_d, depth_alpha)
      else glXGetFBConfigAttrib (dpy ps) pcur GLX_ALPHA_SIZE depth_alpha in
    if negb (st_d =? Success) || negb (st_a =? Success) then None
    else
      let '(st, tgts) :=
        glXGetFBConfigAttrib (dpy ps) pcur GLX_BIND_TO_TEXTURE_TARGETS_EXT 0 in
      if negb (st =? Success) then None
      else
        match fbvisual_depth (dpy ps) pcur with
        | None => None
        | Some visualdepth =>
          let '(rgba, val) :=
            if (depth >=? 32) && negb (depth_alpha =? 0) then
              let '(st, val) :=
                glXGetFBConfigAttrib (dpy ps) pcur
                  GLX_BIND_TO_TEXTURE_RGBA_EXT val in
              ((st =? Success) && negb (val =? 0), val)
            else (false, val) in
          let '(st, val) :=
            glXGetFBConfigAttrib (dpy ps) pcur GLX_BIND_TO_TEXTURE_RGB_EXT val in
          let rgb := (st =? Success) && negb (val =? 0) in
          let '(st, val) :=
            glXGetFBConfigAttrib (dpy ps) pcur GLX_Y_INVERTED_EXT val in
          let y_inv := if st =? Success then negb (val =? 0) else false in
          Some {| pr_fbinfo :=
                    {| cfg := pcur; texture_fmt := 0; texture_tgts := tgts;
                       fbc_y_inverted := y_inv |};
                  pr_depth := depth; pr_depth_alpha := depth_alpha;
                  pr_visualdepth := visualdepth;
                  pr_rgb := rgb; pr_rgba := rgba |}
        end.

(** Lines 261-267: the candidate offered as an RGB config. *)
Definition glx_update_fbconfig_rgb (indet : Z) (ps : session_t)
    (pr : fbprobe) (gd : _glx_data) : option _glx_data :=
  let tgtdpt := sub32 (pr_depth pr) (pr_depth_alpha pr) in
  if (tgtdpt =? pr_visualdepth pr) && (tgtdpt <? 32) && pr_rgb pr then
    glx_update_fbconfig_bydepth indet ps gd tgtdpt
      (set_texture_fmt (pr_fbinfo pr) GLX_TEXTURE_FORMAT_RGB_EXT)
  else Some gd.

(** The condition of line 269, [depth == visualdepth && rgba]. *)
Definition qualifies_rgba (pr : fbprobe) : bool :=
  (pr_depth pr =? pr_visualdepth pr) && pr_rgba pr.

(** Lines 269-272: the candidate offered as an RGBA config. *)
Definition glx_update_fbconfig_rgba (indet : Z) (ps : session_t)
    (pr : fbprobe) (gd : _glx_data) : option _glx_data :=
  if qualifies_rgba pr then
    glx_update_fbconfig_bydepth indet ps gd (pr_depth pr)
      (set_texture_fmt (pr_fbinfo pr) GLX_TEXTURE_FORMAT_RGBA_EXT)
  else Some gd.

(** One iteration of the loop over the candidates. *)
Definition glx_update_fbconfig_iter (indet : Z) (ps : session_t)
    (gd : _glx_data) (pcur : GLXFBConfig) : option _glx_data :=
  match glx_update_fbconfig_probe ps pcur with
  | None => Some gd
  | Some pr =>
    gd ← glx_update_fbconfig_rgb indet ps pr gd;
    glx_update_fbconfig_rgba indet ps pr gd
  end.

(** [for (pcur = pfbcfgs; pcur < pfbcfgs + nele; pcur++)]. *)
Fixpoint glx_update_fbconfig_loop (indet : Z) (ps : session_t)
    (gd : _glx_data) (pfbcfgs : list GLXFBConfig) : option _glx_data :=
  match pfbcfgs with
  | [] => Some gd
  | pcur :: rest =>
    gd ← glx_update_fbconfig_iter indet ps gd pcur;
    glx_update_fbconfig_loop indet ps gd rest
  end.

(** Get GLX FBConfigs for all depths: the returned flag and the backend
    data after the call. *)
Definition glx_update_fbconfig (indet : Z) (gd : _glx_data) (ps : session_t)
    : option (bool * _glx_data) :=
  (* Acquire all FBConfigs and loop through them *)
  gd ← glx_update_fbconfig_loop indet ps gd (screen_fbconfigs (dpy ps));
  (* Sanity checks *)
  dflt ← fbconfigs_get gd (depth ps);
  match dflt with
  | None => Some (false, gd)
  | Some _ =>
    _ ← fbconfigs_get gd 32;
    Some (true, gd)
  end.

(** ** Calls that leave the backend *)

(** [pixman_box32_t], and a region as the array of rectangles
    [pixman_region32_rectangles] gives access to. *)
Record pixman_box32_t : Type := {
  x1 : Z;
  y1 : Z;
  x2 : Z;
  y2 : Z;
}.

Definition region_t := list pixman_box32_t.

(** The arguments of [gl_compose], in the order of its parameters. *)
Record gl_compose_args : Type := {
  gc_ptex : gl_texture_t;
  gc_x : Z;
  gc_y : Z;
  gc_dx : Z;
  gc_dy : Z;
  gc_width : Z;
  gc_height : Z;
  gc_z : Z;
  gc_opacity : Z;
  gc_argb : bool;
  gc_neg : bool;
  gc_reg_tgt : region_t;
  gc_shader : Z;
}.

Inductive call : Type :=
| C_glBindTexture (tgt tex : Z)
| C_glXBindTexImage (drawable buffer : Z)
| C_glXReleaseTexImage (drawable buffer : Z)
| C_glXCreatePixmap (config : GLXFBConfig) (pix : Z) (attrs : list Z)
| C_glXDestroyPixmap (glpix : Z)
| C_glGenTextures
| C_glTexParameteri (tgt pname param : Z)
| C_glDeleteTextures (tex : Z)
| C_gl_check_err
| C_xcb_generate_id
| C_xcb_composite_name_window_pixmap (window pix : Z)
| C_xcb_free_pixmap (pix : Z)
| C_free_win_data (wd : _glx_win_data)
| C_gl_free_blur_shader (shader : Z)
| C_gl_free_prog_main (shader : Z)
| C_free_fbconfig (i : Z) (p : option glx_fbconfig_t)
| C_glXDestroyContext (context : Z)
| C_free_glx_data
| C_glXSwapBuffers (drawable : Z)
| C_glXQueryDrawable (drawable attr : Z)
| C_gl_compose (args : gl_compose_args).

(** Recognisers used to state what a sequence of calls contains. *)
Definition is_xcb_free_pixmap (c : call) : bool :=
  match c with C_xcb_free_pixmap _ => true | _ => false end.

Definition is_glXDestroyPixmap (c : call) : bool :=
  match c with C_glXDestroyPixmap _ => true | _ => false end.

Definition is_glXReleaseTexImage (c : call) : bool :=
  match c with C_glXReleaseTexImage _ _ => true | _ => false end.

Definition is_glDeleteTextures (c : call) : bool :=
  match c with C_glDeleteTextures _ => true | _ => false end.

Definition is_glGenTextures (c : call) : bool :=
  match c with C_glGenTextures => true | _ => false end.

Definition is_free_win_data (c : call) : bool :=
  match c with C_free_win_data _ => true | _ => false end.

(** A call that tears down a part of a window's binding. *)
Definition is_win_release (c : call) : bool :=
  is_glXReleaseTexImage c || is_glXDestroyPixmap c || is_glDeleteTextures c
  || is_xcb_free_pixmap c || is_free_win_data c.

(** ** Releasing a window's binding *)

Definition set_glpixmap (wd : _glx_win_data) (p : Z) : _glx_win_data :=
  {| wd_texture := wd_texture wd; glpixmap := p; pixmap := pixmap wd |}.

(** Release binding of a texture: the binding after the call and the
    calls made. *)
Definition glx_release_pixmap (gd : _glx_data) (dpy : Display)
    (wd : _glx_win_data) : _glx_win_data * list call :=
  (* Release binding *)
  let t1 :=
    if negb (glpixmap wd =? 0) && negb (texture (wd_texture wd) =? 0) then
      [ C_glBindTexture (target (wd_texture wd)) (texture (wd_texture wd));
        C_glXReleaseTexImage (glpixmap wd) GLX_FRONT_LEFT_EXT;
        C_glBindTexture (target (wd_texture wd)) 0 ]
    else [] in
  (* Free GLX Pixmap *)
  let '(wd, t2) :=
    if negb (glpixmap wd =? 0)
    then (set_glpixmap wd 0, [C_glXDestroyPixmap (glpixmap wd)])
    else (wd, []) in
  (wd, t1 ++ t2 ++ [C_gl_check_err]).

(** Free a glx_texture_t. *)
Definition glx_release_win (gd : _glx_data) (ps : session_t) (w : win)
    (wd : _glx_win_data) : list call :=
  let '(wd, t) := glx_release_pixmap gd (dpy ps) wd in
  t ++ [C_glDeleteTextures (texture (wd_texture wd))]
    (* Free structure itself *)
    ++ [C_free_win_data wd].

(** Free GLX part of win.  The three statements of its body are
    commented out in the source. *)
Definition free_win_res_glx (ps : session_t) (w : win) : list call := [].

(** ** Destroying the backend *)

Definition set_ctx (gd : _glx_data) (c : Z) : _glx_data :=
  {| glx_event := glx_event gd; glx_error := glx_error gd; ctx := c;
     cap_non_power_of_two_texture := cap_non_power_of_two_texture gd;
     win_shader := win_shader gd; blur_shader := blur_shader gd;
     fbconfigs := fbconfigs gd |}.

(** [for (int i = 0; i <= OPENGL_MAX_DEPTH; ++i)
      { free(gd->fbconfigs[i]); gd->fbconfigs[i] = NULL; }],
    written as a recursion on the number [n] of slots left, [i] being the
    current index.  The indices stay inside the array. *)
Fixpoint glx_deinit_fbconfigs (n : nat) (i : Z) (gd : _glx_data)
    : _glx_data * list call :=
  match n with
  | O => (gd, [])
  | S n' =>
    let c := C_free_fbconfig i (fbconfigs gd !! i) in
    let gd := set_fbconfigs gd (delete i (fbconfigs gd)) in
    let '(gd, t) := glx_deinit_fbconfigs n' (i + 1) gd in
    (gd, c :: t)
  end.

(** Destroy GLX related resources: the backend data at the moment it is
    freed, and the calls made. *)
Definition glx_deinit (gd : _glx_data) (ps : session_t)
    : _glx_data * list call :=
  (* Free all GLX resources of windows *)
  let t_win := flat_map (free_win_res_glx ps) (list_ ps) in
  (* Free GLSL shaders/programs *)
  let t_blur := map C_gl_free_blur_shader (blur_shader gd) in
  let t_prog := [C_gl_free_prog_main (win_shader gd); C_gl_check_err] in
  (* Free FBConfigs *)
  let '(gd, t_fbc) :=
    glx_deinit_fbconfigs (Z.to_nat (OPENGL_MAX_DEPTH + 1)) 0 gd in
  (* Destroy GLX context *)
  let '(gd, t_ctx) :=
    if negb (ctx gd =? 0)
    then (set_ctx gd 0, [C_glXDestroyContext (ctx gd)])
    else (gd, []) in
  (gd, t_win ++ t_blur ++ t_prog ++ t_fbc ++ t_ctx ++ [C_free_glx_data]).

(** ** Creating a window's binding *)

(** [ccalloc(1, struct _glx_win_data)]. *)
Definition zeroed_win_data : _glx_win_data :=
  {| wd_texture := {| texture := 0; target := 0; width := 0; height := 0;
                      y_inverted := false |};
     glpixmap := 0; pixmap := 0 |}.

Definition set_pixmap (wd : _glx_win_data) (p : Z) : _glx_win_data :=
  {| wd_texture := wd_texture wd; glpixmap := glpixmap wd; pixmap := p |}.

Definition set_wd_texture (wd : _glx_win_data) (t : gl_texture_t)
    : _glx_win_data :=
  {| wd_texture := t; glpixmap := glpixmap wd; pixmap := pixmap wd |}.

(** The [err:] label of [glx_prepare_win]. *)
Definition glx_prepare_win_err (ps : session_t) (w : win)
    (wd : _glx_win_data) : option _glx_win_data * list call :=
  let t1 :=
    if negb (pixmap wd =? 0) && negb (pixmap wd =? id w)
    then [C_xcb_free_pixmap (pixmap wd)] else [] in
  let t2 :=
    if negb (glpixmap wd =? 0)
    then [C_glXDestroyPixmap (glpixmap wd)] else [] in
  (None, t1 ++ t2 ++ [C_free_win_data wd]).

(** The choice of a texture target for the pixmap. *)
Definition glx_prepare_win_tex_tgt (gd : _glx_data) (pcfg : glx_fbconfig_t)
    : Z :=
  if negb (Z.land GLX_TEXTURE_2D_BIT_EXT (texture_tgts pcfg) =? 0)
     && cap_non_power_of_two_texture gd
  then GLX_TEXTURE_2D_EXT
  else if negb (Z.land GLX_TEXTURE_RECTANGLE_BIT_EXT (texture_tgts pcfg) =? 0)
  then GLX_TEXTURE_RECTANGLE_EXT
  else if Z.land GLX_TEXTURE_2D_BIT_EXT (texture_tgts pcfg) =? 0
  then GLX_TEXTURE_RECTANGLE_EXT
  else GLX_TEXTURE_2D_EXT.

(** [glx_prepare_win]: the binding returned ([None] for a null result)
    and the calls made.  [w->g.depth] is the depth of an
    [xcb_get_geometry_reply_t], an unsigned byte: once it is not above
    [OPENGL_MAX_DEPTH] the index is inside the table. *)
Definition glx_prepare_win (gd : _glx_data) (ps : session_t) (w : win)
    : option _glx_win_data * list call :=
  if Z.of_N (g_depth w) >? OPENGL_MAX_DEPTH then (None, [])
  else
    match fbconfigs gd !! Z.of_N (g_depth w) with
    | None => (None, [])
    | Some pcfg =>
      let tex_tgt := glx_prepare_win_tex_tgt gd pcfg in
      let attrs :=
        [ GLX_TEXTURE_FORMAT_EXT; texture_fmt pcfg;
          GLX_TEXTURE_TARGET_EXT; tex_tgt; 0 ] in
      let wd := zeroed_win_data in
      let wd :=
        set_wd_texture wd
          {| texture := texture (wd_texture wd);
             target := if GLX_TEXTURE_2D_EXT =? tex_tgt
                       then GL_TEXTURE_2D else GL_TEXTURE_RECTANGLE;
             width := width (wd_texture wd);
             height := height (wd_texture wd);
             y_inverted := fbc_y_inverted pcfg |} in
      let '(wd, t_pix) :=
        if has_name_pixmap ps then
          let p := generated_id (dpy ps) in
          (set_pixmap wd p,
           [C_xcb_generate_id; C_xcb_composite_name_window_pixmap (id w) p])
        else (set_pixmap wd (id w), []) in
      if pixmap wd =? 0 then
        let '(r, t) := glx_prepare_win_err ps w wd in (r, t_pix ++ t)
      else
        let wd :=
          set_glpixmap wd (created_glxpixmap (dpy ps) (cfg pcfg) (pixmap wd)) in
        let t_glx := [C_glXCreatePixmap (cfg pcfg) (pixmap wd) attrs] in
        if glpixmap wd =? 0 then
          let '(r, t) := glx_prepare_win_err ps w wd in
          (r, t_pix ++ t_glx ++ t)
        else
          (* Create texture *)
          let texture_ := generated_texture (dpy ps) in
          let target_ := target (wd_texture wd) in
          let t_gen := [C_glGenTextures] in
          if texture_ =? 0 then
            let '(r, t) := glx_prepare_win_err ps w wd in
            (r, t_pix ++ t_glx ++ t_gen ++ t)
          else
            let t_tex :=
              [ C_glBindTexture target_ texture_;
                C_glTexParameteri target_ GL_TEXTURE_MIN_FILTER GL_NEAREST;
                C_glTexParameteri target_ GL_TEXTURE_MAG_FILTER GL_NEAREST;
                C_glTexParameteri target_ GL_TEXTURE_WRAP_S GL_CLAMP_TO_EDGE;
                C_glTexParameteri target_ GL_TEXTURE_WRAP_T GL_CLAMP_TO_EDGE;
                C_glBindTexture target_ 0 ] in
            let wd :=
              set_wd_texture wd
                {| texture := texture_; target := target (wd_texture wd);
                   width := widthb w; height := heightb w;
                   y_inverted := y_inverted (wd_texture wd) |} in
            (Some wd, t_pix ++ t_glx ++ t_gen ++ t_tex)
    end.

(** Bind a X pixmap to an OpenGL texture. *)
Definition glx_render_win (gd : _glx_data) (ps : session_t) (w : win)
    (wd : _glx_win_data) (reg_paint : region_t) : list call :=
  [ C_glBindTexture (target (wd_texture wd)) (texture (wd_texture wd));
    C_glXBindTexImage (glpixmap wd) GLX_FRONT_LEFT_EXT;
    C_glBindTexture (target (wd_texture wd)) 0;
    C_gl_check_err ].

(** ** Presenting *)

(** Modelled from the spec: [get_tgt_window] is defined in common.h,
    which is not part of the sources at hand; it is the drawable of
    Present, "the overlay drawable if one exists, else the root
    drawable", which [glx_present] spells out. *)
Definition get_tgt_window (ps : session_t) : Z :=
  if negb (overlay ps =? XCB_NONE) then overlay ps else root ps.

Definition glx_present (gd : _glx_data) (ps : session_t) : list call :=
  [C_glXSwapBuffers
     (if negb (overlay ps =? XCB_NONE) then overlay ps else root ps)].

(** [glx_buffer_age]: the value returned and the calls made.  [val] is
    an [unsigned int]; [(int)val ?: -1] is [(int)val] unless that is
    zero. *)
Definition glx_buffer_age (gd : _glx_data) (ps : session_t) : Z * list call :=
  match glx_swap_method ps with
  | SWAPM_BUFFER_AGE =>
    let val := uint32 (back_buffer_age (dpy ps) (get_tgt_window ps)) in
    (if negb (int_of_uint val =? 0) then int_of_uint val else -1,
     [C_glXQueryDrawable (get_tgt_window ps) GLX_BACK_BUFFER_AGE_EXT])
  | _ => (-1, [])
  end.

(** ** Composing *)

(** The body of the loop of [glx_compose] on one rectangle. *)
Definition yflip (root_height : Z) (r : pixman_box32_t) : pixman_box32_t :=
  let tmp := y1 r in
  {| x1 := x1 r; y1 := sub32 root_height (y2 r);
     x2 := x2 r; y2 := sub32 root_height tmp |}.

(** [glx_compose].  [region_yflipped] is a copy of [region], local to
    the call; [dump_region] only logs. *)
Definition glx_compose (gd : _glx_data) (ps : session_t) (w : win)
    (wd : _glx_win_data) (dst_x dst_y : Z) (region : region_t) : list call :=
  (* First, we need to flip the y axis of the paint region *)
  let region_yflipped := map (yflip (root_height ps)) region in
  (* Then, we still need to convert the origin of painting *)
  [C_gl_compose
     {| gc_ptex := wd_texture wd; gc_x := 0; gc_y := 0; gc_dx := dst_x;
        gc_dy := sub32 (sub32 (root_height ps) dst_y) (heightb w);
        gc_width := widthb w; gc_height := heightb w; gc_z := 0;
        gc_opacity := 1; gc_argb := true; gc_neg := false;
        gc_reg_tgt := region_yflipped; gc_shader := win_shader gd |}].

(** * Vocabulary of the statements *)

(** "The driver reports RGBA-bind support": the query succeeds and
    stores a nonzero value. *)
Definition reports_rgba_bind (d : Display) (c : GLXFBConfig) : bool :=
  match fbattrib d c GLX_BIND_TO_TEXTURE_RGBA_EXT with
  | Some v => negb (v =? 0)
  | None => false
  end.

(** The flip as the spec words it, on the integers. *)
Definition spec_flip_rect (target_height : Z) (r : pixman_box32_t)
    : pixman_box32_t :=
  {| x1 := x1 r; y1 := target_height - y2 r;
     x2 := x2 r; y2 := target_height - y1 r |}.

Definition spec_flipped_y (target_height y rect_height : Z) : Z :=
  target_height - y - rect_height.

Definition fits_int (x : Z) : Prop := - 2 ^ 31 <= x < 2 ^ 31.

(** The pixmap [glx_prepare_win] uses for a window. *)
Definition prepared_pixmap (ps : session_t) (w : win) : Z :=
  if has_name_pixmap ps then generated_id (dpy ps) else id w.

(** What a failed [glx_prepare_win] leaves behind, read off its calls
    [t]: every GLX pixmap it created has been destroyed, and no texture
    name was generated. *)
Definition rolled_back (ps : session_t) (t : list call) : Prop :=
  (forall c p attrs,
      In (C_glXCreatePixmap c p attrs) t ->
      created_glxpixmap (dpy ps) c p <> 0 ->
      In (C_glXDestroyPixmap (created_glxpixmap (dpy ps) c p)) t)
  /\ (In C_glGenTextures t -> generated_texture (dpy ps) = 0).

(** * A sample screen

    Five configs, as a driver could report them:
    - 1 and 2: 10-bit colour, 30 colour bits in a 32-bit buffer;
    - 3: 8-bit RGB, 24 bits, no alpha;
    - 4: 8-bit RGBA, 32 bits, 8 of alpha, bindable as RGBA;
    - 5: 8-bit colour in a 32-bit buffer with no alpha bits, on a
      visual of depth 32, which the driver reports bindable as RGBA. *)

Definition sample_fbattrib (c : GLXFBConfig) (a : glx_attr) : option Z :=
  match a with
  | GLX_RED_SIZE => Some (if (c =? 1) || (c =? 2) then 10 else 8)
  | GLX_BUFFER_SIZE => Some (if c =? 3 then 24 else 32)
  | GLX_ALPHA_SIZE =>
    Some (if (c =? 1) || (c =? 2) then 2 else if c =? 4 then 8 else 0)
  | GLX_DOUBLEBUFFER => Some (if c =? 2 then 0 else 1)
  | GLX_DEPTH_SIZE => Some 24
  | GLX_STENCIL_SIZE => Some 8
  | GLX_SAMPLES => Some 0
  | GLX_BIND_TO_TEXTURE_RGB_EXT => Some 1
  | GLX_BIND_TO_TEXTURE_RGBA_EXT => Some (if (c =? 4) || (c =? 5) then 1 else 0)
  | GLX_BIND_TO_MIPMAP_TEXTURE_EXT => Some 0
  | GLX_BIND_TO_TEXTURE_TARGETS_EXT => Some 6
  | GLX_Y_INVERTED_EXT => None
  end.

Definition sample_visual_depth (c : GLXFBConfig) : option Z :=
  Some (if (c =? 1) || (c =? 2) then 30 else if c =? 3 then 24 else 32).

(** A display that reports the configs [cfgs], hands out the pixmap id
    [gen], creates the GLX pixmap [glxpix] and the texture [tex], and
    reports the buffer age [age]. *)
Definition sample_dpy (cfgs : list GLXFBConfig) (gen glxpix tex age : Z)
    : Display :=
  {| fbattrib := sample_fbattrib; screen_fbconfigs := cfgs;
     fbvisual_depth := sample_visual_depth; generated_id := gen;
     created_glxpixmap := fun _ _ => glxpix; generated_texture := tex;
     back_buffer_age := fun _ => age |}.

Definition sample_session (d : Display) (dflt : Z) (name_pixmap : bool)
    (swap : swap_method) (ws : list win) : session_t :=
  {| dpy := d; depth := dflt; root := 0x25; overlay := 0;
     root_width := 160; root_height := 100;
     has_name_pixmap := name_pixmap; glx_swap_method := swap; list_ := ws |}.

Definition sample_fbconfig (c : GLXFBConfig) (fmt : Z) : glx_fbconfig_t :=
  {| cfg := c; texture_fmt := fmt; texture_tgts := 6;
     fbc_y_inverted := false |}.

(** The backend data [ccalloc] returns, with a context [c]. *)
Definition sample_glx_data (c : Z) (t : gmap Z glx_fbconfig_t) : _glx_data :=
  {| glx_event := 0; glx_error := 0; ctx := c;
     cap_non_power_of_two_texture := true; win_shader := 11;
     blur_shader := [21; 22]; fbconfigs := t |}.

Definition sample_ps : session_t :=
  sample_session (sample_dpy [] 0 0 0 0) 24 false SWAPM_UNDEFINED [].

Definition sample_win (wd : option _glx_win_data) : win :=
  {| id := 3; g_depth := 24%N; widthb := 10; heightb := 20; win_data := wd |}.

Definition sample_table : gmap Z glx_fbconfig_t :=
  {[ 24 := sample_fbconfig 3 GLX_TEXTURE_FORMAT_RGB_EXT ]}.

(** The binding of window 3 over the named pixmap 5, with the GLX
    pixmap 7 and the texture 9. *)
Definition sample_binding : _glx_win_data :=
  {| wd_texture := {| texture := 9; target := GL_TEXTURE_2D;
                      width := 10; height := 20; y_inverted := false |};
     glpixmap := 7; pixmap := 5 |}.

(** * The rest of the backend *)

(** ** Looking up an extension *)

(** A C string is the [string] of its characters before the terminating
    NUL.  [strstr haystack needle] is the offset of the first occurrence
    of [needle] in [haystack], [None] standing for the null pointer. *)
Fixpoint strstr (haystack needle : string) : option nat :=
  if String.prefix needle haystack then Some 0%nat
  else match haystack with
       | EmptyString => None
       | String _ rest => option_map S (strstr rest needle)
       end.

(** The character [s[i]] of a C string, the terminator included. *)
Definition char_at (s : string) (i : nat) : Ascii.ascii :=
  match String.get i s with
  | Some c => c
  | None => Ascii.zero
  end.

(** Check if a GLX extension exists.  [glx_exts] is what
    [glXQueryExtensionsString] returns for the screen, [None] for a
    null pointer.  The result is [None] when the assertion fails. *)
Definition glx_has_extension (glx_exts : option string) (ext : string)
    : option bool :=
  match glx_exts with
  | None => Some false
  | Some glx_exts =>
    let len := String.length ext in
    match strstr glx_exts ext with
    | None => Some false
    | Some found =>
      (* Make sure extension names are not crazy... *)
      if Ascii.eqb (char_at glx_exts (found + len)) " "%char
         || Ascii.eqb (char_at glx_exts (found + len)) Ascii.zero
      then Some true
      else None
    end
  end.

(** ** Initialising the backend *)

Definition GL_FALSE : Z := 0.
Definition GL_DEPTH_TEST : Z := 0x0B71.
Definition GL_STENCIL_TEST : Z := 0x0B90.
Definition GL_BLEND : Z := 0x0BE2.
Definition GL_EQUAL : Z := 0x0202.
Definition GL_REPLACE : Z := 0x1E01.
Definition GL_TEXTURE_ENV_MODE : Z := 0x2200.
Definition GL_TEXTURE_ENV : Z := 0x2300.
Definition GL_STENCIL_BUFFER_BIT : Z := 0x400.

(** What [glx_init] reads of the session, and what the X server and the
    GL driver answer it, beyond the fields of [session_t] and [Display].
    [MAX_BLUR_PASS] is a constant of common.h, which is not part of the
    sources at hand: it is taken as given. *)
Record glx_init_env : Type := {
  (** [ps->o.glx_no_stencil] *)
  glx_no_stencil : bool;
  (** [ps->vis] *)
  vis : Z;
  MAX_BLUR_PASS : nat;
  (** [glXQueryExtension]: the event and error bases it stores when it
      returns true, [None] when it returns false *)
  query_extension : option (Z * Z);
  (** the pointer [XGetVisualInfo] returns *)
  visual_info : Z;
  (** [glXGetConfig] for [GLX_USE_GL] and [GLX_DOUBLEBUFFER]: the value
      stored when the status is 0, [None] for another status *)
  config_use_gl : option Z;
  config_doublebuffer : option Z;
  (** what [glXQueryExtensionsString] returns *)
  extensions_string : option string;
  (** the context [glXCreateContext] returns *)
  created_context : Z;
  (** the result of [glXMakeCurrent] for a drawable and a context *)
  made_current : Z -> Z -> bool;
  (** what [glGetIntegerv(GL_STENCIL_BITS, ..)] stores *)
  stencil_bits : Z;
  (** [gl_has_extension("GL_ARB_texture_non_power_of_two")] *)
  has_non_power_of_two : bool;
  (** the addresses [glXGetProcAddress] returns for
      [glXBindTexImageEXT] and [glXReleaseTexImageEXT] *)
  proc_glXBindTexImage : Z;
  proc_glXReleaseTexImage : Z;
}.

(** The calls of [glx_init]; [I_deinit] is a call of the teardown it
    runs when it fails. *)
Inductive init_call : Type :=
| I_XGetVisualInfo (visualid : Z)
| I_XFree (p : Z)
| I_glXCreateContext
| I_glXMakeCurrent (drawable context : Z)
| I_gl_resize (w h : Z)
| I_glDisable (cap : Z)
| I_glDepthMask (flag : Z)
| I_glTexEnvi (tgt pname param : Z)
| I_glClear (mask : Z)
| I_glStencilMask (mask : Z)
| I_glStencilFunc (func ref mask : Z)
| I_glClearColor (r g b a : Z)
| I_deinit (c : call).

Definition is_I_deinit (c : init_call) : bool :=
  match c with I_deinit _ => true | _ => false end.

(** [ccalloc(1, struct _glx_data)], with [n] blur shaders. *)
Definition zeroed_glx_data (n : nat) : _glx_data :=
  {| glx_event := 0; glx_error := 0; ctx := 0;
     cap_non_power_of_two_texture := false; win_shader := 0;
     blur_shader := List.repeat 0 n; fbconfigs := ∅ |}.

Definition set_glx_bases (gd : _glx_data) (ev er : Z) : _glx_data :=
  {| glx_event := ev; glx_error := er; ctx := ctx gd;
     cap_non_power_of_two_texture := cap_non_power_of_two_texture gd;
     win_shader := win_shader gd; blur_shader := blur_shader gd;
     fbconfigs := fbconfigs gd |}.

Definition set_blur_shader (gd : _glx_data) (l : list Z) : _glx_data :=
  {| glx_event := glx_event gd; glx_error := glx_error gd; ctx := ctx gd;
     cap_non_power_of_two_texture := cap_non_power_of_two_texture gd;
     win_shader := win_shader gd; blur_shader := l;
     fbconfigs := fbconfigs gd |}.

Definition set_cap (gd : _glx_data) (b : bool) : _glx_data :=
  {| glx_event := glx_event gd; glx_error := glx_error gd; ctx := ctx gd;
     cap_non_power_of_two_texture := b;
     win_shader := win_shader gd; blur_shader := blur_shader gd;
     fbconfigs := fbconfigs gd |}.

(** The [end:] label of [glx_init]. *)
Definition glx_init_end (ps : session_t) (gd : _glx_data) (pvis : Z)
    (success : bool) (t : list init_call)
    : option _glx_data * list init_call :=
  let t := t ++ (if negb (pvis =? 0) then [I_XFree pvis] else []) in
  if negb success
  then (None, t ++ map I_deinit (snd (glx_deinit gd ps)))
  else (Some gd, t).

(** The render preparations that end a successful [glx_init]. *)
Definition glx_init_render_prep (env : glx_init_env) (ps : session_t)
    : list init_call :=
  [ I_gl_resize (root_width ps) (root_height ps);
    I_glDisable GL_DEPTH_TEST;
    I_glDepthMask GL_FALSE;
    I_glTexEnvi GL_TEXTURE_ENV GL_TEXTURE_ENV_MODE GL_REPLACE;
    I_glDisable GL_BLEND ]
  ++ (if negb (glx_no_stencil env)
      then [ I_glClear GL_STENCIL_BUFFER_BIT;
             I_glDisable GL_STENCIL_TEST;
             I_glStencilMask 1;
             I_glStencilFunc GL_EQUAL 1 1 ]
      else [])
  ++ [I_glClearColor 0 0 0 1].

(** Initialize OpenGL: the backend data returned ([None] for a null
    result) and the calls made.  The whole result is [None] when the
    assertion of [glx_has_extension] fails or [glx_update_fbconfig]
    reads outside the table.  The code under [DEBUG_GLX_DEBUG_CONTEXT]
    is not compiled. *)
Definition glx_init (env : glx_init_env) (indet : Z) (ps : session_t)
    : option (option _glx_data * list init_call) :=
  let gd := zeroed_glx_data (MAX_BLUR_PASS env) in
  let pvis := 0 in
  (* Check for GLX extension *)
  match query_extension env with
  | None => Some (glx_init_end ps gd pvis false [])
  | Some (ev, er) =>
    let gd := set_glx_bases gd ev er in
    (* Get XVisualInfo *)
    let pvis := visual_info env in
    let t := [I_XGetVisualInfo (vis env)] in
    if pvis =? 0 then Some (glx_init_end ps gd pvis false t)
    else
      (* Ensure the visual is double-buffered *)
      match config_use_gl env with
      | None => Some (glx_init_end ps gd pvis false t)
      | Some value =>
        if value =? 0 then Some (glx_init_end ps gd pvis false t)
        else
          match config_doublebuffer env with
          | None => Some (glx_init_end ps gd pvis false t)
          | Some value =>
            if value =? 0 then Some (glx_init_end ps gd pvis false t)
            else
              (* Ensure GLX_EXT_texture_from_pixmap exists *)
              ext ← glx_has_extension (extensions_string env)
                      "GLX_EXT_texture_from_pixmap";
              if negb ext then Some (glx_init_end ps gd pvis false t)
              else
                (* Initialize GLX data structure *)
                let gd :=
                  set_blur_shader gd (map (fun _ => -1) (blur_shader gd)) in
                (* Get GLX context *)
                let gd := set_ctx gd (created_context env) in
                let t := t ++ [I_glXCreateContext] in
                if ctx gd =? 0 then Some (glx_init_end ps gd pvis false t)
                else
                  (* Attach GLX context *)
                  let tgt := overlay ps in
                  let tgt := if tgt =? 0 then root ps else tgt in
                  let t := t ++ [I_glXMakeCurrent tgt (ctx gd)] in
                  if negb (made_current env tgt (ctx gd))
                  then Some (glx_init_end ps gd pvis false t)
                  else
                    (* Ensure we have a stencil buffer *)
                    if negb (glx_no_stencil env) && (stencil_bits env =? 0)
                    then Some (glx_init_end ps gd pvis false t)
                    else
                      let gd := set_cap gd (has_non_power_of_two env) in
                      if (proc_glXBindTexImage env =? 0)
                         || (proc_glXReleaseTexImage env =? 0)
                      then Some (glx_init_end ps gd pvis false t)
                      else
                        (* Acquire FBConfigs *)
                        '(ok, gd) ← glx_update_fbconfig indet gd ps;
                        if negb ok
                        then Some (glx_init_end ps gd pvis false t)
                        else
                          (* Render preparations *)
                          let t := t ++ glx_init_render_prep env ps in
                          Some (glx_init_end ps gd pvis true t)
          end
      end
  end.

(** * Vocabulary of the further properties *)

(** The three assertions that open [glx_render_win] (lines 588-590). *)
Definition glx_render_win_asserts (wd : _glx_win_data) : bool :=
  negb (pixmap wd =? 0) && negb (glpixmap wd =? 0)
  && negb (texture (wd_texture wd) =? 0).

Definition is_glXCreatePixmap (c : call) : bool :=
  match c with C_glXCreatePixmap _ _ _ => true | _ => false end.

Definition is_glXDestroyContext (c : call) : bool :=
  match c with C_glXDestroyContext _ => true | _ => false end.

(** What [glx_cmp_fbconfig_cmpattr] reads for a config and an attribute:
    the value the query stores, or the 0 the local was initialised with. *)
Definition attr_value (d : Display) (c : GLXFBConfig) (a : glx_attr) : Z :=
  match fbattrib d c a with Some v => v | None => 0 end.

Fixpoint first_nonzero (l : list Z) : Z :=
  match l with
  | [] => 0
  | x :: r => if x =? 0 then first_nonzero r else x
  end.

(** The ranking of two configs of red size 8 on the integers: the first
    attribute on which they differ decides; the first four are compared
    so that the lower value gives the greater config, the last so that
    the higher value does. *)
Definition lexicographic_rank (d : Display) (a b : GLXFBConfig) : Z :=
  first_nonzero
    [ attr_value d b GLX_BIND_TO_TEXTURE_RGBA_EXT
      - attr_value d a GLX_BIND_TO_TEXTURE_RGBA_EXT;
      attr_value d b GLX_DOUBLEBUFFER - attr_value d a GLX_DOUBLEBUFFER;
      attr_value d b GLX_STENCIL_SIZE - attr_value d a GLX_STENCIL_SIZE;
      attr_value d b GLX_DEPTH_SIZE - attr_value d a GLX_DEPTH_SIZE;
      attr_value d a GLX_BIND_TO_MIPMAP_TEXTURE_EXT
      - attr_value d b GLX_BIND_TO_MIPMAP_TEXTURE_EXT ].

(** The attributes [glx_cmp_fbconfig] ranks by, and values on which its
    subtractions cannot overflow. *)
Definition ranked_attrs : list glx_attr :=
  [ GLX_BIND_TO_TEXTURE_RGBA_EXT; GLX_DOUBLEBUFFER; GLX_STENCIL_SIZE;
    GLX_DEPTH_SIZE; GLX_BIND_TO_MIPMAP_TEXTURE_EXT ].

Definition small_attrs (d : Display) (c : GLXFBConfig) : Prop :=
  forall a, In a ranked_attrs -> - 2 ^ 30 <= attr_value d c a < 2 ^ 30.

(** The condition of line 263,
    [tgtdpt == visualdepth && tgtdpt < 32 && rgb]. *)
Definition qualifies_rgb (pr : fbprobe) : bool :=
  (sub32 (pr_depth pr) (pr_depth_alpha pr) =? pr_visualdepth pr)
  && (sub32 (pr_depth pr) (pr_depth_alpha pr) <? 32) && pr_rgb pr.

(** Where an entry of the table comes from. *)
Definition offered (ps : session_t) (pcur : GLXFBConfig) (k : Z)
    (x : glx_fbconfig_t) : Prop :=
  exists pr,
    glx_update_fbconfig_probe ps pcur = Some pr
    /\ 0 <= k <= OPENGL_MAX_DEPTH
    /\ ((qualifies_rgb pr = true
         /\ k = sub32 (pr_depth pr) (pr_depth_alpha pr)
         /\ x = set_texture_fmt (pr_fbinfo pr) GLX_TEXTURE_FORMAT_RGB_EXT)
        \/ (qualifies_rgba pr = true
            /\ k = pr_depth pr
            /\ x = set_texture_fmt (pr_fbinfo pr)
                     GLX_TEXTURE_FORMAT_RGBA_EXT)).

(** An environment in which everything succeeds, with the context 77
    and the visual info at 88; [sample_glx_init_env] with [false] is the
    same environment without a stencil buffer. *)
Definition sample_glx_init_env (stencil : bool) : glx_init_env :=
  {| glx_no_stencil := false; vis := 0x21; MAX_BLUR_PASS := 2;
     query_extension := Some (95, 160); visual_info := 88;
     config_use_gl := Some 1; config_doublebuffer := Some 1;
     extensions_string :=
       Some "GLX_ARB_multisample GLX_EXT_texture_from_pixmap"%string;
     created_context := 77; made_current := fun _ _ => true;
     stencil_bits := if stencil then 8 else 0;
     has_non_power_of_two := true;
     proc_glXBindTexImage := 0x7f01; proc_glXReleaseTexImage := 0x7f02 |}.

Definition sample_init_session : session_t :=
  sample_session (sample_dpy [3; 4] 5 7 9 0) 24 true SWAPM_UNDEFINED [].

(** * Properties *)

(** Case analysis on a hypothesis [In c t] for an explicit sequence of
    calls [t]. *)
Ltac in_calls :=
  repeat match goal with
  | H : In _ (_ ++ _) |- _ => apply in_app_or in H; destruct H as [H | H]
  | H : In _ (if ?b then _ else _) |- _ => destruct b
  | H : In _ (_ :: _) |- _ => destruct H as [H | H]; [try discriminate H |]
  | H : In _ [] |- _ => destruct H
  end.

(** ** C integers *)

Lemma wrap32_range (x : Z) : - 2 ^ 31 <= wrap32 x < 2 ^ 31.
Proof.
  unfold wrap32.
  pose proof (Z.mod_pos_bound (x + 2 ^ 31) (2 ^ 32) ltac:(lia)). lia.
Qed.

Lemma wrap32_exact (x : Z) : - 2 ^ 31 <= x < 2 ^ 31 -> wrap32 x = x.
Proof.
  intros Hx. unfold wrap32. rewrite Z.mod_small; lia.
Qed.

Lemma wrap32_shift (x k : Z) : wrap32 (x + k * 2 ^ 32) = wrap32 x.
Proof.
  unfold wrap32.
  replace (x + k * 2 ^ 32 + 2 ^ 31) with (x + 2 ^ 31 + k * 2 ^ 32) by lia.
  now rewrite Z_mod_plus_full.
Qed.

Lemma wrap32_decompose (x : Z) : exists k, wrap32 x = x + k * 2 ^ 32.
Proof.
  exists (- ((x + 2 ^ 31) / 2 ^ 32)). unfold wrap32.
  pose proof (Z.div_mod (x + 2 ^ 31) (2 ^ 32) ltac:(lia)). lia.
Qed.

Lemma sub32_exact (a b : Z) : - 2 ^ 31 <= a - b < 2 ^ 31 -> sub32 a b = a - b.
Proof. apply wrap32_exact. Qed.

Lemma neg32_exact (a : Z) : - 2 ^ 31 < a < 2 ^ 31 -> neg32 a = - a.
Proof. intros Ha. apply wrap32_exact. lia. Qed.

Lemma neg32_sub32 (a b : Z) : neg32 (sub32 b a) = sub32 a b.
Proof.
  unfold neg32, sub32. destruct (wrap32_decompose (b - a)) as [k ->].
  replace (- (b - a + k * 2 ^ 32)) with (a - b + (- k) * 2 ^ 32) by lia.
  apply wrap32_shift.
Qed.

Lemma sub32_zero_swap (a b : Z) : sub32 a b = 0 -> sub32 b a = 0.
Proof. intros H. rewrite <- (neg32_sub32 b a), H. reflexivity. Qed.

(** ** The comparator *)

Lemma glx_cmp_fbconfig_cmpattr_swap ps a b attr :
  glx_cmp_fbconfig_cmpattr ps a b attr
  = neg32 (glx_cmp_fbconfig_cmpattr ps b a attr).
Proof.
  unfold glx_cmp_fbconfig_cmpattr, glXGetFBConfigAttrib.
  destruct (fbattrib (dpy ps) (cfg a) attr), (fbattrib (dpy ps) (cfg b) attr);
    now rewrite neg32_sub32.
Qed.

Lemma glx_cmp_fbconfig_cmpattr_zero_swap ps a b attr :
  glx_cmp_fbconfig_cmpattr ps a b attr = 0 ->
  glx_cmp_fbconfig_cmpattr ps b a attr = 0.
Proof.
  unfold glx_cmp_fbconfig_cmpattr, glXGetFBConfigAttrib.
  destruct (fbattrib (dpy ps) (cfg a) attr), (fbattrib (dpy ps) (cfg b) attr);
    apply sub32_zero_swap.
Qed.

Lemma glx_cmp_fbconfig_cmpattr_range ps a b attr :
  - 2 ^ 31 <= glx_cmp_fbconfig_cmpattr ps a b attr < 2 ^ 31.
Proof.
  unfold glx_cmp_fbconfig_cmpattr, glXGetFBConfigAttrib.
  destruct (fbattrib (dpy ps) (cfg a) attr), (fbattrib (dpy ps) (cfg b) attr);
    apply wrap32_range.
Qed.

Lemma P_CMPATTR_LT_swap ps a b attr k k' :
  k = neg32 k' ->
  P_CMPATTR_LT ps a b attr k = neg32 (P_CMPATTR_LT ps b a attr k').
Proof.
  intros Hk. unfold P_CMPATTR_LT.
  destruct (Z.eqb_spec (glx_cmp_fbconfig_cmpattr ps a b attr) 0) as [E | E];
    destruct (Z.eqb_spec (glx_cmp_fbconfig_cmpattr ps b a attr) 0) as [E' | E'];
    simpl.
  - exact Hk.
  - now apply glx_cmp_fbconfig_cmpattr_zero_swap in E.
  - now apply glx_cmp_fbconfig_cmpattr_zero_swap in E'.
  - now rewrite (glx_cmp_fbconfig_cmpattr_swap ps a b attr).
Qed.

Lemma P_CMPATTR_GT_swap ps a b attr k k' :
  k = neg32 k' ->
  P_CMPATTR_GT ps a b attr k = neg32 (P_CMPATTR_GT ps b a attr k').
Proof.
  intros Hk. unfold P_CMPATTR_GT.
  destruct (Z.eqb_spec (glx_cmp_fbconfig_cmpattr ps a b attr) 0) as [E | E];
    destruct (Z.eqb_spec (glx_cmp_fbconfig_cmpattr ps b a attr) 0) as [E' | E'];
    simpl.
  - exact Hk.
  - now apply glx_cmp_fbconfig_cmpattr_zero_swap in E.
  - now apply glx_cmp_fbconfig_cmpattr_zero_swap in E'.
  - apply glx_cmp_fbconfig_cmpattr_swap.
Qed.

Lemma P_CMPATTR_LT_range ps a b attr k :
  - 2 ^ 31 <= k < 2 ^ 31 -> - 2 ^ 31 <= P_CMPATTR_LT ps a b attr k < 2 ^ 31.
Proof.
  intros Hk. unfold P_CMPATTR_LT.
  destruct (negb _); [apply wrap32_range | exact Hk].
Qed.

Lemma P_CMPATTR_GT_range ps a b attr k :
  - 2 ^ 31 <= k < 2 ^ 31 -> - 2 ^ 31 <= P_CMPATTR_GT ps a b attr k < 2 ^ 31.
Proof.
  intros Hk. unfold P_CMPATTR_GT.
  destruct (negb _); [apply glx_cmp_fbconfig_cmpattr_range | exact Hk].
Qed.

(** The comparator returns an [int]. *)
Lemma glx_cmp_fbconfig_range indet ps pa pb :
  - 2 ^ 31 <= glx_cmp_fbconfig indet ps pa pb < 2 ^ 31.
Proof.
  unfold glx_cmp_fbconfig.
  destruct pa as [a |]; [| lia]. destruct pb as [b |]; [| lia].
  destruct (glXGetFBConfigAttrib _ _ _ _) as [? t1].
  destruct (negb (t1 =? 8)); [lia |].
  destruct (glXGetFBConfigAttrib _ _ _ _) as [? t2].
  destruct (negb (t2 =? 8)); [lia |].
  repeat apply P_CMPATTR_LT_range. apply P_CMPATTR_GT_range. lia.
Qed.

(** A config whose red size is not 8, compared first, loses, whatever
    the other config is. *)
Lemma glx_cmp_fbconfig_first_not_8 indet ps a b ra :
  fbattrib (dpy ps) (cfg a) GLX_RED_SIZE = Some ra -> ra <> 8 ->
  glx_cmp_fbconfig indet ps (Some a) (Some b) = -1.
Proof.
  intros Ha Hra. unfold glx_cmp_fbconfig, glXGetFBConfigAttrib.
  rewrite Ha. now destruct (Z.eqb_spec ra 8).
Qed.

Lemma glx_cmp_fbconfig_second_not_8 indet ps a b rb :
  fbattrib (dpy ps) (cfg a) GLX_RED_SIZE = Some 8 ->
  fbattrib (dpy ps) (cfg b) GLX_RED_SIZE = Some rb -> rb <> 8 ->
  glx_cmp_fbconfig indet ps (Some a) (Some b) = 1.
Proof.
  intros Ha Hb Hrb. unfold glx_cmp_fbconfig, glXGetFBConfigAttrib.
  rewrite Ha, Hb. simpl. now destruct (Z.eqb_spec rb 8).
Qed.

Lemma glx_cmp_fbconfig_both_8 indet ps a b :
  fbattrib (dpy ps) (cfg a) GLX_RED_SIZE = Some 8 ->
  fbattrib (dpy ps) (cfg b) GLX_RED_SIZE = Some 8 ->
  glx_cmp_fbconfig indet ps (Some a) (Some b)
  = P_CMPATTR_LT ps a b GLX_BIND_TO_TEXTURE_RGBA_EXT
    (P_CMPATTR_LT ps a b GLX_DOUBLEBUFFER
    (P_CMPATTR_LT ps a b GLX_STENCIL_SIZE
    (P_CMPATTR_LT ps a b GLX_DEPTH_SIZE
    (P_CMPATTR_GT ps a b GLX_BIND_TO_MIPMAP_TEXTURE_EXT 0)))).
Proof.
  intros Ha Hb. unfold glx_cmp_fbconfig, glXGetFBConfigAttrib.
  now rewrite Ha, Hb.
Qed.

(** ** C3: the comparator and the exchange of its arguments *)

(** C3, as stated, fails: when the red size of both configs is not 8
    (here 10 and 10) the first argument loses in both orders, so both
    calls return -1 and neither is the negation of the other. *)
Lemma glx_cmp_fbconfig_not_antisymmetric :
  glx_cmp_fbconfig 0 sample_ps (Some (sample_fbconfig 1 0))
                               (Some (sample_fbconfig 2 0)) = -1
  /\ glx_cmp_fbconfig 0 sample_ps (Some (sample_fbconfig 2 0))
                                  (Some (sample_fbconfig 1 0)) = -1
  /\ glx_cmp_fbconfig 0 sample_ps (Some (sample_fbconfig 1 0))
                                  (Some (sample_fbconfig 2 0))
     <> - glx_cmp_fbconfig 0 sample_ps (Some (sample_fbconfig 2 0))
                                       (Some (sample_fbconfig 1 0)).
Proof. vm_compute. repeat split; discriminate. Qed.

(** C3, amended: for two non-null configs whose red sizes are known and
    of which at least one has red size 8, exchanging the arguments
    negates the result, [cmp(A,B) == -cmp(B,A)], the negation being that
    of [int]; it is the negation of the integers unless the result is
    [INT_MIN].  The unspecified initial content of [tmpattr] plays no
    part. *)
Theorem glx_cmp_fbconfig_antisymmetric indet indet' ps a b ra rb :
  fbattrib (dpy ps) (cfg a) GLX_RED_SIZE = Some ra ->
  fbattrib (dpy ps) (cfg b) GLX_RED_SIZE = Some rb ->
  ra = 8 \/ rb = 8 ->
  glx_cmp_fbconfig indet ps (Some a) (Some b)
  = neg32 (glx_cmp_fbconfig indet' ps (Some b) (Some a))
  /\ (glx_cmp_fbconfig indet' ps (Some b) (Some a) <> - 2 ^ 31 ->
      glx_cmp_fbconfig indet ps (Some a) (Some b)
      = - glx_cmp_fbconfig indet' ps (Some b) (Some a)).
Proof.
  intros Ha Hb H8.
  assert (E : glx_cmp_fbconfig indet ps (Some a) (Some b)
              = neg32 (glx_cmp_fbconfig indet' ps (Some b) (Some a))).
  { destruct (Z.eq_dec ra 8) as [-> | Na], (Z.eq_dec rb 8) as [-> | Nb].
    - rewrite !glx_cmp_fbconfig_both_8 by assumption.
      repeat apply P_CMPATTR_LT_swap. now apply P_CMPATTR_GT_swap.
    - rewrite (glx_cmp_fbconfig_second_not_8 indet ps a b rb) by assumption.
      now rewrite (glx_cmp_fbconfig_first_not_8 indet' ps b a rb).
    - rewrite (glx_cmp_fbconfig_first_not_8 indet ps a b ra) by assumption.
      now rewrite (glx_cmp_fbconfig_second_not_8 indet' ps b a ra).
    - lia. }
  split; [exact E |]. intros Hmin. rewrite E. apply neg32_exact.
  pose proof (glx_cmp_fbconfig_range indet' ps (Some b) (Some a)). lia.
Qed.

Lemma glx_cmp_fbconfig_antisymmetric_witness :
  glx_cmp_fbconfig 0 sample_ps (Some (sample_fbconfig 3 0))
                               (Some (sample_fbconfig 4 0))
  = neg32 (glx_cmp_fbconfig 7 sample_ps (Some (sample_fbconfig 4 0))
                                        (Some (sample_fbconfig 3 0)))
  /\ (glx_cmp_fbconfig 7 sample_ps (Some (sample_fbconfig 4 0))
                                   (Some (sample_fbconfig 3 0)) <> - 2 ^ 31 ->
      glx_cmp_fbconfig 0 sample_ps (Some (sample_fbconfig 3 0))
                                   (Some (sample_fbconfig 4 0))
      = - glx_cmp_fbconfig 7 sample_ps (Some (sample_fbconfig 4 0))
                                       (Some (sample_fbconfig 3 0))).
Proof.
  apply (glx_cmp_fbconfig_antisymmetric 0 7 sample_ps
           (sample_fbconfig 3 0) (sample_fbconfig 4 0) 8 8).
  - reflexivity.
  - reflexivity.
  - left. reflexivity.
Defined.

(** When both red sizes are not 8, both orders return -1. *)
Lemma glx_cmp_fbconfig_both_not_8 indet indet' ps a b ra rb :
  fbattrib (dpy ps) (cfg a) GLX_RED_SIZE = Some ra ->
  fbattrib (dpy ps) (cfg b) GLX_RED_SIZE = Some rb ->
  ra <> 8 -> rb <> 8 ->
  glx_cmp_fbconfig indet ps (Some a) (Some b) = -1
  /\ glx_cmp_fbconfig indet' ps (Some b) (Some a) = -1.
Proof.
  intros Ha Hb Na Nb. split.
  - now apply (glx_cmp_fbconfig_first_not_8 indet ps a b ra).
  - now apply (glx_cmp_fbconfig_first_not_8 indet' ps b a rb).
Qed.

(** ** C4: a config whose red size is not 8 loses *)

(** C4: of two non-null configs exactly one of which has red size 8,
    the one whose red size is not 8 loses: the result is negative when
    it is the first argument, positive when it is the second. *)
Theorem glx_cmp_fbconfig_red_not_8_loses indet ps a b ra rb :
  fbattrib (dpy ps) (cfg a) GLX_RED_SIZE = Some ra ->
  fbattrib (dpy ps) (cfg b) GLX_RED_SIZE = Some rb ->
  (ra <> 8 /\ rb = 8) \/ (ra = 8 /\ rb <> 8) ->
  (ra <> 8 -> glx_cmp_fbconfig indet ps (Some a) (Some b) < 0)
  /\ (ra = 8 -> 0 < glx_cmp_fbconfig indet ps (Some a) (Some b)).
Proof.
  intros Ha Hb [[Na ->] | [-> Nb]]; split; intros H; try contradiction.
  - rewrite (glx_cmp_fbconfig_first_not_8 indet ps a b ra) by assumption. lia.
  - rewrite (glx_cmp_fbconfig_second_not_8 indet ps a b rb) by assumption. lia.
Qed.

Lemma glx_cmp_fbconfig_red_not_8_loses_witness :
  glx_cmp_fbconfig 0 sample_ps (Some (sample_fbconfig 1 0))
                               (Some (sample_fbconfig 3 0)) < 0
  /\ 0 < glx_cmp_fbconfig 0 sample_ps (Some (sample_fbconfig 3 0))
                                      (Some (sample_fbconfig 1 0)).
Proof.
  split.
  - apply (glx_cmp_fbconfig_red_not_8_loses 0 sample_ps
             (sample_fbconfig 1 0) (sample_fbconfig 3 0) 10 8).
    + reflexivity.
    + reflexivity.
    + left. split; [lia | reflexivity].
    + lia.
  - apply (glx_cmp_fbconfig_red_not_8_loses 0 sample_ps
             (sample_fbconfig 3 0) (sample_fbconfig 1 0) 8 10).
    + reflexivity.
    + reflexivity.
    + right. split; [reflexivity | lia].
    + reflexivity.
Defined.

(** ** The table of FBConfigs *)

Lemma in_fbconfigs_spec (i : Z) :
  in_fbconfigs i = true <-> 0 <= i <= OPENGL_MAX_DEPTH.
Proof. unfold in_fbconfigs. lia. Qed.

Lemma glx_update_fbconfig_bydepth_ignored indet ps gd depth pfbcfg :
  depth < 0 \/ OPENGL_MAX_DEPTH < depth ->
  glx_update_fbconfig_bydepth indet ps gd depth pfbcfg = Some gd.
Proof.
  intros H. unfold glx_update_fbconfig_bydepth.
  destruct (Z.ltb_spec depth 0), (Z.gtb_spec depth OPENGL_MAX_DEPTH);
    simpl; try reflexivity; lia.
Qed.

(** Inside the table, the update stores the candidate when the
    comparator ranks the stored config below it, and changes nothing
    otherwise. *)
Lemma glx_update_fbconfig_bydepth_in_range indet ps gd depth pfbcfg :
  0 <= depth <= OPENGL_MAX_DEPTH ->
  glx_update_fbconfig_bydepth indet ps gd depth pfbcfg
  = Some (if glx_cmp_fbconfig indet ps (fbconfigs gd !! depth) (Some pfbcfg) <? 0
          then set_fbconfigs gd (<[depth := pfbcfg]> (fbconfigs gd))
          else gd).
Proof.
  intros H. unfold glx_update_fbconfig_bydepth, fbconfigs_get, fbconfigs_store.
  destruct (Z.ltb_spec depth 0), (Z.gtb_spec depth OPENGL_MAX_DEPTH);
    try lia.
  apply in_fbconfigs_spec in H. rewrite H. simpl.
  now destruct (_ <? 0).
Qed.

Lemma glx_update_fbconfig_bydepth_defined indet ps gd depth pfbcfg :
  is_Some (glx_update_fbconfig_bydepth indet ps gd depth pfbcfg).
Proof.
  destruct (Z_lt_dec depth 0) as [L | L];
    [rewrite glx_update_fbconfig_bydepth_ignored by lia; eauto |].
  destruct (Z_lt_dec OPENGL_MAX_DEPTH depth) as [G | G];
    [rewrite glx_update_fbconfig_bydepth_ignored by lia; eauto |].
  rewrite glx_update_fbconfig_bydepth_in_range by lia. eauto.
Qed.

(** ** C10: depths outside the table *)

(** C10: the accesses of [glx_update_fbconfig_bydepth] to the table are
    all inside it (the call is defined at every depth), and at a depth
    outside [[0, OPENGL_MAX_DEPTH]] it returns with the backend data, the
    table included, as it was: the candidate is ignored. *)
Theorem glx_update_fbconfig_bydepth_bounds indet ps gd depth pfbcfg :
  is_Some (glx_update_fbconfig_bydepth indet ps gd depth pfbcfg)
  /\ (depth < 0 \/ OPENGL_MAX_DEPTH < depth ->
      glx_update_fbconfig_bydepth indet ps gd depth pfbcfg = Some gd).
Proof.
  split.
  - apply glx_update_fbconfig_bydepth_defined.
  - apply glx_update_fbconfig_bydepth_ignored.
Qed.

Lemma glx_update_fbconfig_bydepth_bounds_witness :
  glx_update_fbconfig_bydepth 0 sample_ps (sample_glx_data 1 ∅) 33
    (sample_fbconfig 4 GLX_TEXTURE_FORMAT_RGBA_EXT)
  = Some (sample_glx_data 1 ∅).
Proof.
  apply (proj2 (glx_update_fbconfig_bydepth_bounds 0 sample_ps
                  (sample_glx_data 1 ∅) 33
                  (sample_fbconfig 4 GLX_TEXTURE_FORMAT_RGBA_EXT))).
  right. unfold OPENGL_MAX_DEPTH. lia.
Defined.

(** ** The enumeration of the candidates *)

Lemma glx_update_fbconfig_rgb_defined indet ps pr gd :
  is_Some (glx_update_fbconfig_rgb indet ps pr gd).
Proof.
  unfold glx_update_fbconfig_rgb.
  destruct (_ && _); [apply glx_update_fbconfig_bydepth_defined | eauto].
Qed.

Lemma glx_update_fbconfig_rgba_defined indet ps pr gd :
  is_Some (glx_update_fbconfig_rgba indet ps pr gd).
Proof.
  unfold glx_update_fbconfig_rgba.
  destruct (qualifies_rgba pr);
    [apply glx_update_fbconfig_bydepth_defined | eauto].
Qed.

Lemma glx_update_fbconfig_iter_defined indet ps gd pcur :
  is_Some (glx_update_fbconfig_iter indet ps gd pcur).
Proof.
  unfold glx_update_fbconfig_iter.
  destruct (glx_update_fbconfig_probe ps pcur) as [pr |]; [| eauto].
  destruct (glx_update_fbconfig_rgb_defined indet ps pr gd) as [gd1 ->].
  simpl. apply glx_update_fbconfig_rgba_defined.
Qed.

(** An iteration is a [continue], or the RGB step followed by the RGBA
    step. *)
Lemma glx_update_fbconfig_iter_steps indet ps gd pcur :
  glx_update_fbconfig_iter indet ps gd pcur
  = match glx_update_fbconfig_probe ps pcur with
    | None => Some gd
    | Some pr =>
      match glx_update_fbconfig_rgb indet ps pr gd with
      | Some gd1 => glx_update_fbconfig_rgba indet ps pr gd1
      | None => None
      end
    end.
Proof.
  unfold glx_update_fbconfig_iter.
  destruct (glx_update_fbconfig_probe ps pcur) as [pr |]; [| reflexivity].
  now destruct (glx_update_fbconfig_rgb indet ps pr gd).
Qed.

(** The loop over the candidates never leaves the table. *)
Lemma glx_update_fbconfig_loop_defined indet ps pfbcfgs :
  forall gd, is_Some (glx_update_fbconfig_loop indet ps gd pfbcfgs).
Proof.
  induction pfbcfgs as [| pcur rest IH]; intros gd; simpl; [eauto |].
  destruct (glx_update_fbconfig_iter_defined indet ps gd pcur) as [gd1 ->].
  simpl. apply IH.
Qed.

(** ** C9: the sanity checks after the enumeration *)

(** C9: with a default depth inside the table, the enumeration of the
    candidates ends with some table, and [glx_update_fbconfig] then
    returns false exactly when that table holds no config for the
    default depth; what it holds at depth 32 plays no part in the flag. *)
Theorem glx_update_fbconfig_default_depth indet gd ps :
  0 <= depth ps <= OPENGL_MAX_DEPTH ->
  exists gd' ok,
    glx_update_fbconfig_loop indet ps gd (screen_fbconfigs (dpy ps)) = Some gd'
    /\ glx_update_fbconfig indet gd ps = Some (ok, gd')
    /\ (ok = false <-> fbconfigs gd' !! depth ps = None)
    /\ (is_Some (fbconfigs gd' !! depth ps) -> fbconfigs gd' !! 32 = None ->
        ok = true).
Proof.
  intros Hd. unfold glx_update_fbconfig.
  destruct (glx_update_fbconfig_loop_defined indet ps
              (screen_fbconfigs (dpy ps)) gd) as [gd' ->].
  simpl. unfold fbconfigs_get.
  apply in_fbconfigs_spec in Hd. rewrite Hd. simpl.
  destruct (fbconfigs gd' !! depth ps) as [c |] eqn:E.
  - exists gd', true. split; [reflexivity |]. split; [reflexivity |].
    split; [split; intros H; [discriminate | congruence] | reflexivity].
  - exists gd', false. split; [reflexivity |]. split; [reflexivity |].
    split; [split; intros H; [exact E | reflexivity] |].
    intros [c Hc]. congruence.
Qed.

(** Default depth 24 and a screen with the 24-bit config alone: nothing
    is found for depth 32, and the selection succeeds. *)
Lemma glx_update_fbconfig_default_depth_witness :
  exists gd' ok,
    glx_update_fbconfig_loop 0
      (sample_session (sample_dpy [3] 0 0 0 0) 24 false SWAPM_UNDEFINED [])
      (sample_glx_data 1 ∅) [3] = Some gd'
    /\ glx_update_fbconfig 0 (sample_glx_data 1 ∅)
         (sample_session (sample_dpy [3] 0 0 0 0) 24 false SWAPM_UNDEFINED [])
       = Some (ok, gd')
    /\ (ok = false <-> fbconfigs gd' !! 24 = None)
    /\ (is_Some (fbconfigs gd' !! 24) -> fbconfigs gd' !! 32 = None ->
        ok = true).
Proof.
  apply (glx_update_fbconfig_default_depth 0 (sample_glx_data 1 ∅)
           (sample_session (sample_dpy [3] 0 0 0 0) 24 false
              SWAPM_UNDEFINED [])).
  simpl. unfold OPENGL_MAX_DEPTH. lia.
Defined.

(** The scenario of the spec, on the sample screen: without a depth-32
    config the selection succeeds; without a config of the default depth
    it fails, whatever is found for depth 32. *)
Example glx_update_fbconfig_depth_32_missing :
  exists gd',
    glx_update_fbconfig 0 (sample_glx_data 1 ∅)
      (sample_session (sample_dpy [3] 0 0 0 0) 24 false SWAPM_UNDEFINED [])
    = Some (true, gd')
    /\ fbconfigs gd' !! 32 = None
    /\ fbconfigs gd' !! 24
       = Some (sample_fbconfig 3 GLX_TEXTURE_FORMAT_RGB_EXT).
Proof. eexists. split; [vm_compute; reflexivity |]. split; reflexivity. Qed.

Example glx_update_fbconfig_default_depth_missing :
  exists gd',
    glx_update_fbconfig 0 (sample_glx_data 1 ∅)
      (sample_session (sample_dpy [4] 0 0 0 0) 24 false SWAPM_UNDEFINED [])
    = Some (false, gd')
    /\ fbconfigs gd' !! 24 = None
    /\ fbconfigs gd' !! 32
       = Some (sample_fbconfig 4 GLX_TEXTURE_FORMAT_RGBA_EXT).
Proof. eexists. split; [vm_compute; reflexivity |]. split; reflexivity. Qed.

(** ** C5: candidates that qualify for RGBA binding *)

(** What the locals of an iteration hold once it is past every
    [continue]. *)
Lemma glx_update_fbconfig_probe_inv ps pcur pr :
  glx_update_fbconfig_probe ps pcur = Some pr ->
  fbattrib (dpy ps) pcur GLX_BUFFER_SIZE = Some (pr_depth pr)
  /\ fbattrib (dpy ps) pcur GLX_ALPHA_SIZE = Some (pr_depth_alpha pr)
  /\ fbvisual_depth (dpy ps) pcur = Some (pr_visualdepth pr)
  /\ cfg (pr_fbinfo pr) = pcur
  /\ pr_rgba pr = (pr_depth pr >=? 32) && negb (pr_depth_alpha pr =? 0)
                  && reports_rgba_bind (dpy ps) pcur.
Proof.
  unfold glx_update_fbconfig_probe, reports_rgba_bind, glXGetFBConfigAttrib.
  destruct (fbattrib (dpy ps) pcur GLX_SAMPLES) as [s |];
    destruct (fbattrib (dpy ps) pcur GLX_BUFFER_SIZE) as [d |];
    destruct (fbattrib (dpy ps) pcur GLX_ALPHA_SIZE) as [al |];
    destruct (fbattrib (dpy ps) pcur GLX_BIND_TO_TEXTURE_TARGETS_EXT) as [t |];
    destruct (fbvisual_depth (dpy ps) pcur) as [vd |];
    simpl; try (destruct (s >? 1)); simpl; try discriminate;
    destruct ((d >=? 32) && negb (al =? 0)) eqn:G;
    destruct (fbattrib (dpy ps) pcur GLX_BIND_TO_TEXTURE_RGBA_EXT) as [v |];
    destruct (fbattrib (dpy ps) pcur GLX_BIND_TO_TEXTURE_RGB_EXT) as [v' |];
    destruct (fbattrib (dpy ps) pcur GLX_Y_INVERTED_EXT) as [y |];
    simpl; intros [= <-]; simpl; rewrite ?G; auto.
Qed.

(** C5, as stated, fails: config 5 of the sample screen has a buffer
    size equal to the depth of its visual, 32, and the driver reports
    RGBA-bind support for it, but it has no alpha bits: enumerated alone
    into an empty table, it is not registered. *)
Lemma glx_update_fbconfig_rgba_needs_alpha :
  let d := sample_dpy [5] 0 0 0 0 in
  let ps := sample_session d 32 false SWAPM_UNDEFINED [] in
  fbattrib d 5 GLX_BUFFER_SIZE = Some 32
  /\ fbvisual_depth d 5 = Some 32
  /\ reports_rgba_bind d 5 = true
  /\ fbattrib d 5 GLX_ALPHA_SIZE = Some 0
  /\ glx_update_fbconfig_loop 0 ps (sample_glx_data 1 ∅) (screen_fbconfigs d)
     = Some (sample_glx_data 1 ∅)
  /\ glx_update_fbconfig 0 (sample_glx_data 1 ∅) ps
     = Some (false, sample_glx_data 1 ∅).
Proof. vm_compute. repeat split. Qed.

(** C5, amended: a candidate that the enumeration does not skip
    qualifies for RGBA binding exactly when its buffer size equals the
    depth of its visual, the driver reports RGBA-bind support, the
    buffer size is at least 32 and the alpha size is not zero.  A
    qualifying candidate is handed to the per-depth update under its
    buffer size with the RGBA texture format, which registers it in an
    empty slot; a candidate that does not qualify leaves the table as
    the RGB step left it. *)
Theorem glx_update_fbconfig_rgba_qualifies indet ps gd pcur pr :
  glx_update_fbconfig_probe ps pcur = Some pr ->
  exists bufsz alpha vdepth,
    fbattrib (dpy ps) pcur GLX_BUFFER_SIZE = Some bufsz
    /\ fbattrib (dpy ps) pcur GLX_ALPHA_SIZE = Some alpha
    /\ fbvisual_depth (dpy ps) pcur = Some vdepth
    /\ (qualifies_rgba pr = true <->
        bufsz = vdepth /\ reports_rgba_bind (dpy ps) pcur = true
        /\ 32 <= bufsz /\ alpha <> 0)
    /\ (qualifies_rgba pr = true ->
        glx_update_fbconfig_rgba indet ps pr gd
        = glx_update_fbconfig_bydepth indet ps gd bufsz
            (set_texture_fmt (pr_fbinfo pr) GLX_TEXTURE_FORMAT_RGBA_EXT)
        /\ cfg (pr_fbinfo pr) = pcur
        /\ (bufsz <= OPENGL_MAX_DEPTH -> fbconfigs gd !! bufsz = None ->
            glx_update_fbconfig_rgba indet ps pr gd
            = Some (set_fbconfigs gd
                      (<[bufsz := set_texture_fmt (pr_fbinfo pr)
                                    GLX_TEXTURE_FORMAT_RGBA_EXT]>
                         (fbconfigs gd)))))
    /\ (qualifies_rgba pr = false ->
        glx_update_fbconfig_rgba indet ps pr gd = Some gd).
Proof.
  intros Hpr.
  destruct (glx_update_fbconfig_probe_inv ps pcur pr Hpr)
    as (Hd & Ha & Hv & Hc & Hrgba).
  exists (pr_depth pr), (pr_depth_alpha pr), (pr_visualdepth pr).
  split; [exact Hd |]. split; [exact Ha |]. split; [exact Hv |].
  assert (Q : qualifies_rgba pr = true <->
              pr_depth pr = pr_visualdepth pr
              /\ reports_rgba_bind (dpy ps) pcur = true
              /\ 32 <= pr_depth pr /\ pr_depth_alpha pr <> 0).
  { unfold qualifies_rgba. rewrite Hrgba.
    destruct (reports_rgba_bind (dpy ps) pcur);
      rewrite ?andb_true_r, ?andb_false_r; [| intuition discriminate].
    rewrite !andb_true_iff, negb_true_iff, Z.eqb_eq, Z.geb_le, Z.eqb_neq.
    intuition. }
  split; [exact Q |]. split.
  - intros Hq. unfold glx_update_fbconfig_rgba. rewrite Hq.
    split; [reflexivity |]. split; [exact Hc |].
    intros Hmax Hnone. apply Q in Hq as (_ & _ & H32 & _).
    rewrite glx_update_fbconfig_bydepth_in_range by lia.
    now rewrite Hnone.
  - intros Hq. unfold glx_update_fbconfig_rgba. now rewrite Hq.
Qed.

(** Config 4 of the sample screen, 32 bits of which 8 of alpha. *)
Lemma glx_update_fbconfig_rgba_qualifies_witness :
  exists pr,
    glx_update_fbconfig_probe sample_ps 4 = Some pr
    /\ qualifies_rgba pr = true
    /\ glx_update_fbconfig_rgba 0 sample_ps pr (sample_glx_data 1 ∅)
       = Some (sample_glx_data 1
                 {[ 32 := sample_fbconfig 4 GLX_TEXTURE_FORMAT_RGBA_EXT ]}).
Proof.
  eexists. split; [reflexivity |].
  destruct (glx_update_fbconfig_rgba_qualifies 0 sample_ps
              (sample_glx_data 1 ∅) 4 _ eq_refl)
    as (bufsz & alpha & vdepth & Hd & Ha & Hv & Q & Hyes & Hno).
  injection Hd as <-. injection Ha as <-. injection Hv as <-.
  assert (Hq : qualifies_rgba
                 {| pr_fbinfo := sample_fbconfig 4 0; pr_depth := 32;
                    pr_depth_alpha := 8; pr_visualdepth := 32;
                    pr_rgb := true; pr_rgba := true |} = true).
  { apply Q. repeat split; [lia | discriminate]. }
  split; [exact Hq |].
  destruct (Hyes Hq) as (_ & _ & Hreg).
  rewrite Hreg; [reflexivity | unfold OPENGL_MAX_DEPTH; lia | reflexivity].
Defined.

(** ** C8: the buffer age *)

Lemma int_of_uint_zero (u : Z) : int_of_uint (uint32 u) = 0 <-> uint32 u = 0.
Proof.
  unfold int_of_uint, uint32, wrap32.
  pose proof (Z.mod_pos_bound u (2 ^ 32) ltac:(lia)) as B.
  split; intros H.
  - destruct (Z_lt_dec (u mod 2 ^ 32) (2 ^ 31)) as [L | L].
    + rewrite Z.mod_small in H by lia. lia.
    + replace (u mod 2 ^ 32 + 2 ^ 31)
        with (u mod 2 ^ 32 - 2 ^ 31 + 1 * 2 ^ 32) in H by lia.
      rewrite Z_mod_plus_full, Z.mod_small in H by lia. lia.
  - rewrite H. reflexivity.
Qed.

(** C8: when the swap method is not buffer-age tracking the result is
    -1 whatever the driver reports.  When it is, the result is the age
    the drawable reports, as the [int] the function returns, if that age
    is not zero, and -1 if it is zero.  An age below 2^31 is returned
    unchanged. *)
Theorem glx_buffer_age_sentinel gd ps age :
  age = uint32 (back_buffer_age (dpy ps) (get_tgt_window ps)) ->
  (glx_swap_method ps <> SWAPM_BUFFER_AGE -> fst (glx_buffer_age gd ps) = -1)
  /\ (glx_swap_method ps = SWAPM_BUFFER_AGE -> age <> 0 ->
      fst (glx_buffer_age gd ps) = int_of_uint age)
  /\ (glx_swap_method ps = SWAPM_BUFFER_AGE -> age = 0 ->
      fst (glx_buffer_age gd ps) = -1)
  /\ (age < 2 ^ 31 -> int_of_uint age = age).
Proof.
  intros ->. unfold glx_buffer_age.
  set (u := back_buffer_age (dpy ps) (get_tgt_window ps)).
  repeat split.
  - intros H. now destruct (glx_swap_method ps).
  - intros -> Hu. simpl.
    destruct (Z.eqb_spec (int_of_uint (uint32 u)) 0) as [E | E];
      [| reflexivity].
    now apply int_of_uint_zero in E.
  - intros -> Hu. simpl. now rewrite Hu.
  - intros Hlt. apply wrap32_exact. unfold uint32 in *.
    pose proof (Z.mod_pos_bound u (2 ^ 32) ltac:(lia)). lia.
Qed.

(** The driver reports the age 3: it is returned under buffer-age
    tracking, and -1 is returned under another swap method. *)
Lemma glx_buffer_age_sentinel_witness :
  fst (glx_buffer_age (sample_glx_data 1 ∅)
         (sample_session (sample_dpy [] 0 0 0 3) 24 false SWAPM_BUFFER_AGE []))
  = 3
  /\ fst (glx_buffer_age (sample_glx_data 1 ∅)
            (sample_session (sample_dpy [] 0 0 0 3) 24 false SWAPM_COPY []))
     = -1.
Proof.
  split.
  - destruct (glx_buffer_age_sentinel (sample_glx_data 1 ∅)
                (sample_session (sample_dpy [] 0 0 0 3) 24 false
                   SWAPM_BUFFER_AGE []) 3 eq_refl) as (_ & Hage & _ & _).
    apply Hage; [reflexivity | discriminate].
  - destruct (glx_buffer_age_sentinel (sample_glx_data 1 ∅)
                (sample_session (sample_dpy [] 0 0 0 3) 24 false
                   SWAPM_COPY []) 3 eq_refl) as (Hother & _ & _ & _).
    apply Hother. discriminate.
Defined.

Example glx_buffer_age_zero :
  fst (glx_buffer_age (sample_glx_data 1 ∅)
         (sample_session (sample_dpy [] 0 0 0 0) 24 false SWAPM_BUFFER_AGE []))
  = -1.
Proof. reflexivity. Qed.

(** ** C6: the flip of the y axis *)

Lemma sub32_sub32 (a b c : Z) : sub32 (sub32 a b) c = wrap32 (a - b - c).
Proof.
  unfold sub32. destruct (wrap32_decompose (a - b)) as [k ->].
  replace (a - b + k * 2 ^ 32 - c) with (a - b - c + k * 2 ^ 32) by lia.
  apply wrap32_shift.
Qed.

Lemma yflip_exact (h : Z) (r : pixman_box32_t) :
  fits_int (h - y2 r) -> fits_int (h - y1 r) -> yflip h r = spec_flip_rect h r.
Proof.
  intros H2 H1. unfold yflip, spec_flip_rect.
  now rewrite !sub32_exact.
Qed.

(** C6: composing with a binding whose [y_inverted] is false hands
    [gl_compose] the region whose rectangles have the vertical extent
    [(root_height - y2, root_height - y1)] and the vertical offset
    [root_height - dst_y - heightb], each computed on [int]; where those
    differences fit in an [int], they are the differences of the
    integers.  The region [{(0,0)-(10,20)}] in a target of height 100
    becomes [{(0,80)-(10,100)}]. *)
Theorem glx_compose_yflip gd ps w wd dst_x dst_y region :
  y_inverted (wd_texture wd) = false ->
  exists args,
    glx_compose gd ps w wd dst_x dst_y region = [C_gl_compose args]
    /\ gc_reg_tgt args
       = map (fun r => {| x1 := x1 r; y1 := wrap32 (root_height ps - y2 r);
                          x2 := x2 r; y2 := wrap32 (root_height ps - y1 r) |})
           region
    /\ gc_dy args = wrap32 (root_height ps - dst_y - heightb w)
    /\ ((forall r, In r region ->
           fits_int (root_height ps - y2 r) /\ fits_int (root_height ps - y1 r))
        -> gc_reg_tgt args = map (spec_flip_rect (root_height ps)) region)
    /\ (fits_int (root_height ps - dst_y - heightb w) ->
        gc_dy args = spec_flipped_y (root_height ps) dst_y (heightb w))
    /\ (root_height ps = 100 ->
        region = [{| x1 := 0; y1 := 0; x2 := 10; y2 := 20 |}] ->
        gc_reg_tgt args = [{| x1 := 0; y1 := 80; x2 := 10; y2 := 100 |}]).
Proof.
  intros _. eexists. split; [reflexivity |]. simpl.
  split; [reflexivity |]. split; [apply sub32_sub32 |].
  split; [| split].
  - intros Hfit. apply map_ext_in. intros r Hr.
    destruct (Hfit r Hr). now apply yflip_exact.
  - intros Hfit. rewrite sub32_sub32. now apply wrap32_exact.
  - intros -> ->. reflexivity.
Qed.

Lemma glx_compose_yflip_witness :
  exists args,
    glx_compose (sample_glx_data 1 ∅) sample_ps
      {| id := 3; g_depth := 24%N; widthb := 10; heightb := 20;
         win_data := None |}
      zeroed_win_data 0 0 [{| x1 := 0; y1 := 0; x2 := 10; y2 := 20 |}]
    = [C_gl_compose args]
    /\ gc_reg_tgt args = [{| x1 := 0; y1 := 80; x2 := 10; y2 := 100 |}]
    /\ gc_dy args = 80.
Proof.
  destruct (glx_compose_yflip (sample_glx_data 1 ∅) sample_ps
              {| id := 3; g_depth := 24%N; widthb := 10; heightb := 20;
                 win_data := None |}
              zeroed_win_data 0 0
              [{| x1 := 0; y1 := 0; x2 := 10; y2 := 20 |}] eq_refl)
    as (args & Hc & _ & _ & _ & Hdy & Hreg).
  exists args. split; [exact Hc |]. split.
  - apply Hreg; reflexivity.
  - rewrite Hdy; [reflexivity |]. unfold fits_int. simpl. lia.
Defined.

(** ** C7: failures of [glx_prepare_win] *)

Lemma glx_prepare_win_err_fst ps w wd :
  fst (glx_prepare_win_err ps w wd) = None.
Proof. reflexivity. Qed.

(** The outcomes of [glx_prepare_win]: a binding whose GLX pixmap and
    texture are both valid, or no binding and nothing left of a partial
    creation. *)
Lemma glx_prepare_win_outcome gd ps w :
  match fst (glx_prepare_win gd ps w) with
  | Some wd => glpixmap wd <> 0 /\ texture (wd_texture wd) <> 0
               /\ pixmap wd <> 0
  | None => rolled_back ps (snd (glx_prepare_win gd ps w))
  end.
Proof.
  unfold glx_prepare_win, rolled_back.
  destruct (Z.of_N (g_depth w) >? OPENGL_MAX_DEPTH);
    [simpl; split; [intros ? ? ? [] | intros []] |].
  destruct (fbconfigs gd !! Z.of_N (g_depth w)) as [pcfg |];
    [| simpl; split; [intros ? ? ? [] | intros []]].
  destruct (has_name_pixmap ps);
    cbn [set_pixmap pixmap glpixmap wd_texture zeroed_win_data
         set_wd_texture set_glpixmap texture target];
    [set (p := generated_id (dpy ps)) | set (p := id w)].
  all: destruct (Z.eqb_spec p 0) as [Ep | Ep].
  all: try set (g := created_glxpixmap (dpy ps) (cfg pcfg) p).
  all: unfold glx_prepare_win_err;
    cbn [set_pixmap pixmap glpixmap wd_texture zeroed_win_data
         set_wd_texture set_glpixmap texture target fst snd].
  all: try (split; [intros c p0 attrs Hin Hg | intros Hin]; in_calls; fail).
  all: destruct (Z.eqb_spec g 0) as [Eg | Eg]; cbn [fst snd].
  all: try (split; [intros c p0 attrs Hin Hg | intros Hin]; in_calls;
            injection Hin as <- <- _; contradiction).
  all: destruct (Z.eqb_spec (generated_texture (dpy ps)) 0) as [Et | Et];
    cbn [fst snd set_pixmap pixmap glpixmap wd_texture zeroed_win_data
         set_wd_texture set_glpixmap texture target].
  all: try (repeat split; assumption).
  all: split; [intros c p0 attrs Hin _ | intros _; exact Et].
  all: in_calls; injection Hin as <- <- _; fold g.
  all: rewrite !in_app_iff; do 4 right; left.
  all: destruct (Z.eqb_spec g 0); [contradiction | now left].
Qed.

(** C7: when [glXCreatePixmap] returns a null handle,
    [glx_prepare_win] returns null; on the way it frees the pixmap, once,
    exactly when the pixmap differs from the id of the window; it
    generates no texture and has no GLX pixmap to destroy.  Whatever the
    outcome of [glx_prepare_win], the binding it returns has both a GLX
    pixmap and a texture, or it returns null with every GLX pixmap it
    created destroyed and no texture generated. *)
Theorem glx_prepare_win_bridge_failure gd ps w :
  (forall pcfg,
      Z.of_N (g_depth w) <= OPENGL_MAX_DEPTH ->
      fbconfigs gd !! Z.of_N (g_depth w) = Some pcfg ->
      prepared_pixmap ps w <> 0 ->
      created_glxpixmap (dpy ps) (cfg pcfg) (prepared_pixmap ps w) = 0 ->
      fst (glx_prepare_win gd ps w) = None
      /\ List.filter is_xcb_free_pixmap (snd (glx_prepare_win gd ps w))
         = (if prepared_pixmap ps w =? id w then []
            else [C_xcb_free_pixmap (prepared_pixmap ps w)])
      /\ existsb is_glGenTextures (snd (glx_prepare_win gd ps w)) = false
      /\ existsb is_glXDestroyPixmap (snd (glx_prepare_win gd ps w)) = false)
  /\ match fst (glx_prepare_win gd ps w) with
     | Some wd => glpixmap wd <> 0 /\ texture (wd_texture wd) <> 0
     | None => rolled_back ps (snd (glx_prepare_win gd ps w))
     end.
Proof.
  split.
  - intros pcfg Hdepth Hcfg Hp Hg.
    unfold glx_prepare_win, prepared_pixmap in *.
    destruct (Z.gtb_spec (Z.of_N (g_depth w)) OPENGL_MAX_DEPTH); [lia |].
    rewrite Hcfg.
    destruct (has_name_pixmap ps);
      cbn [set_pixmap pixmap glpixmap wd_texture zeroed_win_data
           set_wd_texture set_glpixmap texture target].
    all: match type of Hp with ?p <> 0 =>
           destruct (Z.eqb_spec p 0) as [E | _]; [contradiction |]
         end.
    all: rewrite Hg; unfold glx_prepare_win_err;
      cbn [set_pixmap pixmap glpixmap wd_texture zeroed_win_data
           set_wd_texture set_glpixmap texture target fst snd].
    all: match type of Hp with ?p <> 0 =>
           destruct (Z.eqb_spec p 0) as [E | _]; [contradiction |];
           destruct (p =? id w)
         end.
    all: repeat split; reflexivity.
  - pose proof (glx_prepare_win_outcome gd ps w) as H.
    destruct (fst (glx_prepare_win gd ps w)); [| exact H].
    destruct H as (? & ? & ?). now split.
Qed.

(** The X server names the pixmap 5 for the window 3, and
    [glXCreatePixmap] fails: the pixmap 5 is freed.  When the window's
    own id stands for the pixmap, nothing is freed. *)
Lemma glx_prepare_win_bridge_failure_witness :
  glx_prepare_win (sample_glx_data 1 sample_table)
    (sample_session (sample_dpy [] 5 0 9 0) 24 true SWAPM_UNDEFINED [])
    (sample_win None)
  = (None,
     [ C_xcb_generate_id; C_xcb_composite_name_window_pixmap 3 5;
       C_glXCreatePixmap 3 5
         [GLX_TEXTURE_FORMAT_EXT; GLX_TEXTURE_FORMAT_RGB_EXT;
          GLX_TEXTURE_TARGET_EXT; GLX_TEXTURE_2D_EXT; 0];
       C_xcb_free_pixmap 5;
       C_free_win_data
         {| wd_texture := {| texture := 0; target := GL_TEXTURE_2D;
                             width := 0; height := 0; y_inverted := false |};
            glpixmap := 0; pixmap := 5 |} ])
  /\ List.filter is_xcb_free_pixmap
       (snd (glx_prepare_win (sample_glx_data 1 sample_table)
               (sample_session (sample_dpy [] 5 0 9 0) 24 true
                  SWAPM_UNDEFINED [])
               (sample_win None)))
     = [C_xcb_free_pixmap 5]
  /\ List.filter is_xcb_free_pixmap
       (snd (glx_prepare_win (sample_glx_data 1 sample_table)
               (sample_session (sample_dpy [] 5 0 9 0) 24 false
                  SWAPM_UNDEFINED [])
               (sample_win None)))
     = [].
Proof.
  split; [reflexivity |]. split.
  - apply (proj1 (glx_prepare_win_bridge_failure
                    (sample_glx_data 1 sample_table)
                    (sample_session (sample_dpy [] 5 0 9 0) 24 true
                       SWAPM_UNDEFINED [])
                    (sample_win None))
             (sample_fbconfig 3 GLX_TEXTURE_FORMAT_RGB_EXT)).
    + unfold OPENGL_MAX_DEPTH. simpl. lia.
    + reflexivity.
    + discriminate.
    + reflexivity.
  - apply (proj1 (glx_prepare_win_bridge_failure
                    (sample_glx_data 1 sample_table)
                    (sample_session (sample_dpy [] 5 0 9 0) 24 false
                       SWAPM_UNDEFINED [])
                    (sample_win None))
             (sample_fbconfig 3 GLX_TEXTURE_FORMAT_RGB_EXT)).
    + unfold OPENGL_MAX_DEPTH. simpl. lia.
    + reflexivity.
    + discriminate.
    + reflexivity.
Defined.

(** The other failure and the success, on the same window. *)
Example glx_prepare_win_texture_failure :
  glx_prepare_win (sample_glx_data 1 sample_table)
    (sample_session (sample_dpy [] 5 7 0 0) 24 true SWAPM_UNDEFINED [])
    (sample_win None)
  = (None,
     [ C_xcb_generate_id; C_xcb_composite_name_window_pixmap 3 5;
       C_glXCreatePixmap 3 5
         [GLX_TEXTURE_FORMAT_EXT; GLX_TEXTURE_FORMAT_RGB_EXT;
          GLX_TEXTURE_TARGET_EXT; GLX_TEXTURE_2D_EXT; 0];
       C_glGenTextures;
       C_xcb_free_pixmap 5; C_glXDestroyPixmap 7;
       C_free_win_data
         {| wd_texture := {| texture := 0; target := GL_TEXTURE_2D;
                             width := 0; height := 0; y_inverted := false |};
            glpixmap := 7; pixmap := 5 |} ]).
Proof. reflexivity. Qed.

Example glx_prepare_win_success :
  fst (glx_prepare_win (sample_glx_data 1 sample_table)
         (sample_session (sample_dpy [] 5 7 9 0) 24 true SWAPM_UNDEFINED [])
         (sample_win None))
  = Some sample_binding.
Proof. reflexivity. Qed.

(** ** C1: releasing a window's binding *)

(** Whatever the binding, [glx_release_win] makes no call to
    [xcb_free_pixmap]. *)
Lemma glx_release_win_no_free_pixmap gd ps w wd :
  existsb is_xcb_free_pixmap (glx_release_win gd ps w wd) = false.
Proof.
  unfold glx_release_win, glx_release_pixmap.
  destruct (negb (glpixmap wd =? 0)); destruct (negb (texture _ =? 0));
    reflexivity.
Qed.

(** The calls of [glx_release_win] on a binding with a GLX pixmap and a
    texture: the release of the binding, the destruction of the GLX
    pixmap, the deletion of the texture, the release of the structure. *)
Lemma glx_release_win_calls gd ps w wd :
  glpixmap wd <> 0 -> texture (wd_texture wd) <> 0 ->
  glx_release_win gd ps w wd
  = [ C_glBindTexture (target (wd_texture wd)) (texture (wd_texture wd));
      C_glXReleaseTexImage (glpixmap wd) GLX_FRONT_LEFT_EXT;
      C_glBindTexture (target (wd_texture wd)) 0;
      C_glXDestroyPixmap (glpixmap wd);
      C_gl_check_err;
      C_glDeleteTextures (texture (wd_texture wd));
      C_free_win_data (set_glpixmap wd 0) ].
Proof.
  intros Hg Ht. unfold glx_release_win, glx_release_pixmap.
  destruct (Z.eqb_spec (glpixmap wd) 0); [contradiction |].
  destruct (Z.eqb_spec (texture (wd_texture wd)) 0); [contradiction |].
  reflexivity.
Qed.

(** C1, at the binding [glx_prepare_win] built for window 3 over the
    pixmap 5 named for it: the pixmap is owned, the binding is released,
    the GLX pixmap destroyed, the texture deleted and the structure
    freed, and the pixmap 5 is not freed, while the error path of
    [glx_prepare_win] frees it. *)
Theorem glx_release_win_leaks_owned_pixmap :
  let ps := sample_session (sample_dpy [] 5 7 9 0) 24 true SWAPM_UNDEFINED [] in
  let gd := sample_glx_data 1 sample_table in
  fst (glx_prepare_win gd ps (sample_win None)) = Some sample_binding
  /\ pixmap sample_binding <> id (sample_win None)
  /\ glx_release_win gd ps (sample_win (Some sample_binding)) sample_binding
     = [ C_glBindTexture GL_TEXTURE_2D 9;
         C_glXReleaseTexImage 7 GLX_FRONT_LEFT_EXT;
         C_glBindTexture GL_TEXTURE_2D 0;
         C_glXDestroyPixmap 7;
         C_gl_check_err;
         C_glDeleteTextures 9;
         C_free_win_data (set_glpixmap sample_binding 0) ]
  /\ ~ In (C_xcb_free_pixmap 5)
         (glx_release_win gd ps (sample_win (Some sample_binding))
            sample_binding)
  /\ In (C_xcb_free_pixmap 5)
       (snd (glx_prepare_win_err ps (sample_win None) sample_binding)).
Proof.
  cbv zeta. split; [reflexivity |]. split; [discriminate |].
  split; [reflexivity |]. split.
  - intros Hin. vm_compute in Hin. intuition discriminate.
  - left. reflexivity.
Qed.

(** ** C2: the teardown *)

Lemma glx_deinit_fbconfigs_calls n :
  forall i gd,
    snd (glx_deinit_fbconfigs n i gd)
    = map (fun k => C_free_fbconfig k (fbconfigs gd !! k))
        (map (fun j => i + Z.of_nat j) (seq 0 n)).
Proof.
  induction n as [| n IH]; intros i gd; [reflexivity |].
  cbn [glx_deinit_fbconfigs].
  destruct (glx_deinit_fbconfigs n (i + 1)
              (set_fbconfigs gd (delete i (fbconfigs gd)))) as [gd' t] eqn:E.
  pose proof (IH (i + 1) (set_fbconfigs gd (delete i (fbconfigs gd)))) as H.
  rewrite E in H. cbn [snd] in *. subst t.
  cbn [seq map]. rewrite Z.add_0_r. f_equal.
  rewrite <- seq_shift, !map_map.
  apply map_ext_in. intros j Hj. cbn [fbconfigs set_fbconfigs].
  replace (i + Z.of_nat (S j)) with (i + 1 + Z.of_nat j) by lia.
  rewrite lookup_delete_ne; [reflexivity | lia].
Qed.

Lemma glx_deinit_fbconfigs_table n :
  forall i gd k,
    fbconfigs (fst (glx_deinit_fbconfigs n i gd)) !! k
    = if (i <=? k) && (k <? i + Z.of_nat n) then None else fbconfigs gd !! k.
Proof.
  induction n as [| n IH]; intros i gd k.
  - cbn [glx_deinit_fbconfigs fst].
    destruct (Z.leb_spec i k), (Z.ltb_spec k (i + Z.of_nat 0));
      try reflexivity; lia.
  - cbn [glx_deinit_fbconfigs].
    destruct (glx_deinit_fbconfigs n (i + 1)
                (set_fbconfigs gd (delete i (fbconfigs gd)))) as [gd' t] eqn:E.
    pose proof (IH (i + 1) (set_fbconfigs gd (delete i (fbconfigs gd))) k) as H.
    rewrite E in H. cbn [fst] in *. rewrite H. cbn [fbconfigs set_fbconfigs].
    destruct (Z.leb_spec (i + 1) k), (Z.ltb_spec k (i + 1 + Z.of_nat n)),
      (Z.leb_spec i k), (Z.ltb_spec k (i + Z.of_nat (S n)));
      cbn [andb]; try reflexivity; try lia.
    all: try (rewrite lookup_delete_ne by lia; reflexivity).
    replace k with i by lia. apply lookup_delete_eq.
Qed.

(** The calls of [glx_deinit], in order: the blur shaders, the main
    program, the slots of the table from 0 to [OPENGL_MAX_DEPTH], the
    context if there is one, the backend data. *)
Lemma glx_deinit_calls gd ps :
  snd (glx_deinit gd ps)
  = map C_gl_free_blur_shader (blur_shader gd)
    ++ [C_gl_free_prog_main (win_shader gd); C_gl_check_err]
    ++ map (fun k => C_free_fbconfig k (fbconfigs gd !! k))
         (map Z.of_nat (seq 0 (Z.to_nat (OPENGL_MAX_DEPTH + 1))))
    ++ (if ctx gd =? 0 then [] else [C_glXDestroyContext (ctx gd)])
    ++ [C_free_glx_data].
Proof.
  unfold glx_deinit.
  assert (W : flat_map (free_win_res_glx ps) (list_ ps) = []).
  { induction (list_ ps) as [| w ws IH]; [reflexivity | exact IH]. }
  rewrite W.
  pose proof (glx_deinit_fbconfigs_calls
                (Z.to_nat (OPENGL_MAX_DEPTH + 1)) 0 gd) as Hc.
  assert (Hx : ctx (fst (glx_deinit_fbconfigs
                           (Z.to_nat (OPENGL_MAX_DEPTH + 1)) 0 gd)) = ctx gd).
  { generalize (Z.to_nat (OPENGL_MAX_DEPTH + 1)), 0, gd.
    induction n as [| n IH]; intros i g; [reflexivity |].
    cbn [glx_deinit_fbconfigs].
    specialize (IH (i + 1) (set_fbconfigs g (delete i (fbconfigs g)))).
    destruct (glx_deinit_fbconfigs n (i + 1) _) as [g' t]. exact IH. }
  destruct (glx_deinit_fbconfigs (Z.to_nat (OPENGL_MAX_DEPTH + 1)) 0 gd)
    as [gd' t].
  cbn [fst snd] in *. subst t. rewrite Hx.
  destruct (ctx gd =? 0); reflexivity.
Qed.

(** Whatever the windows and their bindings, [glx_deinit] makes no call
    that releases a part of a window's binding. *)
Lemma glx_deinit_no_win_release gd ps :
  existsb is_win_release (snd (glx_deinit gd ps)) = false.
Proof.
  rewrite glx_deinit_calls, !existsb_app.
  assert (B : forall l, existsb is_win_release (map C_gl_free_blur_shader l)
                        = false)
    by (induction l; [reflexivity | assumption]).
  assert (F : forall l, existsb is_win_release
                          (map (fun k => C_free_fbconfig k (fbconfigs gd !! k)) l)
                        = false)
    by (induction l; [reflexivity | assumption]).
  rewrite B, F. now destruct (ctx gd =? 0).
Qed.

(** C2, at a backend with a context, a config for depth 24 and the
    window 3 with its live binding: [glx_deinit] frees the two blur
    shaders and the main program, the 33 slots of the table and the
    context, in this order, and makes no call on the GLX pixmap 7, the
    texture 9 or the structure of the binding, which
    [glx_release_win] would release. *)
Theorem glx_deinit_skips_window_bindings :
  let ps := sample_session (sample_dpy [] 5 7 9 0) 24 true SWAPM_UNDEFINED
              [sample_win (Some sample_binding)] in
  let gd := sample_glx_data 1 sample_table in
  snd (glx_deinit gd ps)
  = [ C_gl_free_blur_shader 21; C_gl_free_blur_shader 22;
      C_gl_free_prog_main 11; C_gl_check_err ]
    ++ map (fun k => C_free_fbconfig k (sample_table !! k))
         (map Z.of_nat (seq 0 33))
    ++ [ C_glXDestroyContext 1; C_free_glx_data ]
  /\ existsb is_win_release (snd (glx_deinit gd ps)) = false
  /\ existsb is_win_release
       (glx_release_win gd ps (sample_win (Some sample_binding))
          sample_binding) = true.
Proof.
  cbv zeta. split; [| split].
  - rewrite glx_deinit_calls. reflexivity.
  - apply glx_deinit_no_win_release.
  - reflexivity.
Qed.

(** After [glx_deinit] every slot of the table is null and there is no
    context. *)
Lemma glx_deinit_state gd ps k :
  0 <= k <= OPENGL_MAX_DEPTH ->
  fbconfigs (fst (glx_deinit gd ps)) !! k = None
  /\ ctx (fst (glx_deinit gd ps)) = 0.
Proof.
  intros Hk. unfold glx_deinit.
  pose proof (glx_deinit_fbconfigs_table
                (Z.to_nat (OPENGL_MAX_DEPTH + 1)) 0 gd k) as Ht.
  destruct (glx_deinit_fbconfigs (Z.to_nat (OPENGL_MAX_DEPTH + 1)) 0 gd)
    as [gd' t].
  cbn [fst] in Ht.
  destruct (Z.eqb_spec (ctx gd') 0) as [E | E]; cbn [negb fst].
  - split; [| exact E]. rewrite Ht. unfold OPENGL_MAX_DEPTH in *.
    destruct (Z.leb_spec 0 k), (Z.ltb_spec k (0 + Z.of_nat (Z.to_nat (32 + 1))));
      try reflexivity; lia.
  - split; [| reflexivity]. cbn [fbconfigs set_ctx]. rewrite Ht.
    unfold OPENGL_MAX_DEPTH in *.
    destruct (Z.leb_spec 0 k), (Z.ltb_spec k (0 + Z.of_nat (Z.to_nat (32 + 1))));
      try reflexivity; lia.
Qed.

(** * Further properties *)

(** ** Releasing a binding *)

(** X1: releasing the binding of a texture a second time makes no GLX
    call: after [glx_release_pixmap] the binding has no GLX pixmap, and
    releasing it again only checks for errors and leaves it as it is. *)
Theorem glx_release_pixmap_twice gd d wd :
  glpixmap (fst (glx_release_pixmap gd d wd)) = 0
  /\ glx_release_pixmap gd d (fst (glx_release_pixmap gd d wd))
     = (fst (glx_release_pixmap gd d wd), [C_gl_check_err]).
Proof.
  unfold glx_release_pixmap.
  destruct (Z.eqb_spec (glpixmap wd) 0) as [E | E]; cbn [negb andb fst].
  - split; [exact E |]. rewrite E. reflexivity.
  - split; reflexivity.
Qed.

(** X2: whatever the binding, complete or not, [glx_release_win]
    releases the texture image exactly when the binding has both a GLX
    pixmap and a texture, destroys the GLX pixmap exactly when there is
    one, and ends by deleting the texture name and freeing the
    structure. *)
Theorem glx_release_win_partial gd ps w wd :
  existsb is_glXReleaseTexImage (glx_release_win gd ps w wd)
  = negb (glpixmap wd =? 0) && negb (texture (wd_texture wd) =? 0)
  /\ List.filter is_glXDestroyPixmap (glx_release_win gd ps w wd)
     = (if glpixmap wd =? 0 then [] else [C_glXDestroyPixmap (glpixmap wd)])
  /\ exists t,
       glx_release_win gd ps w wd
       = t ++ [ C_gl_check_err;
                C_glDeleteTextures (texture (wd_texture wd));
                C_free_win_data (set_glpixmap wd 0) ]
       /\ existsb is_glDeleteTextures t = false
       /\ existsb is_free_win_data t = false.
Proof.
  unfold glx_release_win, glx_release_pixmap.
  destruct (Z.eqb_spec (glpixmap wd) 0) as [E | E];
    destruct (Z.eqb_spec (texture (wd_texture wd)) 0) as [T | T];
    cbn [negb andb app].
  all: split; [reflexivity |]; split; [reflexivity |].
  1, 2: exists []; split; [| split; reflexivity];
    destruct wd as [tx g p]; simpl in *; subst; reflexivity.
  - exists [C_glXDestroyPixmap (glpixmap wd)]. repeat split.
  - exists [ C_glBindTexture (target (wd_texture wd)) (texture (wd_texture wd));
             C_glXReleaseTexImage (glpixmap wd) GLX_FRONT_LEFT_EXT;
             C_glBindTexture (target (wd_texture wd)) 0;
             C_glXDestroyPixmap (glpixmap wd) ].
    repeat split.
Qed.

(** ** Creating a binding *)

(** The four ways [glx_prepare_win] ends once a config is found for the
    depth of the window. *)
Lemma glx_prepare_win_cases gd ps w pcfg :
  Z.of_N (g_depth w) <= OPENGL_MAX_DEPTH ->
  fbconfigs gd !! Z.of_N (g_depth w) = Some pcfg ->
  let p := prepared_pixmap ps w in
  let g := created_glxpixmap (dpy ps) (cfg pcfg) p in
  let tx := generated_texture (dpy ps) in
  let tgt := if GLX_TEXTURE_2D_EXT =? glx_prepare_win_tex_tgt gd pcfg
             then GL_TEXTURE_2D else GL_TEXTURE_RECTANGLE in
  let wd0 := {| wd_texture := {| texture := 0; target := tgt; width := 0;
                                 height := 0;
                                 y_inverted := fbc_y_inverted pcfg |};
                glpixmap := 0; pixmap := p |} in
  let t_pix := if has_name_pixmap ps
               then [C_xcb_generate_id;
                     C_xcb_composite_name_window_pixmap (id w) p]
               else [] in
  let t_glx := [C_glXCreatePixmap (cfg pcfg) p
                  [ GLX_TEXTURE_FORMAT_EXT; texture_fmt pcfg;
                    GLX_TEXTURE_TARGET_EXT;
                    glx_prepare_win_tex_tgt gd pcfg; 0 ]] in
  glx_prepare_win gd ps w
  = if p =? 0 then
      (None, t_pix ++ snd (glx_prepare_win_err ps w wd0))
    else if g =? 0 then
      (None, t_pix ++ t_glx
             ++ snd (glx_prepare_win_err ps w (set_glpixmap wd0 g)))
    else if tx =? 0 then
      (None, t_pix ++ t_glx ++ [C_glGenTextures]
             ++ snd (glx_prepare_win_err ps w (set_glpixmap wd0 g)))
    else
      (Some {| wd_texture := {| texture := tx; target := tgt;
                                width := widthb w; height := heightb w;
                                y_inverted := fbc_y_inverted pcfg |};
               glpixmap := g; pixmap := p |},
       t_pix ++ t_glx ++ [C_glGenTextures]
       ++ [ C_glBindTexture tgt tx;
            C_glTexParameteri tgt GL_TEXTURE_MIN_FILTER GL_NEAREST;
            C_glTexParameteri tgt GL_TEXTURE_MAG_FILTER GL_NEAREST;
            C_glTexParameteri tgt GL_TEXTURE_WRAP_S GL_CLAMP_TO_EDGE;
            C_glTexParameteri tgt GL_TEXTURE_WRAP_T GL_CLAMP_TO_EDGE;
            C_glBindTexture tgt 0 ]).
Proof.
  intros Hd Hcfg. cbv zeta. unfold glx_prepare_win, prepared_pixmap.
  destruct (Z.gtb_spec (Z.of_N (g_depth w)) OPENGL_MAX_DEPTH); [lia |].
  rewrite Hcfg.
  destruct (has_name_pixmap ps);
    cbn [set_pixmap pixmap glpixmap wd_texture zeroed_win_data
         set_wd_texture set_glpixmap texture target width height y_inverted].
  all: match goal with
       | |- context [if ?p =? 0 then _ else _] => destruct (p =? 0)
       end; [reflexivity |].
  all: match goal with
       | |- context [if ?g =? 0 then _ else _] => destruct (g =? 0)
       end; [reflexivity |].
  all: destruct (generated_texture (dpy ps) =? 0); reflexivity.
Qed.

(** What a returned binding holds. *)
Lemma glx_prepare_win_result gd ps w wd :
  fst (glx_prepare_win gd ps w) = Some wd ->
  exists pcfg,
    Z.of_N (g_depth w) <= OPENGL_MAX_DEPTH
    /\ fbconfigs gd !! Z.of_N (g_depth w) = Some pcfg
    /\ prepared_pixmap ps w <> 0
    /\ created_glxpixmap (dpy ps) (cfg pcfg) (prepared_pixmap ps w) <> 0
    /\ generated_texture (dpy ps) <> 0
    /\ wd = {| wd_texture :=
                 {| texture := generated_texture (dpy ps);
                    target := if GLX_TEXTURE_2D_EXT
                                 =? glx_prepare_win_tex_tgt gd pcfg
                              then GL_TEXTURE_2D else GL_TEXTURE_RECTANGLE;
                    width := widthb w; height := heightb w;
                    y_inverted := fbc_y_inverted pcfg |};
               glpixmap := created_glxpixmap (dpy ps) (cfg pcfg)
                             (prepared_pixmap ps w);
               pixmap := prepared_pixmap ps w |}.
Proof.
  intros Hwd.
  destruct (Z_le_gt_dec (Z.of_N (g_depth w)) OPENGL_MAX_DEPTH) as [Hd | Hd].
  - destruct (fbconfigs gd !! Z.of_N (g_depth w)) as [pcfg |] eqn:Hcfg.
    + exists pcfg. rewrite (glx_prepare_win_cases gd ps w pcfg Hd Hcfg) in Hwd.
      cbv zeta in Hwd.
      destruct (Z.eqb_spec (prepared_pixmap ps w) 0); [discriminate |].
      destruct (Z.eqb_spec (created_glxpixmap (dpy ps) (cfg pcfg)
                              (prepared_pixmap ps w)) 0); [discriminate |].
      destruct (Z.eqb_spec (generated_texture (dpy ps)) 0); [discriminate |].
      cbn [fst] in Hwd. injection Hwd as <-. auto 10.
    + unfold glx_prepare_win in Hwd. rewrite Hcfg in Hwd.
      destruct (_ >? _); discriminate.
  - unfold glx_prepare_win in Hwd.
    destruct (Z.gtb_spec (Z.of_N (g_depth w)) OPENGL_MAX_DEPTH);
      [discriminate | lia].
Qed.

(** X3: [glx_prepare_win] returns a binding exactly when the depth of
    the window is inside the table and has a config, a pixmap is
    obtained, [glXCreatePixmap] returns a GLX pixmap and [glGenTextures]
    a texture name. *)
Theorem glx_prepare_win_succeeds_iff gd ps w :
  is_Some (fst (glx_prepare_win gd ps w))
  <-> exists pcfg,
        Z.of_N (g_depth w) <= OPENGL_MAX_DEPTH
        /\ fbconfigs gd !! Z.of_N (g_depth w) = Some pcfg
        /\ prepared_pixmap ps w <> 0
        /\ created_glxpixmap (dpy ps) (cfg pcfg) (prepared_pixmap ps w) <> 0
        /\ generated_texture (dpy ps) <> 0.
Proof.
  split.
  - intros [wd Hwd].
    destruct (glx_prepare_win_result gd ps w wd Hwd)
      as (pcfg & Hd & Hcfg & Hp & Hg & Ht & _).
    exists pcfg. auto.
  - intros (pcfg & Hd & Hcfg & Hp & Hg & Ht).
    rewrite (glx_prepare_win_cases gd ps w pcfg Hd Hcfg). cbv zeta.
    destruct (Z.eqb_spec (prepared_pixmap ps w) 0); [contradiction |].
    destruct (Z.eqb_spec (created_glxpixmap (dpy ps) (cfg pcfg)
                            (prepared_pixmap ps w)) 0); [contradiction |].
    destruct (Z.eqb_spec (generated_texture (dpy ps)) 0); [contradiction |].
    eauto.
Qed.

(** X4: the binding [glx_prepare_win] returns snapshots the size of the
    window, copies [y_inverted] from the config of the window's depth,
    holds the pixmap named for the window (or the window's id), and
    passes the assertions of [glx_render_win]. *)
Theorem glx_prepare_win_binding gd ps w wd :
  fst (glx_prepare_win gd ps w) = Some wd ->
  width (wd_texture wd) = widthb w
  /\ height (wd_texture wd) = heightb w
  /\ pixmap wd = (if has_name_pixmap ps then generated_id (dpy ps) else id w)
  /\ (exists pcfg, fbconfigs gd !! Z.of_N (g_depth w) = Some pcfg
                   /\ y_inverted (wd_texture wd) = fbc_y_inverted pcfg
                   /\ glpixmap wd
                      = created_glxpixmap (dpy ps) (cfg pcfg) (pixmap wd))
  /\ (target (wd_texture wd) = GL_TEXTURE_2D
      \/ target (wd_texture wd) = GL_TEXTURE_RECTANGLE)
  /\ glx_render_win_asserts wd = true.
Proof.
  intros Hwd.
  destruct (glx_prepare_win_result gd ps w wd Hwd)
    as (pcfg & Hd & Hcfg & Hp & Hg & Ht & ->).
  cbn [wd_texture width height pixmap glpixmap y_inverted target texture].
  split; [reflexivity |]. split; [reflexivity |]. split; [reflexivity |].
  split; [exists pcfg; auto |]. split.
  - destruct (_ =? _); auto.
  - unfold glx_render_win_asserts.
    cbn [wd_texture pixmap glpixmap texture].
    destruct (Z.eqb_spec (prepared_pixmap ps w) 0); [contradiction |].
    destruct (Z.eqb_spec (created_glxpixmap (dpy ps) (cfg pcfg)
                            (prepared_pixmap ps w)) 0); [contradiction |].
    destruct (Z.eqb_spec (generated_texture (dpy ps)) 0); [contradiction |].
    reflexivity.
Qed.

Lemma glx_prepare_win_binding_witness :
  width (wd_texture sample_binding) = 10
  /\ height (wd_texture sample_binding) = 20
  /\ pixmap sample_binding = 5
  /\ glx_render_win_asserts sample_binding = true.
Proof.
  destruct (glx_prepare_win_binding (sample_glx_data 1 sample_table)
              (sample_session (sample_dpy [] 5 7 9 0) 24 true
                 SWAPM_UNDEFINED [])
              (sample_win None) sample_binding eq_refl)
    as (Hw & Hh & Hp & _ & _ & Ha).
  repeat split; assumption.
Defined.

(** X5: a window whose depth is above [OPENGL_MAX_DEPTH], or for whose
    depth the table has no config, gets no binding, and not one call is
    made for it. *)
Theorem glx_prepare_win_unsupported_depth gd ps w :
  OPENGL_MAX_DEPTH < Z.of_N (g_depth w)
  \/ fbconfigs gd !! Z.of_N (g_depth w) = None ->
  glx_prepare_win gd ps w = (None, []).
Proof.
  intros [Hd | Hcfg]; unfold glx_prepare_win.
  - destruct (Z.gtb_spec (Z.of_N (g_depth w)) OPENGL_MAX_DEPTH);
      [reflexivity | lia].
  - rewrite Hcfg. now destruct (_ >? _).
Qed.

Lemma glx_prepare_win_unsupported_depth_witness :
  glx_prepare_win (sample_glx_data 1 sample_table) sample_ps
    {| id := 3; g_depth := 32%N; widthb := 10; heightb := 20;
       win_data := None |}
  = (None, [])
  /\ glx_prepare_win (sample_glx_data 1 sample_table) sample_ps
       {| id := 3; g_depth := 48%N; widthb := 10; heightb := 20;
          win_data := None |}
     = (None, []).
Proof.
  split.
  - apply glx_prepare_win_unsupported_depth. right. reflexivity.
  - apply glx_prepare_win_unsupported_depth. left.
    unfold OPENGL_MAX_DEPTH. simpl. lia.
Defined.

(** X6: when [glGenTextures] gives no texture name, [glx_prepare_win]
    returns null after destroying the GLX pixmap it created, once, and
    freeing the pixmap exactly when it differs from the id of the
    window; it deletes no texture. *)
Theorem glx_prepare_win_texture_rollback gd ps w pcfg :
  Z.of_N (g_depth w) <= OPENGL_MAX_DEPTH ->
  fbconfigs gd !! Z.of_N (g_depth w) = Some pcfg ->
  prepared_pixmap ps w <> 0 ->
  created_glxpixmap (dpy ps) (cfg pcfg) (prepared_pixmap ps w) <> 0 ->
  generated_texture (dpy ps) = 0 ->
  fst (glx_prepare_win gd ps w) = None
  /\ List.filter is_glXDestroyPixmap (snd (glx_prepare_win gd ps w))
     = [C_glXDestroyPixmap
          (created_glxpixmap (dpy ps) (cfg pcfg) (prepared_pixmap ps w))]
  /\ List.filter is_xcb_free_pixmap (snd (glx_prepare_win gd ps w))
     = (if prepared_pixmap ps w =? id w then []
        else [C_xcb_free_pixmap (prepared_pixmap ps w)])
  /\ existsb is_glDeleteTextures (snd (glx_prepare_win gd ps w)) = false.
Proof.
  intros Hd Hcfg Hp Hg Ht.
  rewrite (glx_prepare_win_cases gd ps w pcfg Hd Hcfg). cbv zeta.
  destruct (Z.eqb_spec (prepared_pixmap ps w) 0) as [? | _]; [contradiction |].
  destruct (Z.eqb_spec (created_glxpixmap (dpy ps) (cfg pcfg)
                          (prepared_pixmap ps w)) 0) as [? | _];
    [contradiction |].
  rewrite Ht. cbn [Z.eqb fst snd]. unfold glx_prepare_win_err.
  cbn [pixmap glpixmap set_glpixmap snd].
  destruct (Z.eqb_spec (prepared_pixmap ps w) 0) as [? | _]; [contradiction |].
  destruct (Z.eqb_spec (created_glxpixmap (dpy ps) (cfg pcfg)
                          (prepared_pixmap ps w)) 0) as [? | _];
    [contradiction |].
  destruct (has_name_pixmap ps), (prepared_pixmap ps w =? id w);
    repeat split; reflexivity.
Qed.

Lemma glx_prepare_win_texture_rollback_witness :
  fst (glx_prepare_win (sample_glx_data 1 sample_table)
         (sample_session (sample_dpy [] 5 7 0 0) 24 true SWAPM_UNDEFINED [])
         (sample_win None)) = None
  /\ List.filter is_glXDestroyPixmap
       (snd (glx_prepare_win (sample_glx_data 1 sample_table)
               (sample_session (sample_dpy [] 5 7 0 0) 24 true
                  SWAPM_UNDEFINED [])
               (sample_win None)))
     = [C_glXDestroyPixmap 7].
Proof.
  destruct (glx_prepare_win_texture_rollback (sample_glx_data 1 sample_table)
              (sample_session (sample_dpy [] 5 7 0 0) 24 true
                 SWAPM_UNDEFINED [])
              (sample_win None)
              (sample_fbconfig 3 GLX_TEXTURE_FORMAT_RGB_EXT))
    as (Hn & Hd & _ & _).
  - unfold OPENGL_MAX_DEPTH. simpl. lia.
  - reflexivity.
  - discriminate.
  - discriminate.
  - reflexivity.
  - split; [exact Hn | exact Hd].
Defined.

(** X7: when no pixmap is obtained for the window (the id is zero),
    [glx_prepare_win] returns null without creating a GLX pixmap or a
    texture and without freeing or destroying anything but the
    structure. *)
Theorem glx_prepare_win_no_pixmap gd ps w pcfg :
  Z.of_N (g_depth w) <= OPENGL_MAX_DEPTH ->
  fbconfigs gd !! Z.of_N (g_depth w) = Some pcfg ->
  prepared_pixmap ps w = 0 ->
  fst (glx_prepare_win gd ps w) = None
  /\ existsb is_glXCreatePixmap (snd (glx_prepare_win gd ps w)) = false
  /\ existsb is_glGenTextures (snd (glx_prepare_win gd ps w)) = false
  /\ existsb is_xcb_free_pixmap (snd (glx_prepare_win gd ps w)) = false
  /\ existsb is_glXDestroyPixmap (snd (glx_prepare_win gd ps w)) = false
  /\ List.filter is_free_win_data (snd (glx_prepare_win gd ps w))
     = [C_free_win_data
          {| wd_texture :=
               {| texture := 0;
                  target := if GLX_TEXTURE_2D_EXT
                               =? glx_prepare_win_tex_tgt gd pcfg
                            then GL_TEXTURE_2D else GL_TEXTURE_RECTANGLE;
                  width := 0; height := 0;
                  y_inverted := fbc_y_inverted pcfg |};
             glpixmap := 0; pixmap := 0 |}].
Proof.
  intros Hd Hcfg Hp.
  rewrite (glx_prepare_win_cases gd ps w pcfg Hd Hcfg). cbv zeta.
  rewrite Hp. cbn [Z.eqb fst snd]. unfold glx_prepare_win_err.
  cbn [pixmap glpixmap snd Z.eqb negb andb].
  destruct (has_name_pixmap ps); repeat split; reflexivity.
Qed.

Lemma glx_prepare_win_no_pixmap_witness :
  fst (glx_prepare_win (sample_glx_data 1 sample_table)
         (sample_session (sample_dpy [] 0 7 9 0) 24 true SWAPM_UNDEFINED [])
         (sample_win None)) = None
  /\ existsb is_glXCreatePixmap
       (snd (glx_prepare_win (sample_glx_data 1 sample_table)
               (sample_session (sample_dpy [] 0 7 9 0) 24 true
                  SWAPM_UNDEFINED [])
               (sample_win None))) = false.
Proof.
  destruct (glx_prepare_win_no_pixmap (sample_glx_data 1 sample_table)
              (sample_session (sample_dpy [] 0 7 9 0) 24 true
                 SWAPM_UNDEFINED [])
              (sample_win None)
              (sample_fbconfig 3 GLX_TEXTURE_FORMAT_RGB_EXT))
    as (Hn & Hc & _).
  - unfold OPENGL_MAX_DEPTH. simpl. lia.
  - reflexivity.
  - reflexivity.
  - split; [exact Hn | exact Hc].
Defined.

(** X8: creating a binding and then releasing it destroys the one GLX
    pixmap the creation made and deletes the one texture name it
    generated, the texture image being released before the GLX pixmap
    is destroyed. *)
Theorem glx_prepare_win_then_release gd ps w wd gd' ps' w' :
  fst (glx_prepare_win gd ps w) = Some wd ->
  exists c p attrs t,
    List.filter is_glXCreatePixmap (snd (glx_prepare_win gd ps w))
    = [C_glXCreatePixmap c p attrs]
    /\ List.filter is_glGenTextures (snd (glx_prepare_win gd ps w))
       = [C_glGenTextures]
    /\ glx_release_win gd' ps' w' wd
       = [ C_glBindTexture t (generated_texture (dpy ps));
           C_glXReleaseTexImage (created_glxpixmap (dpy ps) c p)
             GLX_FRONT_LEFT_EXT;
           C_glBindTexture t 0;
           C_glXDestroyPixmap (created_glxpixmap (dpy ps) c p);
           C_gl_check_err;
           C_glDeleteTextures (generated_texture (dpy ps));
           C_free_win_data (set_glpixmap wd 0) ].
Proof.
  intros Hwd.
  destruct (glx_prepare_win_result gd ps w wd Hwd)
    as (pcfg & Hd & Hcfg & Hp & Hg & Ht & Ewd).
  exists (cfg pcfg), (prepared_pixmap ps w),
    [ GLX_TEXTURE_FORMAT_EXT; texture_fmt pcfg; GLX_TEXTURE_TARGET_EXT;
      glx_prepare_win_tex_tgt gd pcfg; 0 ],
    (target (wd_texture wd)).
  rewrite (glx_prepare_win_cases gd ps w pcfg Hd Hcfg). cbv zeta.
  destruct (Z.eqb_spec (prepared_pixmap ps w) 0); [contradiction |].
  destruct (Z.eqb_spec (created_glxpixmap (dpy ps) (cfg pcfg)
                          (prepared_pixmap ps w)) 0); [contradiction |].
  destruct (Z.eqb_spec (generated_texture (dpy ps)) 0); [contradiction |].
  cbn [snd]. split; [| split].
  - now destruct (has_name_pixmap ps).
  - now destruct (has_name_pixmap ps).
  - rewrite glx_release_win_calls; subst wd; cbn; auto.
Qed.

Lemma glx_prepare_win_then_release_witness :
  exists c p attrs t,
    List.filter is_glXCreatePixmap
      (snd (glx_prepare_win (sample_glx_data 1 sample_table)
              (sample_session (sample_dpy [] 5 7 9 0) 24 true
                 SWAPM_UNDEFINED [])
              (sample_win None)))
    = [C_glXCreatePixmap c p attrs]
    /\ List.filter is_glGenTextures
         (snd (glx_prepare_win (sample_glx_data 1 sample_table)
                 (sample_session (sample_dpy [] 5 7 9 0) 24 true
                    SWAPM_UNDEFINED [])
                 (sample_win None)))
       = [C_glGenTextures]
    /\ glx_release_win (sample_glx_data 1 sample_table) sample_ps
         (sample_win (Some sample_binding)) sample_binding
       = [ C_glBindTexture t 9;
           C_glXReleaseTexImage 7 GLX_FRONT_LEFT_EXT;
           C_glBindTexture t 0;
           C_glXDestroyPixmap 7;
           C_gl_check_err;
           C_glDeleteTextures 9;
           C_free_win_data (set_glpixmap sample_binding 0) ].
Proof.
  apply (glx_prepare_win_then_release (sample_glx_data 1 sample_table)
           (sample_session (sample_dpy [] 5 7 9 0) 24 true
              SWAPM_UNDEFINED [])
           (sample_win None) sample_binding
           (sample_glx_data 1 sample_table) sample_ps
           (sample_win (Some sample_binding)) eq_refl).
Defined.

(** X9: the texture target chosen for a pixmap is the 2D target exactly
    when the config can bind to it and either the context has
    non-power-of-two textures or the config cannot bind to the rectangle
    target; it is the rectangle target otherwise, also for a config that
    can bind to neither. *)
Theorem glx_prepare_win_tex_tgt_2d gd pcfg :
  (glx_prepare_win_tex_tgt gd pcfg = GLX_TEXTURE_2D_EXT
   \/ glx_prepare_win_tex_tgt gd pcfg = GLX_TEXTURE_RECTANGLE_EXT)
  /\ (glx_prepare_win_tex_tgt gd pcfg = GLX_TEXTURE_2D_EXT
      <-> Z.land GLX_TEXTURE_2D_BIT_EXT (texture_tgts pcfg) <> 0
          /\ (cap_non_power_of_two_texture gd = true
              \/ Z.land GLX_TEXTURE_RECTANGLE_BIT_EXT (texture_tgts pcfg) = 0)).
Proof.
  unfold glx_prepare_win_tex_tgt.
  destruct (Z.eqb_spec (Z.land GLX_TEXTURE_2D_BIT_EXT (texture_tgts pcfg)) 0)
    as [E2 | E2];
    destruct (Z.eqb_spec
                (Z.land GLX_TEXTURE_RECTANGLE_BIT_EXT (texture_tgts pcfg)) 0)
      as [ER | ER];
    destruct (cap_non_power_of_two_texture gd); cbn [negb andb].
  all: split; [auto |].
  all: split; [intros H | intros [H1 H2]]; try discriminate;
    try contradiction; try reflexivity; auto.
  all: destruct H2; [discriminate | contradiction].
Qed.

(** ** Ranking configs *)

Lemma glx_cmp_fbconfig_cmpattr_value ps a b attr :
  glx_cmp_fbconfig_cmpattr ps a b attr
  = sub32 (attr_value (dpy ps) (cfg a) attr) (attr_value (dpy ps) (cfg b) attr).
Proof.
  unfold glx_cmp_fbconfig_cmpattr, glXGetFBConfigAttrib, attr_value.
  now destruct (fbattrib (dpy ps) (cfg a) attr),
    (fbattrib (dpy ps) (cfg b) attr).
Qed.

Lemma P_CMPATTR_LT_exact ps a b attr k :
  - 2 ^ 30 <= attr_value (dpy ps) (cfg a) attr < 2 ^ 30 ->
  - 2 ^ 30 <= attr_value (dpy ps) (cfg b) attr < 2 ^ 30 ->
  P_CMPATTR_LT ps a b attr k
  = first_nonzero
      [attr_value (dpy ps) (cfg b) attr - attr_value (dpy ps) (cfg a) attr; k].
Proof.
  intros Ha Hb. unfold P_CMPATTR_LT.
  rewrite glx_cmp_fbconfig_cmpattr_value, sub32_exact by lia.
  cbn [first_nonzero].
  destruct (Z.eqb_spec (attr_value (dpy ps) (cfg a) attr
                        - attr_value (dpy ps) (cfg b) attr) 0) as [E | E];
    destruct (Z.eqb_spec (attr_value (dpy ps) (cfg b) attr
                          - attr_value (dpy ps) (cfg a) attr) 0) as [E' | E'];
    cbn [negb]; try lia.
  - now destruct (Z.eqb_spec k 0).
  - rewrite neg32_exact by lia. lia.
Qed.

Lemma P_CMPATTR_GT_exact ps a b attr k :
  - 2 ^ 30 <= attr_value (dpy ps) (cfg a) attr < 2 ^ 30 ->
  - 2 ^ 30 <= attr_value (dpy ps) (cfg b) attr < 2 ^ 30 ->
  P_CMPATTR_GT ps a b attr k
  = first_nonzero
      [attr_value (dpy ps) (cfg a) attr - attr_value (dpy ps) (cfg b) attr; k].
Proof.
  intros Ha Hb. unfold P_CMPATTR_GT.
  rewrite glx_cmp_fbconfig_cmpattr_value, sub32_exact by lia.
  cbn [first_nonzero].
  destruct (Z.eqb_spec (attr_value (dpy ps) (cfg a) attr
                        - attr_value (dpy ps) (cfg b) attr) 0) as [E | E];
    cbn [negb]; [| reflexivity].
  now destruct (Z.eqb_spec k 0).
Qed.

(** X10: on two configs of red size 8 whose ranked attributes are
    small enough for the subtractions of the source not to overflow,
    [glx_cmp_fbconfig] is the lexicographic comparison of RGBA-bind
    support, double buffering, stencil size and depth size, each with
    the lower value ranked higher, then of mipmap-bind support with the
    higher value ranked higher; a query that fails counts as 0. *)
Theorem glx_cmp_fbconfig_lexicographic indet ps a b :
  fbattrib (dpy ps) (cfg a) GLX_RED_SIZE = Some 8 ->
  fbattrib (dpy ps) (cfg b) GLX_RED_SIZE = Some 8 ->
  small_attrs (dpy ps) (cfg a) ->
  small_attrs (dpy ps) (cfg b) ->
  glx_cmp_fbconfig indet ps (Some a) (Some b)
  = lexicographic_rank (dpy ps) (cfg a) (cfg b).
Proof.
  intros Ra Rb Sa Sb. rewrite glx_cmp_fbconfig_both_8 by assumption.
  unfold lexicographic_rank.
  rewrite P_CMPATTR_GT_exact
    by (first [apply Sa | apply Sb]; unfold ranked_attrs; simpl; tauto).
  rewrite !P_CMPATTR_LT_exact
    by (first [apply Sa | apply Sb]; unfold ranked_attrs; simpl; tauto).
  cbn [first_nonzero].
  repeat match goal with
         | |- context [if ?x =? 0 then _ else _] =>
           lazymatch x with
           | context [if _ then _ else _] => fail
           | _ => destruct (Z.eqb_spec x 0)
           end
         end; try reflexivity; congruence.
Qed.

(** Config 3 (no RGBA bind) against config 4 (RGBA bind): the stored
    config 4 is ranked below the candidate 3. *)
Lemma glx_cmp_fbconfig_lexicographic_witness :
  glx_cmp_fbconfig 0 sample_ps (Some (sample_fbconfig 4 0))
                               (Some (sample_fbconfig 3 0)) = -1.
Proof.
  rewrite (glx_cmp_fbconfig_lexicographic 0 sample_ps
             (sample_fbconfig 4 0) (sample_fbconfig 3 0)).
  - reflexivity.
  - reflexivity.
  - reflexivity.
  - intros a Ha. unfold ranked_attrs in Ha. simpl in Ha.
    destruct Ha as [<- | [<- | [<- | [<- | [<- | []]]]]]; vm_compute;
      (split; [discriminate | reflexivity]).
  - intros a Ha. unfold ranked_attrs in Ha. simpl in Ha.
    destruct Ha as [<- | [<- | [<- | [<- | [<- | []]]]]]; vm_compute;
      (split; [discriminate | reflexivity]).
Defined.

(** ** Updating a slot of the table *)

Lemma set_fbconfigs_fbconfigs gd t : fbconfigs (set_fbconfigs gd t) = t.
Proof. reflexivity. Qed.

Lemma set_fbconfigs_twice gd t t' :
  set_fbconfigs (set_fbconfigs gd t) t' = set_fbconfigs gd t'.
Proof. reflexivity. Qed.

Lemma set_fbconfigs_same gd : set_fbconfigs gd (fbconfigs gd) = gd.
Proof. now destruct gd. Qed.

(** X11: an empty slot inside the table takes whatever candidate is
    offered for it, a config of 10-bit colour included: against a null
    stored config the comparator does not look at the candidate. *)
Theorem glx_update_fbconfig_bydepth_empty_slot indet ps gd depth pfbcfg :
  0 <= depth <= OPENGL_MAX_DEPTH ->
  fbconfigs gd !! depth = None ->
  glx_update_fbconfig_bydepth indet ps gd depth pfbcfg
  = Some (set_fbconfigs gd (<[depth := pfbcfg]> (fbconfigs gd))).
Proof.
  intros Hd Hnone. rewrite glx_update_fbconfig_bydepth_in_range by assumption.
  now rewrite Hnone.
Qed.

Lemma glx_update_fbconfig_bydepth_empty_slot_witness :
  glx_update_fbconfig_bydepth 0 sample_ps (sample_glx_data 1 ∅) 30
    (sample_fbconfig 1 GLX_TEXTURE_FORMAT_RGB_EXT)
  = Some (sample_glx_data 1
            {[ 30 := sample_fbconfig 1 GLX_TEXTURE_FORMAT_RGB_EXT ]}).
Proof.
  rewrite (glx_update_fbconfig_bydepth_empty_slot 0 sample_ps
             (sample_glx_data 1 ∅) 30
             (sample_fbconfig 1 GLX_TEXTURE_FORMAT_RGB_EXT)).
  - reflexivity.
  - unfold OPENGL_MAX_DEPTH. lia.
  - reflexivity.
Defined.

(** X12: offered for the same empty slot, a config of red size 8 and a
    config of another red size leave the former in the slot, in
    whichever order they come. *)
Theorem glx_update_fbconfig_bydepth_prefers_8bit indet ps gd depth a b rb :
  0 <= depth <= OPENGL_MAX_DEPTH ->
  fbconfigs gd !! depth = None ->
  fbattrib (dpy ps) (cfg a) GLX_RED_SIZE = Some 8 ->
  fbattrib (dpy ps) (cfg b) GLX_RED_SIZE = Some rb ->
  rb <> 8 ->
  (glx_update_fbconfig_bydepth indet ps gd depth a
     ≫= fun gd1 => glx_update_fbconfig_bydepth indet ps gd1 depth b)
  = Some (set_fbconfigs gd (<[depth := a]> (fbconfigs gd)))
  /\ (glx_update_fbconfig_bydepth indet ps gd depth b
        ≫= fun gd1 => glx_update_fbconfig_bydepth indet ps gd1 depth a)
     = Some (set_fbconfigs gd (<[depth := a]> (fbconfigs gd))).
Proof.
  intros Hd Hnone Ra Rb Hrb.
  rewrite !glx_update_fbconfig_bydepth_in_range by assumption.
  rewrite Hnone. cbn [glx_cmp_fbconfig Z.ltb Z.compare mbind option_bind].
  rewrite !glx_update_fbconfig_bydepth_in_range by assumption.
  rewrite !set_fbconfigs_fbconfigs, !lookup_insert_eq.
  rewrite (glx_cmp_fbconfig_second_not_8 indet ps a b rb) by assumption.
  rewrite (glx_cmp_fbconfig_first_not_8 indet ps b a rb) by assumption.
  cbn. rewrite set_fbconfigs_twice, insert_insert_eq. split; reflexivity.
Qed.

Lemma glx_update_fbconfig_bydepth_prefers_8bit_witness :
  (glx_update_fbconfig_bydepth 0 sample_ps (sample_glx_data 1 ∅) 24
     (sample_fbconfig 1 0)
     ≫= fun gd1 => glx_update_fbconfig_bydepth 0 sample_ps gd1 24
                     (sample_fbconfig 3 0))
  = Some (sample_glx_data 1 {[ 24 := sample_fbconfig 3 0 ]}).
Proof.
  apply (glx_update_fbconfig_bydepth_prefers_8bit 0 sample_ps
           (sample_glx_data 1 ∅) 24 (sample_fbconfig 3 0)
           (sample_fbconfig 1 0) 10).
  - unfold OPENGL_MAX_DEPTH. lia.
  - reflexivity.
  - reflexivity.
  - reflexivity.
  - discriminate.
Defined.

(** ** The table after the enumeration *)

(** One update changes at most the slot it is offered for, to the
    candidate, and nothing else of the backend data. *)
Lemma glx_update_fbconfig_bydepth_effect indet ps gd depth pfbcfg gd' :
  glx_update_fbconfig_bydepth indet ps gd depth pfbcfg = Some gd' ->
  gd' = gd
  \/ (0 <= depth <= OPENGL_MAX_DEPTH
      /\ gd' = set_fbconfigs gd (<[depth := pfbcfg]> (fbconfigs gd))).
Proof.
  intros H.
  destruct (Z_lt_dec depth 0) as [L | L];
    [rewrite glx_update_fbconfig_bydepth_ignored in H by lia;
     injection H as <-; now left |].
  destruct (Z_lt_dec OPENGL_MAX_DEPTH depth) as [G | G];
    [rewrite glx_update_fbconfig_bydepth_ignored in H by lia;
     injection H as <-; now left |].
  rewrite glx_update_fbconfig_bydepth_in_range in H by lia.
  injection H as <-. destruct (_ <? 0); [right | left]; auto with zarith.
Qed.

Lemma glx_update_fbconfig_rgb_qualifies indet ps pr gd :
  glx_update_fbconfig_rgb indet ps pr gd
  = if qualifies_rgb pr
    then glx_update_fbconfig_bydepth indet ps gd
           (sub32 (pr_depth pr) (pr_depth_alpha pr))
           (set_texture_fmt (pr_fbinfo pr) GLX_TEXTURE_FORMAT_RGB_EXT)
    else Some gd.
Proof. reflexivity. Qed.

Lemma glx_update_fbconfig_iter_effect indet ps gd pcur gd' :
  glx_update_fbconfig_iter indet ps gd pcur = Some gd' ->
  gd' = set_fbconfigs gd (fbconfigs gd')
  /\ forall k,
       fbconfigs gd' !! k = fbconfigs gd !! k
       \/ exists x, fbconfigs gd' !! k = Some x /\ offered ps pcur k x.
Proof.
  rewrite glx_update_fbconfig_iter_steps.
  destruct (glx_update_fbconfig_probe ps pcur) as [pr |] eqn:Hpr;
    [| intros [= <-]; split; [now rewrite set_fbconfigs_same | now left]].
  rewrite glx_update_fbconfig_rgb_qualifies.
  unfold glx_update_fbconfig_rgba.
  destruct (qualifies_rgb pr) eqn:Qrgb; destruct (qualifies_rgba pr) eqn:Qrgba.
  - destruct (glx_update_fbconfig_bydepth indet ps gd _ _) as [gd1 |] eqn:H1;
      [| discriminate].
    intros H2.
    apply glx_update_fbconfig_bydepth_effect in H1, H2.
    destruct H1 as [-> | [R1 ->]], H2 as [-> | [R2 ->]];
      cbn [fbconfigs set_fbconfigs];
      (split; [now destruct gd |]); intros k.
    + now left.
    + destruct (Z.eq_dec (pr_depth pr) k) as [<- | N];
        [right | left; now rewrite lookup_insert_ne].
      eexists. split; [apply lookup_insert_eq |].
      exists pr. split; [exact Hpr |]. split; [exact R2 |]. right. auto.
    + destruct (Z.eq_dec (sub32 (pr_depth pr) (pr_depth_alpha pr)) k)
        as [<- | N]; [right | left; now rewrite lookup_insert_ne].
      eexists. split; [apply lookup_insert_eq |].
      exists pr. split; [exact Hpr |]. split; [exact R1 |]. left. auto.
    + destruct (Z.eq_dec (pr_depth pr) k) as [<- | N].
      * right. eexists. split; [apply lookup_insert_eq |].
        exists pr. split; [exact Hpr |]. split; [exact R2 |]. right. auto.
      * rewrite lookup_insert_ne by assumption.
        destruct (Z.eq_dec (sub32 (pr_depth pr) (pr_depth_alpha pr)) k)
          as [<- | N']; [right | left; now rewrite lookup_insert_ne].
        eexists. split; [apply lookup_insert_eq |].
        exists pr. split; [exact Hpr |]. split; [exact R1 |]. left. auto.
  - destruct (glx_update_fbconfig_bydepth indet ps gd _ _) as [gd1 |] eqn:H1;
      [| discriminate].
    intros [= <-]. apply glx_update_fbconfig_bydepth_effect in H1.
    destruct H1 as [-> | [R1 ->]]; cbn [fbconfigs set_fbconfigs];
      (split; [now destruct gd |]); intros k; [now left |].
    destruct (Z.eq_dec (sub32 (pr_depth pr) (pr_depth_alpha pr)) k)
      as [<- | N]; [right | left; now rewrite lookup_insert_ne].
    eexists. split; [apply lookup_insert_eq |].
    exists pr. split; [exact Hpr |]. split; [exact R1 |]. left. auto.
  - cbn [mbind option_bind]. intros H2.
    apply glx_update_fbconfig_bydepth_effect in H2.
    destruct H2 as [-> | [R2 ->]]; cbn [fbconfigs set_fbconfigs];
      (split; [now destruct gd |]); intros k; [now left |].
    destruct (Z.eq_dec (pr_depth pr) k) as [<- | N];
      [right | left; now rewrite lookup_insert_ne].
    eexists. split; [apply lookup_insert_eq |].
    exists pr. split; [exact Hpr |]. split; [exact R2 |]. right. auto.
  - intros [= <-]. split; [now destruct gd | now left].
Qed.

Lemma glx_update_fbconfig_loop_effect indet ps l :
  forall gd gd',
    glx_update_fbconfig_loop indet ps gd l = Some gd' ->
    gd' = set_fbconfigs gd (fbconfigs gd')
    /\ forall k,
         fbconfigs gd' !! k = fbconfigs gd !! k
         \/ exists x pcur,
              fbconfigs gd' !! k = Some x /\ In pcur l /\ offered ps pcur k x.
Proof.
  induction l as [| pcur rest IH]; intros gd gd' H.
  - injection H as <-. split; [now destruct gd | now left].
  - cbn [glx_update_fbconfig_loop] in H.
    destruct (glx_update_fbconfig_iter indet ps gd pcur) as [gd1 |] eqn:H1;
      [| discriminate].
    cbn [mbind option_bind] in H.
    apply glx_update_fbconfig_iter_effect in H1 as [E1 K1].
    apply IH in H as [E2 K2]. split.
    + rewrite E2, E1 at 1. reflexivity.
    + intros k. destruct (K2 k) as [-> | (x & p & Hx & Hin & Hoff)].
      * destruct (K1 k) as [-> | (x & Hx & Hoff)]; [now left |].
        right. exists x, pcur. split; [exact Hx |]. split; [now left | exact Hoff].
      * right. exists x, p. split; [exact Hx |]. split; [now right | exact Hoff].
Qed.

(** What an offered entry looks like. *)
Lemma offered_entry ps pcur k x :
  offered ps pcur k x ->
  cfg x = pcur
  /\ fbvisual_depth (dpy ps) pcur = Some k
  /\ ((k < 32 /\ texture_fmt x = GLX_TEXTURE_FORMAT_RGB_EXT)
      \/ (k = 32 /\ texture_fmt x = GLX_TEXTURE_FORMAT_RGBA_EXT)).
Proof.
  intros (pr & Hpr & Hk & H).
  destruct (glx_update_fbconfig_probe_inv ps pcur pr Hpr)
    as (Hd & Ha & Hv & Hc & Hrgba).
  destruct H as [(Q & -> & ->) | (Q & -> & ->)].
  - unfold qualifies_rgb in Q.
    apply andb_true_iff in Q as [Q Q3]. apply andb_true_iff in Q as [Q1 Q2].
    apply Z.eqb_eq in Q1. apply Z.ltb_lt in Q2.
    split; [exact Hc |]. split; [now rewrite Hv, Q1 |]. left. auto.
  - unfold qualifies_rgba in Q. apply andb_true_iff in Q as [Q1 Q2].
    apply Z.eqb_eq in Q1. rewrite Hrgba in Q2.
    apply andb_true_iff in Q2 as [Q2 _]. apply andb_true_iff in Q2 as [Q2 _].
    apply Z.geb_le in Q2. unfold OPENGL_MAX_DEPTH in Hk.
    split; [exact Hc |]. split; [now rewrite Hv, Q1 |]. right.
    split; [lia | reflexivity].
Qed.

(** The entries of a table the loop builds from an empty one. *)
Lemma glx_update_fbconfig_loop_entries indet ps gd gd' k x :
  fbconfigs gd = ∅ ->
  glx_update_fbconfig_loop indet ps gd (screen_fbconfigs (dpy ps)) = Some gd' ->
  fbconfigs gd' !! k = Some x ->
  0 <= k <= OPENGL_MAX_DEPTH
  /\ In (cfg x) (screen_fbconfigs (dpy ps))
  /\ fbvisual_depth (dpy ps) (cfg x) = Some k
  /\ ((k < 32 /\ texture_fmt x = GLX_TEXTURE_FORMAT_RGB_EXT)
      \/ (k = 32 /\ texture_fmt x = GLX_TEXTURE_FORMAT_RGBA_EXT)).
Proof.
  intros Hempty Hloop Hx.
  apply glx_update_fbconfig_loop_effect in Hloop as [_ K].
  destruct (K k) as [E | (y & pcur & Hy & Hin & Hoff)].
  - rewrite Hx, Hempty, lookup_empty in E. discriminate.
  - rewrite Hx in Hy. injection Hy as <-.
    destruct (offered_entry ps pcur k x Hoff) as (Hc & Hv & Hf).
    destruct Hoff as (pr & _ & Hk & _).
    rewrite Hc. auto.
Qed.

(** X13: after [glx_update_fbconfig], run on a table that is empty as
    [glx_init] leaves it, every entry of the table lies at a depth
    between 0 and [OPENGL_MAX_DEPTH], wraps one of the configs of the
    screen, sits at the depth of the visual of that config, and has the
    RGBA texture format at depth 32 and the RGB format below. *)
Theorem glx_update_fbconfig_entries indet gd ps ok gd' k x :
  fbconfigs gd = ∅ ->
  glx_update_fbconfig indet gd ps = Some (ok, gd') ->
  fbconfigs gd' !! k = Some x ->
  0 <= k <= OPENGL_MAX_DEPTH
  /\ In (cfg x) (screen_fbconfigs (dpy ps))
  /\ fbvisual_depth (dpy ps) (cfg x) = Some k
  /\ ((k < 32 /\ texture_fmt x = GLX_TEXTURE_FORMAT_RGB_EXT)
      \/ (k = 32 /\ texture_fmt x = GLX_TEXTURE_FORMAT_RGBA_EXT)).
Proof.
  intros Hempty H Hx. unfold glx_update_fbconfig in H.
  destruct (glx_update_fbconfig_loop indet ps gd (screen_fbconfigs (dpy ps)))
    as [gd1 |] eqn:Hloop; [| discriminate].
  cbn [mbind option_bind] in H.
  assert (gd' = gd1) as ->.
  { destruct (fbconfigs_get gd1 (depth ps)) as [[c |] |];
      cbn [mbind option_bind] in H; try discriminate.
    - destruct (fbconfigs_get gd1 32); cbn [mbind option_bind] in H;
        [now injection H | discriminate].
    - now injection H. }
  now apply (glx_update_fbconfig_loop_entries indet ps gd gd1 k x).
Qed.

Lemma glx_update_fbconfig_entries_witness :
  0 <= 24 <= OPENGL_MAX_DEPTH
  /\ In (cfg (sample_fbconfig 3 GLX_TEXTURE_FORMAT_RGB_EXT)) [3; 4; 1]
  /\ sample_visual_depth 3 = Some 24
  /\ ((24 < 32 /\ texture_fmt (sample_fbconfig 3 GLX_TEXTURE_FORMAT_RGB_EXT)
                  = GLX_TEXTURE_FORMAT_RGB_EXT)
      \/ (24 = 32 /\ texture_fmt (sample_fbconfig 3 GLX_TEXTURE_FORMAT_RGB_EXT)
                     = GLX_TEXTURE_FORMAT_RGBA_EXT)).
Proof.
  apply (glx_update_fbconfig_entries 0 (sample_glx_data 1 ∅)
           (sample_session (sample_dpy [3; 4; 1] 0 0 0 0) 24 false
              SWAPM_UNDEFINED [])
           true
           (sample_glx_data 1
              {[ 24 := sample_fbconfig 3 GLX_TEXTURE_FORMAT_RGB_EXT;
                 30 := sample_fbconfig 1 GLX_TEXTURE_FORMAT_RGB_EXT;
                 32 := sample_fbconfig 4 GLX_TEXTURE_FORMAT_RGBA_EXT ]})
           24 (sample_fbconfig 3 GLX_TEXTURE_FORMAT_RGB_EXT)).
  - reflexivity.
  - vm_compute. reflexivity.
  - reflexivity.
Defined.

Lemma glx_update_fbconfig_inv indet gd ps ok gd' :
  glx_update_fbconfig indet gd ps = Some (ok, gd') ->
  glx_update_fbconfig_loop indet ps gd (screen_fbconfigs (dpy ps)) = Some gd'
  /\ 0 <= depth ps <= OPENGL_MAX_DEPTH
  /\ ok = bool_decide (is_Some (fbconfigs gd' !! depth ps)).
Proof.
  unfold glx_update_fbconfig, fbconfigs_get. intros H.
  destruct (glx_update_fbconfig_loop indet ps gd (screen_fbconfigs (dpy ps)))
    as [gd1 |]; [| discriminate].
  cbn [mbind option_bind] in H.
  destruct (in_fbconfigs (depth ps)) eqn:Hin; [| discriminate].
  apply in_fbconfigs_spec in Hin. cbn [mbind option_bind] in H.
  destruct (fbconfigs gd1 !! depth ps) as [c |] eqn:E.
  - cbn in H. injection H as <- <-. rewrite E. auto.
  - injection H as <- <-. rewrite E. auto.
Qed.

(** X14: [glx_update_fbconfig] changes nothing of the backend data but
    the table, empties no slot, and leaves every index outside
    [[0, OPENGL_MAX_DEPTH]] without an entry if it had none. *)
Theorem glx_update_fbconfig_grows indet gd ps ok gd' :
  glx_update_fbconfig indet gd ps = Some (ok, gd') ->
  gd' = set_fbconfigs gd (fbconfigs gd')
  /\ (forall k, is_Some (fbconfigs gd !! k) -> is_Some (fbconfigs gd' !! k))
  /\ (forall k, k < 0 \/ OPENGL_MAX_DEPTH < k ->
                fbconfigs gd' !! k = fbconfigs gd !! k).
Proof.
  intros H. apply glx_update_fbconfig_inv in H as (Hloop & _ & _).
  apply glx_update_fbconfig_loop_effect in Hloop as [E K].
  split; [exact E |]. split; intros k Hk.
  - destruct (K k) as [-> | (x & _ & -> & _)]; [exact Hk | eauto].
  - destruct (K k) as [-> | (x & p & _ & _ & (pr & _ & R & _))];
      [reflexivity | lia].
Qed.

(** The table holds a config for depth 24; the screen offers config 4
    alone: the entry of depth 24 stays and one of depth 32 is added. *)
Lemma glx_update_fbconfig_grows_witness :
  is_Some (({[ 24 := sample_fbconfig 3 GLX_TEXTURE_FORMAT_RGB_EXT;
               32 := sample_fbconfig 4 GLX_TEXTURE_FORMAT_RGBA_EXT ]}
            : gmap Z glx_fbconfig_t) !! 24).
Proof.
  destruct (glx_update_fbconfig_grows 0 (sample_glx_data 1 sample_table)
              (sample_session (sample_dpy [4] 0 0 0 0) 24 false
                 SWAPM_UNDEFINED [])
              true
              (sample_glx_data 1
                 {[ 24 := sample_fbconfig 3 GLX_TEXTURE_FORMAT_RGB_EXT;
                    32 := sample_fbconfig 4 GLX_TEXTURE_FORMAT_RGBA_EXT ]}))
    as (_ & Hkeep & _).
  - vm_compute. reflexivity.
  - apply (Hkeep 24). vm_compute. eauto.
Defined.

Lemma glx_update_fbconfig_bydepth_fills indet ps gd depth pfbcfg gd' :
  0 <= depth <= OPENGL_MAX_DEPTH ->
  glx_update_fbconfig_bydepth indet ps gd depth pfbcfg = Some gd' ->
  is_Some (fbconfigs gd' !! depth).
Proof.
  intros Hd H. rewrite glx_update_fbconfig_bydepth_in_range in H by assumption.
  injection H as <-.
  destruct (fbconfigs gd !! depth) as [c |] eqn:E.
  - destruct (_ <? 0); cbn [fbconfigs set_fbconfigs];
      [rewrite lookup_insert_eq | rewrite E]; eauto.
  - cbn. rewrite lookup_insert_eq. eauto.
Qed.

Lemma glx_update_fbconfig_bydepth_keeps indet ps gd depth pfbcfg gd' k :
  glx_update_fbconfig_bydepth indet ps gd depth pfbcfg = Some gd' ->
  is_Some (fbconfigs gd !! k) -> is_Some (fbconfigs gd' !! k).
Proof.
  intros H Hk. apply glx_update_fbconfig_bydepth_effect in H.
  destruct H as [-> | [_ ->]]; [exact Hk |]. cbn [fbconfigs set_fbconfigs].
  destruct (Z.eq_dec depth k) as [<- | N];
    [rewrite lookup_insert_eq; eauto | now rewrite lookup_insert_ne].
Qed.

Lemma glx_update_fbconfig_iter_fills indet ps gd pcur pr k gd' :
  glx_update_fbconfig_probe ps pcur = Some pr ->
  0 <= k <= OPENGL_MAX_DEPTH ->
  (qualifies_rgb pr = true /\ k = sub32 (pr_depth pr) (pr_depth_alpha pr))
  \/ (qualifies_rgba pr = true /\ k = pr_depth pr) ->
  glx_update_fbconfig_iter indet ps gd pcur = Some gd' ->
  is_Some (fbconfigs gd' !! k).
Proof.
  intros Hpr Hk Hq. rewrite glx_update_fbconfig_iter_steps, Hpr.
  destruct (glx_update_fbconfig_rgb indet ps pr gd) as [gd1 |] eqn:H1;
    [| discriminate].
  intros H2. destruct Hq as [[Q ->] | [Q ->]].
  - rewrite glx_update_fbconfig_rgb_qualifies, Q in H1.
    apply glx_update_fbconfig_bydepth_fills in H1; [| assumption].
    unfold glx_update_fbconfig_rgba in H2.
    destruct (qualifies_rgba pr); [| now injection H2 as <-].
    now apply (glx_update_fbconfig_bydepth_keeps _ _ _ _ _ _ _ H2).
  - unfold glx_update_fbconfig_rgba in H2. rewrite Q in H2.
    now apply glx_update_fbconfig_bydepth_fills in H2.
Qed.

(** X15: when some config of the screen passes the queries and
    qualifies, as RGB or as RGBA, for a depth inside the table, the slot
    of that depth holds a config after [glx_update_fbconfig]; if that
    depth is the default depth, [glx_update_fbconfig] returns true. *)
Theorem glx_update_fbconfig_qualifying indet gd ps ok gd' pcur pr k :
  glx_update_fbconfig indet gd ps = Some (ok, gd') ->
  In pcur (screen_fbconfigs (dpy ps)) ->
  glx_update_fbconfig_probe ps pcur = Some pr ->
  0 <= k <= OPENGL_MAX_DEPTH ->
  (qualifies_rgb pr = true /\ k = sub32 (pr_depth pr) (pr_depth_alpha pr))
  \/ (qualifies_rgba pr = true /\ k = pr_depth pr) ->
  is_Some (fbconfigs gd' !! k) /\ (k = depth ps -> ok = true).
Proof.
  intros H Hin Hpr Hk Hq.
  apply glx_update_fbconfig_inv in H as (Hloop & _ & ->).
  assert (F : is_Some (fbconfigs gd' !! k)).
  { revert gd Hloop.
    induction (screen_fbconfigs (dpy ps)) as [| p rest IH]; intros gd Hloop;
      [destruct Hin |].
    cbn [glx_update_fbconfig_loop] in Hloop.
    destruct (glx_update_fbconfig_iter indet ps gd p) as [gd1 |] eqn:H1;
      [| discriminate].
    cbn [mbind option_bind] in Hloop.
    destruct Hin as [-> | Hin]; [| now apply (IH Hin gd1)].
    apply (glx_update_fbconfig_iter_fills _ _ _ _ _ _ _ Hpr Hk Hq) in H1.
    apply glx_update_fbconfig_loop_effect in Hloop as [_ K].
    destruct (K k) as [-> | (x & _ & -> & _)]; eauto. }
  split; [exact F |]. intros <-. now apply bool_decide_eq_true.
Qed.

(** The screen offers the 10-bit config 1 and the 24-bit config 3;
    the default depth is 24. *)
Lemma glx_update_fbconfig_qualifying_witness :
  exists gd',
    glx_update_fbconfig 0 (sample_glx_data 1 ∅)
      (sample_session (sample_dpy [1; 3] 0 0 0 0) 24 false SWAPM_UNDEFINED [])
    = Some (true, gd')
    /\ is_Some (fbconfigs gd' !! 24).
Proof.
  eexists. split; [vm_compute; reflexivity |].
  apply (glx_update_fbconfig_qualifying 0 (sample_glx_data 1 ∅)
           (sample_session (sample_dpy [1; 3] 0 0 0 0) 24 false
              SWAPM_UNDEFINED [])
           true _ 3
           {| pr_fbinfo := sample_fbconfig 3 0; pr_depth := 24;
              pr_depth_alpha := 0; pr_visualdepth := 24;
              pr_rgb := true; pr_rgba := false |}
           24).
  - vm_compute. reflexivity.
  - right. left. reflexivity.
  - reflexivity.
  - unfold OPENGL_MAX_DEPTH. lia.
  - left. split; reflexivity.
Defined.

(** ** The teardown on any state *)

(** X16: whatever state the backend data is in, complete or partly
    initialised, [glx_deinit] frees every slot of the table once and
    leaves it null, destroys the context exactly when there is one, and
    frees the backend data last. *)
Theorem glx_deinit_teardown gd ps k :
  0 <= k <= OPENGL_MAX_DEPTH ->
  List.filter (fun c => match c with
                        | C_free_fbconfig i _ => i =? k
                        | _ => false
                        end) (snd (glx_deinit gd ps))
  = [C_free_fbconfig k (fbconfigs gd !! k)]
  /\ fbconfigs (fst (glx_deinit gd ps)) !! k = None
  /\ ctx (fst (glx_deinit gd ps)) = 0
  /\ List.filter is_glXDestroyContext (snd (glx_deinit gd ps))
     = (if ctx gd =? 0 then [] else [C_glXDestroyContext (ctx gd)])
  /\ exists t, snd (glx_deinit gd ps) = t ++ [C_free_glx_data].
Proof.
  intros Hk. destruct (glx_deinit_state gd ps k Hk) as [Hn Hc].
  rewrite glx_deinit_calls.
  assert (B : forall (f : call -> bool) l,
             (forall s, f (C_gl_free_blur_shader s) = false) ->
             List.filter f (map C_gl_free_blur_shader l) = []).
  { intros f l Hf. induction l as [| s l IH]; [reflexivity |].
    cbn [map List.filter]. now rewrite Hf. }
  assert (F : forall (f : call -> bool) l,
             (forall i p, f (C_free_fbconfig i p) = false) ->
             List.filter f
               (map (fun j => C_free_fbconfig j (fbconfigs gd !! j)) l) = []).
  { intros f l Hf. induction l as [| s l IH]; [reflexivity |].
    cbn [map List.filter]. now rewrite Hf. }
  split; [| split; [exact Hn |]; split; [exact Hc |]; split].
  - rewrite !List.filter_app, B by reflexivity.
    cbn [List.filter app].
    replace (List.filter _ (if ctx gd =? 0 then [] else _)) with (@nil call)
      by now destruct (ctx gd =? 0).
    rewrite app_nil_r. unfold OPENGL_MAX_DEPTH in *.
    assert (C : k = 0 \/ k = 1 \/ k = 2 \/ k = 3 \/ k = 4 \/ k = 5 \/ k = 6
                \/ k = 7 \/ k = 8 \/ k = 9 \/ k = 10 \/ k = 11 \/ k = 12
                \/ k = 13 \/ k = 14 \/ k = 15 \/ k = 16 \/ k = 17 \/ k = 18
                \/ k = 19 \/ k = 20 \/ k = 21 \/ k = 22 \/ k = 23 \/ k = 24
                \/ k = 25 \/ k = 26 \/ k = 27 \/ k = 28 \/ k = 29 \/ k = 30
                \/ k = 31 \/ k = 32) by lia.
    repeat (destruct C as [-> | C]; [reflexivity |]). subst k. reflexivity.
  - rewrite !List.filter_app, B, F by reflexivity.
    cbn [List.filter app is_glXDestroyContext].
    now destruct (ctx gd =? 0).
  - eexists. rewrite !app_assoc. reflexivity.
Qed.

(** A backend data on which initialisation failed before a context was
    created: no context is destroyed, slot 24 is freed and null. *)
Lemma glx_deinit_teardown_witness :
  List.filter is_glXDestroyContext
    (snd (glx_deinit (sample_glx_data 0 sample_table) sample_ps)) = []
  /\ fbconfigs (fst (glx_deinit (sample_glx_data 0 sample_table) sample_ps))
     !! 24 = None.
Proof.
  destruct (glx_deinit_teardown (sample_glx_data 0 sample_table) sample_ps 24)
    as (_ & Hn & _ & Hc & _).
  - unfold OPENGL_MAX_DEPTH. lia.
  - split; [exact Hc | exact Hn].
Defined.

(** ** Looking up an extension *)

Lemma append_cons (a : ascii) (s t : string) :
  String.append (String a s) t = String a (String.append s t).
Proof. reflexivity. Qed.

Lemma append_empty (t : string) : String.append "" t = t.
Proof. reflexivity. Qed.

Lemma prefix_app (s1 s2 : string) :
  String.prefix s1 s2 = true <-> exists post, s2 = String.append s1 post.
Proof.
  revert s2. induction s1 as [| a s1 IH]; intros s2.
  - split; [intros _; now exists s2 | intros _; now destruct s2].
  - destruct s2 as [| b s2]; cbn [String.prefix].
    + split; [discriminate | intros [post H]; discriminate].
    + destruct (ascii_dec a b) as [<- | N].
      * rewrite IH. split; intros [post H]; exists post;
          rewrite append_cons in *; congruence.
      * split; [discriminate |].
        intros [post H]. rewrite append_cons in H. congruence.
Qed.

Lemma strstr_Some (haystack needle : string) :
  forall n,
    strstr haystack needle = Some n ->
    exists pre post,
      haystack = String.append pre (String.append needle post)
      /\ String.length pre = n
      /\ forall pre' post',
           haystack = String.append pre' (String.append needle post') ->
           (n <= String.length pre')%nat.
Proof.
  induction haystack as [| c rest IH]; intros n H; cbn [strstr] in H.
  - destruct (String.prefix needle "") eqn:P; [| discriminate].
    injection H as <-. apply prefix_app in P as [post P].
    exists ""%string, post. split; [exact P |]. split; [reflexivity |].
    intros; apply Nat.le_0_l.
  - destruct (String.prefix needle (String c rest)) eqn:P.
    + injection H as <-. apply prefix_app in P as [post P].
      exists ""%string, post. split; [exact P |]. split; [reflexivity |].
      intros; apply Nat.le_0_l.
    + destruct (strstr rest needle) as [m |] eqn:E; [| discriminate].
      injection H as <-.
      destruct (IH m eq_refl) as (pre & post & Hrest & <- & Hfirst).
      exists (String c pre), post. rewrite append_cons.
      split; [now rewrite <- Hrest |]. split; [reflexivity |].
      intros pre' post' Heq. destruct pre' as [| c' pre'].
      * rewrite append_empty in Heq.
        assert (String.prefix needle (String c rest) = true)
          by (apply prefix_app; eauto).
        congruence.
      * rewrite append_cons in Heq. injection Heq as _ Heq.
        cbn [String.length]. apply le_n_S. now apply (Hfirst pre' post').
Qed.

Lemma strstr_None (haystack needle : string) :
  strstr haystack needle = None ->
  forall pre post,
    haystack <> String.append pre (String.append needle post).
Proof.
  induction haystack as [| c rest IH]; intros H pre post Heq;
    cbn [strstr] in H.
  - destruct (String.prefix needle "") eqn:P; [discriminate |].
    destruct pre; [| rewrite append_cons in Heq; discriminate].
    rewrite append_empty in Heq.
    assert (String.prefix needle "" = true) by (apply prefix_app; eauto).
    congruence.
  - destruct (String.prefix needle (String c rest)) eqn:P; [discriminate |].
    destruct (strstr rest needle) eqn:E; [discriminate |].
    destruct pre as [| c' pre].
    + rewrite append_empty in Heq.
      assert (String.prefix needle (String c rest) = true)
        by (apply prefix_app; eauto).
      congruence.
    + rewrite append_cons in Heq. injection Heq as _ Heq.
      now apply (IH eq_refl pre post).
Qed.

Lemma char_at_app (pre s : string) (i : nat) :
  char_at (String.append pre s) (String.length pre + i) = char_at s i.
Proof.
  unfold char_at. induction pre as [| c pre IH]; [reflexivity | exact IH].
Qed.

Lemma char_at_after (pre needle post : string) :
  char_at (String.append pre (String.append needle post))
    (String.length pre + String.length needle)
  = char_at post 0.
Proof.
  rewrite char_at_app.
  rewrite <- (Nat.add_0_r (String.length needle)). apply char_at_app.
Qed.

(** X17: when [glx_has_extension] returns true, the name occurs in the
    list of extensions, and its first occurrence is followed by a space
    or ends the list; what precedes the occurrence is not examined. *)
Theorem glx_has_extension_true glx_exts ext :
  glx_has_extension glx_exts ext = Some true ->
  exists exts pre post,
    glx_exts = Some exts
    /\ exts = String.append pre (String.append ext post)
    /\ (forall pre' post',
           exts = String.append pre' (String.append ext post') ->
           (String.length pre <= String.length pre')%nat)
    /\ (post = ""%string
        \/ exists c rest, post = String c rest
                          /\ (c = " "%char \/ c = Ascii.zero)).
Proof.
  unfold glx_has_extension. destruct glx_exts as [exts |]; [| discriminate].
  destruct (strstr exts ext) as [n |] eqn:E; [| discriminate].
  destruct (strstr_Some exts ext n E) as (pre & post & -> & <- & Hfirst).
  rewrite char_at_after. intros H.
  exists (String.append pre (String.append ext post)), pre, post.
  split; [reflexivity |]. split; [reflexivity |]. split; [exact Hfirst |].
  destruct post as [| c rest]; [now left | right].
  exists c, rest. split; [reflexivity |]. cbn in H.
  destruct (Ascii.eqb_spec c " "); [now left |].
  destruct (Ascii.eqb_spec c Ascii.zero); [now right | discriminate].
Qed.

Lemma glx_has_extension_true_witness :
  exists exts pre post,
    Some "GLX_ARB_multisample GLX_EXT_texture_from_pixmap GLX_SGI_swap_control"%string
    = Some exts
    /\ exts = String.append pre
                (String.append "GLX_EXT_texture_from_pixmap"%string post)
    /\ (forall pre' post',
           exts = String.append pre'
                    (String.append "GLX_EXT_texture_from_pixmap"%string post')
           -> (String.length pre <= String.length pre')%nat)
    /\ (post = ""%string
        \/ exists c rest, post = String c rest
                          /\ (c = " "%char \/ c = Ascii.zero)).
Proof.
  apply (glx_has_extension_true
           (Some "GLX_ARB_multisample GLX_EXT_texture_from_pixmap GLX_SGI_swap_control"%string)
           "GLX_EXT_texture_from_pixmap"%string).
  reflexivity.
Defined.

(** X18: [glx_has_extension] returns false exactly when there is no
    list of extensions or the name occurs nowhere in it. *)
Theorem glx_has_extension_false glx_exts ext :
  glx_has_extension glx_exts ext = Some false
  <-> glx_exts = None
      \/ exists exts,
           glx_exts = Some exts
           /\ forall pre post,
                exts <> String.append pre (String.append ext post).
Proof.
  unfold glx_has_extension. split.
  - destruct glx_exts as [exts |]; [| now left].
    destruct (strstr exts ext) as [n |] eqn:E.
    + destruct (_ || _); discriminate.
    + intros _. right. exists exts. split; [reflexivity |].
      now apply strstr_None.
  - intros [-> | (exts & -> & Hno)]; [reflexivity |].
    destruct (strstr exts ext) as [n |] eqn:E; [| reflexivity].
    destruct (strstr_Some exts ext n E) as (pre & post & Heq & _).
    now destruct (Hno pre post).
Qed.

(** X19: when the list of extensions begins with a longer name of
    which the name looked up is a prefix, the assertion of
    [glx_has_extension] fails, whatever follows in the list, the name
    itself included. *)
Theorem glx_has_extension_assertion ext c rest :
  c <> " "%char -> c <> Ascii.zero ->
  glx_has_extension (Some (String.append ext (String c rest))) ext = None.
Proof.
  intros Hs Hz. unfold glx_has_extension.
  assert (P : String.prefix ext (String.append ext (String c rest)) = true)
    by (apply prefix_app; eauto).
  assert (E : strstr (String.append ext (String c rest)) ext = Some 0%nat).
  { destruct (String.append ext (String c rest)); cbn [strstr]; now rewrite P. }
  rewrite E. cbn [Nat.add].
  pose proof (char_at_app ext (String c rest) 0) as H.
  rewrite Nat.add_0_r in H. rewrite H. cbn [char_at String.get].
  destruct (Ascii.eqb_spec c " "); [contradiction |].
  destruct (Ascii.eqb_spec c Ascii.zero); [contradiction | reflexivity].
Qed.

Lemma glx_has_extension_assertion_witness :
  glx_has_extension
    (Some "GLX_EXT_texture_from_pixmap GLX_EXT_texture"%string)
    "GLX_EXT_texture"%string
  = None.
Proof.
  apply (glx_has_extension_assertion "GLX_EXT_texture"%string "_"%char
           "from_pixmap GLX_EXT_texture"%string); discriminate.
Defined.

(** ** Initialising the backend *)

Lemma map_const_repeat (n : nat) (a b : Z) :
  map (fun _ => b) (List.repeat a n) = List.repeat b n.
Proof. induction n as [| n IH]; [reflexivity | cbn; now rewrite IH]. Qed.

Lemma glx_update_fbconfig_frame indet gd ps ok gd' :
  glx_update_fbconfig indet gd ps = Some (ok, gd') ->
  gd' = set_fbconfigs gd (fbconfigs gd').
Proof.
  intros H. apply glx_update_fbconfig_inv in H as (Hloop & _ & _).
  now apply glx_update_fbconfig_loop_effect in Hloop as [E _].
Qed.

(** Every way out of [glx_init] goes through its [end:] label, with the
    backend data, the visual info and the calls made so far. *)
Lemma glx_init_shape env indet ps r t :
  glx_init env indet ps = Some (r, t) ->
  exists gd pvis success t0,
    (r, t) = glx_init_end ps gd pvis success t0
    /\ (In (I_XGetVisualInfo (vis env)) t0 -> pvis = visual_info env)
    /\ (In I_glXCreateContext t0 -> ctx gd = created_context env)
    /\ (success = true ->
        pvis = visual_info env /\ pvis <> 0
        /\ ctx gd = created_context env /\ ctx gd <> 0
        /\ cap_non_power_of_two_texture gd = has_non_power_of_two env
        /\ blur_shader gd = List.repeat (-1) (MAX_BLUR_PASS env)
        /\ existsb is_I_deinit t0 = false
        /\ exists gd0,
             fbconfigs gd0 = ∅
             /\ glx_update_fbconfig indet gd0 ps = Some (true, gd)).
Proof.
  unfold glx_init.
  assert (Fail : forall gd pvis t0 (r' : option _glx_data) t',
             (In (I_XGetVisualInfo (vis env)) t0 -> pvis = visual_info env) ->
             (In I_glXCreateContext t0 -> ctx gd = created_context env) ->
             Some (glx_init_end ps gd pvis false t0) = Some (r', t') ->
             exists gd pvis success t0,
               (r', t') = glx_init_end ps gd pvis success t0
               /\ (In (I_XGetVisualInfo (vis env)) t0 ->
                   pvis = visual_info env)
               /\ (In I_glXCreateContext t0 -> ctx gd = created_context env)
               /\ (success = true ->
                   pvis = visual_info env /\ pvis <> 0
                   /\ ctx gd = created_context env /\ ctx gd <> 0
                   /\ cap_non_power_of_two_texture gd
                      = has_non_power_of_two env
                   /\ blur_shader gd = List.repeat (-1) (MAX_BLUR_PASS env)
                   /\ existsb is_I_deinit t0 = false
                   /\ exists gd0,
                        fbconfigs gd0 = ∅
                        /\ glx_update_fbconfig indet gd0 ps
                           = Some (true, gd))).
  { intros gd pvis t0 r' t' Hv Hc H. apply (inj Some) in H.
    exists gd, pvis, false, t0.
    split; [symmetry; exact H |]. split; [exact Hv |]. split; [exact Hc |].
    discriminate. }
  destruct (query_extension env) as [[ev er] |];
    [| apply Fail; intros []].
  destruct (Z.eqb_spec (visual_info env) 0) as [Ev | Ev];
    [apply Fail; [reflexivity | intros [H | []]; discriminate] |].
  destruct (config_use_gl env) as [v1 |];
    [| apply Fail; [reflexivity | intros [H | []]; discriminate]].
  destruct (v1 =? 0);
    [apply Fail; [reflexivity | intros [H | []]; discriminate] |].
  destruct (config_doublebuffer env) as [v2 |];
    [| apply Fail; [reflexivity | intros [H | []]; discriminate]].
  destruct (v2 =? 0);
    [apply Fail; [reflexivity | intros [H | []]; discriminate] |].
  destruct (glx_has_extension (extensions_string env) _) as [[|] |];
    cbn [mbind option_bind negb];
    [| apply Fail; [reflexivity | intros [H | []]; discriminate]
     | discriminate].
  cbn [ctx set_ctx].
  destruct (Z.eqb_spec (created_context env) 0) as [Ec | Ec];
    [apply Fail; reflexivity |].
  destruct (made_current env _ _); cbn [negb]; [| apply Fail; reflexivity].
  destruct (negb (glx_no_stencil env) && (stencil_bits env =? 0));
    [apply Fail; reflexivity |].
  destruct ((proc_glXBindTexImage env =? 0)
            || (proc_glXReleaseTexImage env =? 0));
    [apply Fail; reflexivity |].
  match goal with
  | |- context [glx_update_fbconfig indet ?g ps] =>
    set (gd0 := g);
    destruct (glx_update_fbconfig indet gd0 ps) as [[ok gd'] |] eqn:U
  end; cbn [mbind option_bind]; [| discriminate].
  pose proof (glx_update_fbconfig_frame _ _ _ _ _ U) as E.
  destruct ok; cbn [negb].
  - intros H. apply (inj Some) in H.
    exists gd', (visual_info env), true,
      ((([I_XGetVisualInfo (vis env)] ++ [I_glXCreateContext])
        ++ [I_glXMakeCurrent (if overlay ps =? 0 then root ps else overlay ps)
              (created_context env)])
       ++ glx_init_render_prep env ps).
    split; [symmetry; exact H |]. split; [reflexivity |].
    split; [now rewrite E |]. intros _.
    split; [reflexivity |]. split; [assumption |].
    rewrite E. cbn [ctx cap_non_power_of_two_texture blur_shader set_fbconfigs
                    gd0 set_cap set_ctx set_blur_shader set_glx_bases
                    zeroed_glx_data].
    split; [reflexivity |]. split; [assumption |]. split; [reflexivity |].
    split; [apply map_const_repeat |]. split.
    + unfold glx_init_render_prep.
      now destruct (glx_no_stencil env).
    + exists gd0. split; [reflexivity |]. now rewrite <- E.
  - apply Fail; [reflexivity |]. intros _. now rewrite E.
Qed.

Lemma glx_init_end_failure ps gd pvis t0 :
  glx_init_end ps gd pvis false t0
  = (None,
     (t0 ++ (if negb (pvis =? 0) then [I_XFree pvis] else []))
     ++ map I_deinit (snd (glx_deinit gd ps))).
Proof. reflexivity. Qed.

Lemma glx_init_end_success ps gd pvis t0 :
  glx_init_end ps gd pvis true t0
  = (Some gd, t0 ++ (if negb (pvis =? 0) then [I_XFree pvis] else [])).
Proof. reflexivity. Qed.

(** X20: when [glx_init] fails it leaves nothing behind: the visual
    info it obtained is freed, the context it created is destroyed, and
    the backend data is freed last. *)
Theorem glx_init_failure_rollback env indet ps t :
  glx_init env indet ps = Some (None, t) ->
  (In I_glXCreateContext t -> created_context env <> 0 ->
   In (I_deinit (C_glXDestroyContext (created_context env))) t)
  /\ (In (I_XGetVisualInfo (vis env)) t -> visual_info env <> 0 ->
      In (I_XFree (visual_info env)) t)
  /\ exists t0, t = t0 ++ [I_deinit C_free_glx_data].
Proof.
  intros H.
  destruct (glx_init_shape env indet ps None t H)
    as (gd & pvis & success & t0 & E & Hv & Hc & _).
  clear H.
  destruct success;
    [rewrite glx_init_end_success in E; apply (f_equal fst) in E;
     discriminate E |].
  rewrite glx_init_end_failure in E. apply (f_equal snd) in E.
  cbn [snd] in E. subst t.
  remember (snd (glx_deinit gd ps)) as D eqn:HD.
  assert (Ht0 : forall c,
             is_I_deinit c = false -> (forall p, c <> I_XFree p) ->
             In c ((t0 ++ (if negb (pvis =? 0) then [I_XFree pvis] else []))
                   ++ map I_deinit D) ->
             In c t0).
  { intros c Hd Hx Hin. rewrite !in_app_iff in Hin.
    destruct Hin as [[Hin | Hin] | Hin]; [exact Hin | |].
    - destruct (negb (pvis =? 0)); [| destruct Hin].
      destruct Hin as [<- | []]. now destruct (Hx pvis).
    - apply in_map_iff in Hin as (x & <- & _). discriminate Hd. }
  split; [| split].
  - intros Hin Hctx.
    apply Ht0 in Hin; [| reflexivity | intros p Hp; discriminate Hp].
    apply Hc in Hin. rewrite in_app_iff. right. apply in_map.
    rewrite HD, glx_deinit_calls, !in_app_iff. do 3 right. left.
    rewrite Hin. destruct (Z.eqb_spec (created_context env) 0);
      [contradiction | now left].
  - intros Hin Hvis.
    apply Ht0 in Hin; [| reflexivity | intros p Hp; discriminate Hp].
    apply Hv in Hin. subst pvis. rewrite !in_app_iff. left. right.
    destruct (Z.eqb_spec (visual_info env) 0); [contradiction | now left].
  - rewrite HD, glx_deinit_calls, !map_app. cbn [map].
    eexists. rewrite !app_assoc. reflexivity.
Qed.

Lemma glx_init_failure_rollback_witness :
  exists t,
    glx_init (sample_glx_init_env false) 0 sample_init_session = Some (None, t)
    /\ In (I_deinit (C_glXDestroyContext 77)) t
    /\ In (I_XFree 88) t.
Proof.
  eexists. split; [vm_compute; reflexivity |].
  match goal with
  | |- In _ ?t /\ _ =>
    destruct (glx_init_failure_rollback (sample_glx_init_env false) 0
                sample_init_session t) as (Hc & Hv & _)
  end.
  - vm_compute. reflexivity.
  - split.
    + apply Hc; [right; left; reflexivity | discriminate].
    + apply Hv; [left; reflexivity | discriminate].
Defined.

(** What a successful [glx_init] returns. *)
Lemma glx_init_success_inv env indet ps gd t :
  glx_init env indet ps = Some (Some gd, t) ->
  ctx gd = created_context env /\ ctx gd <> 0
  /\ visual_info env <> 0
  /\ cap_non_power_of_two_texture gd = has_non_power_of_two env
  /\ blur_shader gd = List.repeat (-1) (MAX_BLUR_PASS env)
  /\ (exists t0, t = t0 ++ [I_XFree (visual_info env)]
                 /\ existsb is_I_deinit t0 = false)
  /\ exists gd0,
       fbconfigs gd0 = ∅
       /\ glx_update_fbconfig indet gd0 ps = Some (true, gd).
Proof.
  intros H.
  destruct (glx_init_shape env indet ps (Some gd) t H)
    as (gd1 & pvis & success & t0 & E & _ & _ & Hs).
  clear H.
  destruct success;
    [| rewrite glx_init_end_failure in E; apply (f_equal fst) in E;
       discriminate E].
  rewrite glx_init_end_success in E.
  pose proof (f_equal fst E) as E1. pose proof (f_equal snd E) as E2.
  cbn [fst snd] in E1, E2. apply (inj Some) in E1. subst gd1 t. clear E.
  destruct (Hs eq_refl) as (-> & Hp & Hc & Hc0 & Hcap & Hblur & Hd & Hu).
  repeat (split; [assumption |]). split; [| exact Hu].
  exists t0. split; [| exact Hd].
  now destruct (Z.eqb_spec (visual_info env) 0).
Qed.

(** X21: a successful [glx_init] returns backend data with the context
    it created, a config for the default depth in the table, and every
    blur shader unset; it has freed the visual info and torn nothing
    down. *)
Theorem glx_init_success env indet ps gd t :
  glx_init env indet ps = Some (Some gd, t) ->
  ctx gd = created_context env /\ ctx gd <> 0
  /\ is_Some (fbconfigs gd !! depth ps)
  /\ 0 <= depth ps <= OPENGL_MAX_DEPTH
  /\ cap_non_power_of_two_texture gd = has_non_power_of_two env
  /\ blur_shader gd = List.repeat (-1) (MAX_BLUR_PASS env)
  /\ existsb is_I_deinit t = false
  /\ In (I_XFree (visual_info env)) t.
Proof.
  intros H.
  destruct (glx_init_success_inv env indet ps gd t H)
    as (Hc & Hc0 & Hv & Hcap & Hblur & (t0 & -> & Hd) & gd0 & _ & Hu).
  clear H. apply glx_update_fbconfig_inv in Hu as (_ & Hrange & Hok).
  split; [exact Hc |]. split; [exact Hc0 |].
  split; [symmetry in Hok; now apply bool_decide_eq_true in Hok |].
  split; [exact Hrange |]. split; [exact Hcap |]. split; [exact Hblur |].
  split.
  - rewrite existsb_app, Hd. reflexivity.
  - apply in_or_app. right. now left.
Qed.

Lemma glx_init_success_witness :
  exists gd t,
    glx_init (sample_glx_init_env true) 0 sample_init_session
    = Some (Some gd, t)
    /\ ctx gd = 77
    /\ is_Some (fbconfigs gd !! 24)
    /\ In (I_XFree 88) t.
Proof.
  eexists. eexists. split; [vm_compute; reflexivity |].
  match goal with
  | |- ctx ?gd = _ /\ _ /\ In _ ?t =>
    destruct (glx_init_success (sample_glx_init_env true) 0
                sample_init_session gd t)
      as (Hc & _ & Hs & _ & _ & _ & _ & Hx)
  end.
  - vm_compute. reflexivity.
  - split; [exact Hc |]. split; [exact Hs | exact Hx].
Defined.

(** X22: after a successful [glx_init], a window of the default depth
    always finds its config: the config has the RGBA texture format when
    the default depth is 32 and the RGB format otherwise, and
    [glx_prepare_win] returns a binding as soon as the pixmap, the GLX
    pixmap and the texture are obtained. *)
Theorem glx_init_then_prepare_win env indet ps gd t w :
  glx_init env indet ps = Some (Some gd, t) ->
  Z.of_N (g_depth w) = depth ps ->
  exists pcfg,
    fbconfigs gd !! Z.of_N (g_depth w) = Some pcfg
    /\ texture_fmt pcfg = (if depth ps =? 32 then GLX_TEXTURE_FORMAT_RGBA_EXT
                           else GLX_TEXTURE_FORMAT_RGB_EXT)
    /\ In (cfg pcfg) (screen_fbconfigs (dpy ps))
    /\ (prepared_pixmap ps w <> 0 ->
        created_glxpixmap (dpy ps) (cfg pcfg) (prepared_pixmap ps w) <> 0 ->
        generated_texture (dpy ps) <> 0 ->
        is_Some (fst (glx_prepare_win gd ps w))).
Proof.
  intros H Hw.
  destruct (glx_init_success_inv env indet ps gd t H)
    as (_ & _ & _ & _ & _ & _ & gd0 & Hempty & Hu).
  clear H.
  destruct (glx_update_fbconfig_inv _ _ _ _ _ Hu) as (Hloop & Hrange & Hok).
  symmetry in Hok. apply bool_decide_eq_true in Hok as [pcfg Hcfg].
  exists pcfg. rewrite Hw. split; [exact Hcfg |].
  destruct (glx_update_fbconfig_loop_entries indet ps gd0 gd
              (depth ps) pcfg Hempty Hloop Hcfg) as (_ & Hin & _ & Hfmt).
  split; [| split; [exact Hin |]].
  - destruct Hfmt as [[Hlt ->] | [-> ->]]; [| reflexivity].
    destruct (Z.eqb_spec (depth ps) 32); [lia | reflexivity].
  - intros Hp Hg Ht. rewrite <- Hw in Hcfg, Hrange.
    rewrite (glx_prepare_win_cases gd ps w pcfg (proj2 Hrange) Hcfg).
    cbv zeta.
    destruct (Z.eqb_spec (prepared_pixmap ps w) 0); [contradiction |].
    destruct (Z.eqb_spec (created_glxpixmap (dpy ps) (cfg pcfg)
                            (prepared_pixmap ps w)) 0); [contradiction |].
    destruct (Z.eqb_spec (generated_texture (dpy ps)) 0); [contradiction |].
    cbn [fst]. eauto.
Qed.

Lemma glx_init_then_prepare_win_witness :
  exists gd t pcfg,
    glx_init (sample_glx_init_env true) 0 sample_init_session
    = Some (Some gd, t)
    /\ fbconfigs gd !! 24 = Some pcfg
    /\ texture_fmt pcfg = GLX_TEXTURE_FORMAT_RGB_EXT
    /\ is_Some (fst (glx_prepare_win gd sample_init_session (sample_win None))).
Proof.
  eexists. eexists.
  match goal with
  | |- exists pcfg, glx_init ?e ?i ?ps = Some (Some ?gd, ?t) /\ _ =>
    assert (H : glx_init e i ps = Some (Some gd, t))
      by (vm_compute; reflexivity);
    destruct (glx_init_then_prepare_win e i ps _ _ (sample_win None) H eq_refl)
      as (pcfg & Hcfg & Hfmt & _ & Hprep)
  end.
  exists pcfg. split; [exact H |]. split; [exact Hcfg |].
  split; [exact Hfmt |]. apply Hprep; discriminate.
Defined.

(** X23: the teardown of the backend data a successful [glx_init]
    returned destroys the context [glx_init] created and frees every
    config it stored in the table. *)
Theorem glx_init_then_deinit env indet ps gd t ps' :
  glx_init env indet ps = Some (Some gd, t) ->
  In (C_glXDestroyContext (created_context env)) (snd (glx_deinit gd ps'))
  /\ (forall k x, fbconfigs gd !! k = Some x ->
                  In (C_free_fbconfig k (Some x)) (snd (glx_deinit gd ps')))
  /\ List.filter is_glXDestroyContext (snd (glx_deinit gd ps'))
     = [C_glXDestroyContext (created_context env)].
Proof.
  intros H.
  destruct (glx_init_success_inv env indet ps gd t H)
    as (Hc & Hc0 & _ & _ & _ & _ & gd0 & Hempty & Hu).
  clear H. rewrite glx_deinit_calls. split; [| split].
  - rewrite !in_app_iff. do 3 right. left. rewrite <- Hc.
    destruct (Z.eqb_spec (ctx gd) 0); [contradiction | now left].
  - intros k x Hx.
    destruct (glx_update_fbconfig_loop_entries indet ps gd0 gd k x Hempty
                (proj1 (glx_update_fbconfig_inv _ _ _ _ _ Hu)) Hx)
      as (Hk & _).
    rewrite !in_app_iff. do 2 right. left.
    apply in_map_iff. exists k. split; [now rewrite Hx |].
    apply in_map_iff. exists (Z.to_nat k). split; [lia |].
    apply in_seq. unfold OPENGL_MAX_DEPTH in *. lia.
  - rewrite !List.filter_app.
    assert (B : forall l, List.filter is_glXDestroyContext
                            (map C_gl_free_blur_shader l) = [])
      by (induction l; [reflexivity | assumption]).
    assert (F : forall l, List.filter is_glXDestroyContext
                            (map (fun j => C_free_fbconfig j
                                             (fbconfigs gd !! j)) l) = [])
      by (induction l; [reflexivity | assumption]).
    rewrite B, F. cbn [List.filter app is_glXDestroyContext]. rewrite <- Hc.
    destruct (Z.eqb_spec (ctx gd) 0); [contradiction | reflexivity].
Qed.

Lemma glx_init_then_deinit_witness :
  exists gd t,
    glx_init (sample_glx_init_env true) 0 sample_init_session
    = Some (Some gd, t)
    /\ In (C_glXDestroyContext 77) (snd (glx_deinit gd sample_init_session)).
Proof.
  eexists. eexists.
  match goal with
  | |- glx_init ?e ?i ?ps = Some (Some ?gd, ?t) /\ _ =>
    assert (H : glx_init e i ps = Some (Some gd, t))
      by (vm_compute; reflexivity);
    destruct (glx_init_then_deinit e i ps _ _ sample_init_session H)
      as (Hc & _ & _)
  end.
  split; [exact H | exact Hc].
Defined.

(** ** Ties, and the flip applied twice *)

Lemma sub32_diag (v : Z) : sub32 v v = 0.
Proof. unfold sub32. now rewrite Z.sub_diag. Qed.

(** X24: a candidate that has red size 8 and the same values of the
    five ranked attributes as the stored config of red size 8 does not
    replace it: among equally ranked configs the first one offered for a
    depth stays. *)
Theorem glx_update_fbconfig_bydepth_tie indet ps gd depth stored pfbcfg :
  0 <= depth <= OPENGL_MAX_DEPTH ->
  fbconfigs gd !! depth = Some stored ->
  fbattrib (dpy ps) (cfg stored) GLX_RED_SIZE = Some 8 ->
  fbattrib (dpy ps) (cfg pfbcfg) GLX_RED_SIZE = Some 8 ->
  (forall a, In a ranked_attrs ->
             attr_value (dpy ps) (cfg stored) a
             = attr_value (dpy ps) (cfg pfbcfg) a) ->
  glx_update_fbconfig_bydepth indet ps gd depth pfbcfg = Some gd.
Proof.
  intros Hd Hs Rs Rc Heq.
  rewrite glx_update_fbconfig_bydepth_in_range by assumption. rewrite Hs.
  rewrite glx_cmp_fbconfig_both_8 by assumption.
  unfold P_CMPATTR_LT, P_CMPATTR_GT.
  rewrite !glx_cmp_fbconfig_cmpattr_value.
  rewrite !Heq by (unfold ranked_attrs; simpl; tauto).
  rewrite !sub32_diag. reflexivity.
Qed.

Lemma glx_update_fbconfig_bydepth_tie_witness :
  glx_update_fbconfig_bydepth 0 sample_ps
    (sample_glx_data 1 {[ 32 := sample_fbconfig 4 0 ]}) 32
    (sample_fbconfig 5 0)
  = Some (sample_glx_data 1 {[ 32 := sample_fbconfig 4 0 ]}).
Proof.
  apply (glx_update_fbconfig_bydepth_tie 0 sample_ps
           (sample_glx_data 1 {[ 32 := sample_fbconfig 4 0 ]}) 32
           (sample_fbconfig 4 0) (sample_fbconfig 5 0)).
  - unfold OPENGL_MAX_DEPTH. lia.
  - reflexivity.
  - reflexivity.
  - reflexivity.
  - intros a Ha. unfold ranked_attrs in Ha. simpl in Ha.
    destruct Ha as [<- | [<- | [<- | [<- | [<- | []]]]]]; reflexivity.
Defined.

Lemma sub32_sub32_same (h y : Z) : fits_int y -> sub32 h (sub32 h y) = y.
Proof.
  intros Hy. unfold sub32. destruct (wrap32_decompose (h - y)) as [k ->].
  replace (h - (h - y + k * 2 ^ 32)) with (y + (- k) * 2 ^ 32) by lia.
  rewrite wrap32_shift. now apply wrap32_exact.
Qed.

(** X25: composing with the region [glx_compose] handed to
    [gl_compose] gives back the original region: the flip of the y axis
    applied twice is the identity on rectangles whose coordinates are
    [int]s, whatever the height of the root window. *)
Theorem glx_compose_flip_twice gd ps w wd dst_x dst_y
    gd' w' wd' dst_x' dst_y' region :
  (forall r, In r region -> fits_int (y1 r) /\ fits_int (y2 r)) ->
  exists a1 a2,
    glx_compose gd ps w wd dst_x dst_y region = [C_gl_compose a1]
    /\ glx_compose gd' ps w' wd' dst_x' dst_y' (gc_reg_tgt a1)
       = [C_gl_compose a2]
    /\ gc_reg_tgt a2 = region
    /\ length (gc_reg_tgt a1) = length region.
Proof.
  intros Hfit. eexists. eexists. split; [reflexivity |].
  split; [reflexivity |]. cbn [gc_reg_tgt]. split; [| apply length_map].
  rewrite map_map. rewrite <- (map_id region) at 2.
  apply map_ext_in. intros r Hr. destruct (Hfit r Hr) as [H1 H2].
  unfold yflip. cbn [x1 y1 x2 y2].
  rewrite !sub32_sub32_same by assumption. now destruct r.
Qed.

Lemma glx_compose_flip_twice_witness :
  exists a1 a2,
    glx_compose (sample_glx_data 1 ∅) sample_ps (sample_win None)
      sample_binding 0 0 [{| x1 := 0; y1 := 0; x2 := 10; y2 := 20 |}]
    = [C_gl_compose a1]
    /\ glx_compose (sample_glx_data 1 ∅) sample_ps (sample_win None)
         sample_binding 0 0 (gc_reg_tgt a1)
       = [C_gl_compose a2]
    /\ gc_reg_tgt a2 = [{| x1 := 0; y1 := 0; x2 := 10; y2 := 20 |}]
    /\ length (gc_reg_tgt a1) = 1%nat.
Proof.
  apply (glx_compose_flip_twice (sample_glx_data 1 ∅) sample_ps
           (sample_win None) sample_binding 0 0
           (sample_glx_data 1 ∅) (sample_win None) sample_binding 0 0
           [{| x1 := 0; y1 := 0; x2 := 10; y2 := 20 |}]).
  intros r [<- | []]. unfold fits_int. simpl. lia.
Defined.

(** ** Instances of the equivalences above *)

Lemma glx_prepare_win_succeeds_iff_witness :
  is_Some (fst (glx_prepare_win (sample_glx_data 1 sample_table)
                  (sample_session (sample_dpy [] 5 7 9 0) 24 true
                     SWAPM_UNDEFINED [])
                  (sample_win None))).
Proof.
  apply (proj2 (glx_prepare_win_succeeds_iff (sample_glx_data 1 sample_table)
                  (sample_session (sample_dpy [] 5 7 9 0) 24 true
                     SWAPM_UNDEFINED [])
                  (sample_win None))).
  exists (sample_fbconfig 3 GLX_TEXTURE_FORMAT_RGB_EXT).
  split; [unfold OPENGL_MAX_DEPTH; simpl; lia |].
  split; [reflexivity |]. repeat split; discriminate.
Defined.

(** A config that can bind to both targets, in a context without
    non-power-of-two textures: the rectangle target is chosen. *)
Lemma glx_prepare_win_tex_tgt_2d_witness :
  glx_prepare_win_tex_tgt
    {| glx_event := 0; glx_error := 0; ctx := 1;
       cap_non_power_of_two_texture := false; win_shader := 11;
       blur_shader := []; fbconfigs := ∅ |}
    (sample_fbconfig 3 0)
  <> GLX_TEXTURE_2D_EXT.
Proof.
  intros H.
  apply (proj1 (proj2 (glx_prepare_win_tex_tgt_2d
                         {| glx_event := 0; glx_error := 0; ctx := 1;
                            cap_non_power_of_two_texture := false;
                            win_shader := 11; blur_shader := [];
                            fbconfigs := ∅ |}
                         (sample_fbconfig 3 0)))) in H.
  destruct H as [_ [H | H]]; discriminate H.
Defined.

Lemma glx_has_extension_false_witness :
  glx_has_extension None "GLX_EXT_texture_from_pixmap"%string = Some false.
Proof.
  apply (proj2 (glx_has_extension_false None
                  "GLX_EXT_texture_from_pixmap"%string)).
  left. reflexivity.
Defined.
